(** * AI Trip Planner: intent routing, location resolution and booking gate

    A shallow embedding of the backend's response pipeline
    (the OpenAI service with its travel-intent handlers), of the Amadeus
    service wrapper and of the booking controller, followed by the
    properties of the specification that were checked against them.

    Conventions of the embedding.
    - JavaScript strings are byte strings ([string]); the string
      primitives and the regular expressions below are exact on ASCII
      input.
    - JavaScript numbers that hold prices, confidences and coordinates are
      binary64 floats ([PrimFloat.float]); counters and timestamps are [Z].
    - A [Date] is its time value in milliseconds since the epoch, or
      [None] for an Invalid Date.  The host clock, the time zone, the
      engine's date parser and the locale formatters are fields of [Host];
      the clock is read once per run and local time is UTC plus a fixed
      offset.
    - [async] methods are sequential computations in the monad [M], which
      threads the trace of observable events and carries thrown errors.
      The provider SDK and the language model are oracles that see the
      trace so far.
    - [console] output is not modelled. *)

From Stdlib Require Import ZArith String Ascii List Bool Lia DecimalString.
From Stdlib Require Import PrimFloat Uint63 FloatOps.
Import ListNotations.

Set Warnings "-inexact-float".
Open Scope string_scope.
Open Scope list_scope.

(* ================================================================= *)
(** ** JavaScript string primitives (ASCII) *)

Module JS.

Definition code (c : ascii) : nat := nat_of_ascii c.

Definition between (lo hi : nat) (c : ascii) : bool :=
  (lo <=? code c)%nat && (code c <=? hi)%nat.

Definition isDigit (c : ascii) : bool := between 48 57 c.
Definition isUpper (c : ascii) : bool := between 65 90 c.
Definition isLower (c : ascii) : bool := between 97 122 c.
Definition isAlpha (c : ascii) : bool := isUpper c || isLower c.
Definition isAlnum (c : ascii) : bool := isAlpha c || isDigit c.

(** [\w] is [[A-Za-z0-9_]]. *)
Definition isWordChar (c : ascii) : bool := isAlnum c || (code c =? 95)%nat.

(** White space of [\s] and of [trim]: tab, line feed, vertical tab, form
    feed, carriage return and space. *)
Definition isSpace (c : ascii) : bool := between 9 13 c || (code c =? 32)%nat.

Definition lowerChar (c : ascii) : ascii :=
  if isUpper c then ascii_of_nat (code c + 32) else c.

Definition upperChar (c : ascii) : ascii :=
  if isLower c then ascii_of_nat (code c - 32) else c.

Fixpoint mapChars (f : ascii -> ascii) (s : string) : string :=
  match s with
  | EmptyString => EmptyString
  | String c t => String (f c) (mapChars f t)
  end.

Definition toLowerCase : string -> string := mapChars lowerChar.
Definition toUpperCase : string -> string := mapChars upperChar.

Fixpoint filterChars (p : ascii -> bool) (s : string) : string :=
  match s with
  | EmptyString => EmptyString
  | String c t => if p c then String c (filterChars p t) else filterChars p t
  end.

Fixpoint allChars (p : ascii -> bool) (s : string) : bool :=
  match s with
  | EmptyString => true
  | String c t => p c && allChars p t
  end.

Fixpoint trimStart (s : string) : string :=
  match s with
  | EmptyString => EmptyString
  | String c t => if isSpace c then trimStart t else s
  end.

(** [trimEnd] drops the trailing white space: a character is kept when
    something other than white space follows or it is not white space. *)
Fixpoint trimEnd (s : string) : string :=
  match s with
  | EmptyString => EmptyString
  | String c t =>
      match trimEnd t with
      | EmptyString => if isSpace c then EmptyString else String c EmptyString
      | t' => String c t'
      end
  end.

Definition trim (s : string) : string := trimEnd (trimStart s).

(** [s.includes(sub)]. *)
Fixpoint includes (s sub : string) : bool :=
  prefix sub s ||
  match s with
  | EmptyString => false
  | String _ t => includes t sub
  end.

(** [s.indexOf(sub)], [None] for -1. *)
Fixpoint indexOf (s sub : string) : option nat :=
  if prefix sub s then Some 0%nat
  else match s with
       | EmptyString => None
       | String _ t => option_map S (indexOf t sub)
       end.

(** [s.substring(n)] and [s.substring(0, n)]. *)
Fixpoint dropChars (n : nat) (s : string) : string :=
  match n, s with
  | O, _ => s
  | S n', String _ t => dropChars n' t
  | S _, EmptyString => EmptyString
  end.

Fixpoint takeChars (n : nat) (s : string) : string :=
  match n, s with
  | S n', String c t => String c (takeChars n' t)
  | _, _ => EmptyString
  end.

(** Truthiness of a string: the empty string is falsy. *)
Definition truthy (s : string) : bool :=
  match s with EmptyString => false | _ => true end.

(** Truthiness of an optional string field ([undefined] is falsy). *)
Definition truthyOpt (o : option string) : bool :=
  match o with Some s => truthy s | None => false end.

(** Decimal rendering of an integer, as [String(n)] gives for integers. *)
Definition showZ (n : Z) : string := NilZero.string_of_int (Z.to_int n).
Definition showNat (n : nat) : string := showZ (Z.of_nat n).

(** [arr.join(sep)]. *)
Fixpoint join (sep : string) (l : list string) : string :=
  match l with
  | [] => ""
  | [x] => x
  | x :: t => x ++ sep ++ join sep t
  end.

End JS.

(* ================================================================= *)
(** ** Regular expressions

    A backtracking matcher with the priorities of the ECMAScript
    semantics: alternatives are tried left to right, a greedy quantifier
    tries one more iteration before stopping and a lazy one stops first,
    an iteration that consumes nothing is refused once the minimum is
    reached.  A continuation receives the position and the captures
    reached so far and decides whether the rest of the pattern matches. *)

Module Regex.

(** Character classes: [CChar c] is a literal, [CRange] is [[lo-hi]],
    [CDigit], [CWord] and [CSpace] are [\d], [\w] and [\s]. *)
Inductive cset : Type :=
| CChar (c : ascii)
| CRange (lo hi : ascii)
| CDigit
| CWord
| CSpace
| CUnion (a b : cset).

Fixpoint inSet (cs : cset) (c : ascii) : bool :=
  match cs with
  | CChar d => Ascii.eqb c d
  | CRange lo hi => JS.between (JS.code lo) (JS.code hi) c
  | CDigit => JS.isDigit c
  | CWord => JS.isWordChar c
  | CSpace => JS.isSpace c
  | CUnion a b => inSet a c || inSet b c
  end.

(** With the [i] flag a character matches when either of its two cases is
    in the class. *)
Definition charMatches (icase : bool) (cs : cset) (c : ascii) : bool :=
  if icase
  then inSet cs (JS.lowerChar c) || inSet cs (JS.upperChar c)
  else inSet cs c.

Inductive re : Type :=
| Eps
| Chr (cs : cset)
| Seq (a b : re)
| Alt (a b : re)
| Rep (greedy : bool) (min : nat) (max : option nat) (a : re)
| Grp (n : nat) (a : re)      (* capturing group number [n] *)
| Bol                         (* ^ *)
| Eol                         (* $ *)
| WordB.                      (* \b *)

(** A position in the subject: the character before it and what is left. *)
Record pos : Type := mkPos { prev : option ascii; rest : string }.

Definition caps : Type := list (nat * string).
Definition answer : Type := option (pos * caps).
Definition cont : Type := pos -> caps -> answer.

Definition orElse (a : answer) (b : unit -> answer) : answer :=
  match a with Some x => Some x | None => b tt end.

Definition consumed (p p' : pos) : string :=
  JS.takeChars (String.length (rest p) - String.length (rest p')) (rest p).

Definition isWordAt (o : option ascii) : bool :=
  match o with Some c => JS.isWordChar c | None => false end.

Definition next (p : pos) : option ascii :=
  match rest p with String c _ => Some c | EmptyString => None end.

Definition belowMax (mx : option nat) (count : nat) : bool :=
  match mx with Some n => (count <? n)%nat | None => true end.

(** The loop of a quantifier over a body matched by [step]: [count]
    iterations have been made when the position [q] is reached.  The fuel
    bounds the iterations still to come; each of them consumes a
    character or counts towards the minimum. *)
Fixpoint repeatLoop (step : pos -> caps -> cont -> answer)
  (greedy : bool) (mn : nat) (mx : option nat) (k : cont)
  (fuel count : nat) (q : pos) (qs : caps) {struct fuel} : answer :=
  let stop (_ : unit) : answer :=
    if (mn <=? count)%nat then k q qs else None in
  let more (_ : unit) : answer :=
    match fuel with
    | O => None
    | S fuel' =>
        if belowMax mx count
        then step q qs
               (fun q' qs' =>
                  if (String.length (rest q') <? String.length (rest q))%nat
                     || (count <? mn)%nat
                  then repeatLoop step greedy mn mx k fuel' (S count) q' qs'
                  else None)
        else None
    end in
  if greedy then orElse (more tt) stop else orElse (stop tt) more.

Fixpoint run (icase : bool) (r : re) (p : pos) (cs : caps) (k : cont) {struct r} : answer :=
  match r with
  | Eps => k p cs
  | Chr s =>
      match rest p with
      | String c t => if charMatches icase s c then k (mkPos (Some c) t) cs else None
      | EmptyString => None
      end
  | Seq a b => run icase a p cs (fun p' cs' => run icase b p' cs' k)
  | Alt a b => orElse (run icase a p cs k) (fun _ => run icase b p cs k)
  | Grp n a => run icase a p cs (fun p' cs' => k p' ((n, consumed p p') :: cs'))
  | Bol => match prev p with None => k p cs | Some _ => None end
  | Eol => match rest p with EmptyString => k p cs | String _ _ => None end
  | WordB => if xorb (isWordAt (prev p)) (isWordAt (next p)) then k p cs else None
  | Rep greedy mn mx a =>
      repeatLoop (run icase a) greedy mn mx k
        (S (String.length (rest p)) + mn)%nat O p cs
  end.

(** A regular expression literal: its body and its [i] flag. *)
Record regex : Type := mkRegex { body : re; ignoreCase : bool }.

(** The result of [exec]: where the match starts, the matched text, the
    position after it and the captures (the latest binding first). *)
Record Match : Type := mkMatch {
  index : nat;
  text : string;
  endPos : pos;
  groups : caps
}.

Fixpoint lookupGroup (n : nat) (cs : caps) : option string :=
  match cs with
  | [] => None
  | (m, s) :: t => if (m =? n)%nat then Some s else lookupGroup n t
  end.

(** [match[n]]: [None] when the group took no part in the match. *)
Definition group (n : nat) (m : Match) : option string := lookupGroup n (groups m).

Fixpoint search (rx : regex) (idx : nat) (pv : option ascii) (s : string) {struct s}
  : option Match :=
  let p := mkPos pv s in
  match run (ignoreCase rx) (body rx) p [] (fun q cs => Some (q, cs)) with
  | Some (q, cs) => Some (mkMatch idx (consumed p q) q cs)
  | None =>
      match s with
      | EmptyString => None
      | String c t => search rx (S idx) (Some c) t
      end
  end.

(** [s.match(rx)] for a pattern without the [g] flag. *)
Definition exec (rx : regex) (s : string) : option Match := search rx O None s.

(** [rx.test(s)]. *)
Definition test (rx : regex) (s : string) : bool :=
  match exec rx s with Some _ => true | None => false end.

(** [s.replace(rx, f)] for a pattern with the [g] flag. *)
Fixpoint replaceFrom (fuel : nat) (rx : regex) (f : Match -> string)
  (pv : option ascii) (s : string) : string :=
  match fuel with
  | O => s
  | S fuel' =>
      match search rx O pv s with
      | None => s
      | Some m =>
          let pre := JS.takeChars (index m) s in
          match text m with
          | EmptyString =>
              match JS.dropChars (index m) s with
              | EmptyString => pre ++ f m
              | String c t => pre ++ f m ++ String c (replaceFrom fuel' rx f (Some c) t)
              end
          | _ => pre ++ f m ++ replaceFrom fuel' rx f (prev (endPos m)) (rest (endPos m))
          end
      end
  end.

Definition replaceAll (rx : regex) (f : Match -> string) (s : string) : string :=
  replaceFrom (S (String.length s)) rx f None s.

(** *** Pattern combinators *)

Fixpoint lit (s : string) : re :=
  match s with
  | EmptyString => Eps
  | String c EmptyString => Chr (CChar c)
  | String c t => Seq (Chr (CChar c)) (lit t)
  end.

Fixpoint seqs (l : list re) : re :=
  match l with
  | [] => Eps
  | [r] => r
  | r :: t => Seq r (seqs t)
  end.

Fixpoint alts (l : list re) : re :=
  match l with
  | [] => Eps
  | [r] => r
  | r :: t => Alt r (alts t)
  end.

Definition opt (r : re) : re := Rep true 0 (Some 1%nat) r.       (* r? *)
Definition star (r : re) : re := Rep true 0 None r.              (* r* *)
Definition plus (r : re) : re := Rep true 1 None r.              (* r+ *)
Definition plusLazy (r : re) : re := Rep false 1 None r.         (* r+? *)
Definition times (m n : nat) (r : re) : re := Rep true m (Some n) r. (* r{m,n} *)

Definition ws : re := Chr CSpace.                                (* \s *)
Definition digit : re := Chr CDigit.                             (* \d *)
Definition letter : cset := CUnion (CRange "A" "Z") (CRange "a" "z"). (* A-Za-z *)

(** [/.../i] and [/.../]. *)
Definition rxi (l : list re) : regex := mkRegex (seqs l) true.
Definition rx (l : list re) : regex := mkRegex (seqs l) false.

End Regex.

(* ================================================================= *)
(** ** Dates

    A [Date] holds a time value in milliseconds since 1970-01-01T00:00Z.
    Calendar fields are computed in the proleptic Gregorian calendar;
    local time is UTC shifted by a fixed offset (no daylight saving). *)

Module JSDate.

Open Scope Z_scope.

Definition msPerDay : Z := 86400000.

(** Days since the epoch of the civil date [y]-[m]-[d]. *)
Definition daysFromCivil (y m d : Z) : Z :=
  let y' := if m <=? 2 then y - 1 else y in
  let era := y' / 400 in
  let yoe := y' - era * 400 in
  let mp := if 2 <? m then m - 3 else m + 9 in
  let doy := (153 * mp + 2) / 5 + d - 1 in
  let doe := yoe * 365 + yoe / 4 - yoe / 100 + doy in
  era * 146097 + doe - 719468.

(** The civil date (year, month, day) of a day number. *)
Definition civilFromDays (z : Z) : Z * Z * Z :=
  let z' := z + 719468 in
  let era := z' / 146097 in
  let doe := z' - era * 146097 in
  let yoe := (doe - doe / 1460 + doe / 36524 - doe / 146096) / 365 in
  let doy := doe - (365 * yoe + yoe / 4 - yoe / 100) in
  let mp := (5 * doy + 2) / 153 in
  let d := doy - (153 * mp + 2) / 5 + 1 in
  let m := if mp <? 10 then mp + 3 else mp - 9 in
  let y := yoe + era * 400 in
  ((if m <=? 2 then y + 1 else y), m, d).

(** A non-negative number in decimal, left-padded with zeros to [w] digits. *)
Definition pad (w : nat) (n : Z) : string :=
  let s := JS.showZ n in
  JS.join "" (repeat "0"%string (w - String.length s)) ++ s.

(** [date.toISOString().split('T')[0]]: the UTC calendar date, the year on
    four digits, or signed on six outside 0..9999. *)
Definition isoDate (t : Z) : string :=
  let '(y, m, d) := civilFromDays (t / msPerDay) in
  let year :=
    if (0 <=? y) && (y <=? 9999) then pad 4 y
    else ((if (y <? 0)%Z then "-" else "+") ++ pad 6 (Z.abs y))%string in
  (year ++ "-" ++ pad 2 m ++ "-" ++ pad 2 d)%string.

Close Scope Z_scope.

End JSDate.

(** An element of the [errors] array of a provider error document, as
    [JSON.parse] returns it. *)
Record ParsedError : Type := mkParsedError {
  parsedDetail : option string;
  parsedTitle : option string
}.

(** The host: what the JavaScript engine and its environment provide. *)
Record Host : Type := mkHost {
  (** [new Date().getTime()] *)
  now : Z;
  (** local time minus UTC, in milliseconds *)
  tzOffset : Z;
  (** [new Date(str).getTime()], [None] for NaN *)
  Date_parse : string -> option Z;
  (** [date.toLocaleString()] and [date.toLocaleDateString()] *)
  toLocaleString : option Z -> string;
  toLocaleDateString : option Z -> string;
  (** [parseFloat(str)] and the rendering of a number in a template *)
  parseFloat : string -> float;
  numberToString : float -> string;
  (** [JSON.parse(str).errors] with a missing array read as empty; [None]
      when [JSON.parse] throws *)
  JSON_parse_errors : string -> option (list ParsedError)
}.

Section LocalTime.

Variable host : Host.

Open Scope Z_scope.

(** [date.setHours(0, 0, 0, 0)]: the start of the local day. *)
Definition setHoursZero (t : Z) : Z :=
  t - (t + tzOffset host) mod JSDate.msPerDay.

(** [date.getDate()]: the local day of the month. *)
Definition getDate (t : Z) : Z :=
  let '(_, _, d) := JSDate.civilFromDays ((t + tzOffset host) / JSDate.msPerDay) in d.

(** [date.getFullYear()]: the local year. *)
Definition getFullYear (t : Z) : Z :=
  let '(y, _, _) := JSDate.civilFromDays ((t + tzOffset host) / JSDate.msPerDay) in y.

(** [date.setDate(d)]: the same local time on day [d] of the month of
    [t]; [d] may leave the month on either side. *)
Definition setDate (t d : Z) : Z := t + (d - getDate t) * JSDate.msPerDay.

(** The idiom [const x = new Date(); x.setDate(x.getDate() + 1);
    x.toISOString().split('T')[0]]. *)
Definition tomorrowISO : string :=
  JSDate.isoDate (setDate (now host) (getDate (now host) + 1)).

(** [a < b] on two [Date]s: false as soon as one of them is invalid. *)
Definition dateLt (a b : option Z) : bool :=
  match a, b with
  | Some x, Some y => x <? y
  | _, _ => false
  end.

Definition dateLe (a b : option Z) : bool :=
  match a, b with
  | Some x, Some y => x <=? y
  | _, _ => false
  end.

Close Scope Z_scope.

End LocalTime.

(* ================================================================= *)
(** ** Data exchanged with the travel provider *)

(** A thrown value: [error.message] and, for the errors of the provider
    SDK, [error.response] with its status code and body. *)
Record ApiErrorItem : Type := mkApiErrorItem {
  errCode : Z;
  errTitle : string;
  errDetail : string
}.

Record ResponseBody : Type := mkResponseBody {
  errors : list ApiErrorItem;
  (** [JSON.stringify(body)] *)
  stringified : string
}.

Record ErrResponse : Type := mkErrResponse {
  statusCode : Z;
  respBody : option ResponseBody
}.

Record JsError : Type := mkJsError {
  message : string;
  response : option ErrResponse
}.

(** [new Error(msg)]. *)
Definition Error (msg : string) : JsError := mkJsError msg None.

(** Reading a property of [undefined]. *)
Definition TypeError : JsError := Error "Cannot read properties of undefined".

Record Endpoint : Type := mkEndpoint { at_ : string; iataCode : string }.

Record FareDetail : Type := mkFareDetail { fareCabin : option string }.

Record TravelerPricing : Type := mkTravelerPricing {
  fareDetailsBySegment : option (list FareDetail)
}.

Record FlightSegment : Type := mkFlightSegment {
  departure : Endpoint;
  arrival : Endpoint;
  carrierCode : option string;
  number : option string;
  cabin : option string;
  travelerPricings : option (list TravelerPricing)
}.

Record FlightItinerary : Type := mkFlightItinerary {
  segments : option (list FlightSegment);
  duration : option string
}.

Record Price : Type := mkPrice {
  total : string;
  grandTotal : option string;
  currency : string
}.

Record FlightOffer : Type := mkFlightOffer {
  itineraries : option (list FlightItinerary);
  price : Price
}.

Record Traveler : Type := mkTraveler {
  travelerId : string;
  firstName : string;
  lastName : string
}.

Record Contact : Type := mkContact { emailAddress : option string }.

Record PricingData : Type := mkPricingData {
  pricedOffers : option (list FlightOffer)   (* data.flightOffers *)
}.

Record FlightOrder : Type := mkFlightOrder {
  orderId : string;
  associatedRecords : option (list string);  (* the [reference] of each record *)
  orderOffers : option (list FlightOffer);
  orderTravelers : option (list Traveler);
  ticketingDelay : option string             (* ticketingAgreement?.delay *)
}.

Record LocationData : Type := mkLocationData {
  subType : string;                          (* 'CITY' or 'AIRPORT' *)
  locName : string;
  locIataCode : option string;
  geoCode : option (float * float)           (* latitude, longitude *)
}.

Record HotelRef : Type := mkHotelRef { hotelId : string }.

(** A text field that the provider sends either as a string or as an
    object with an optional [text]. *)
Inductive Description : Type :=
| DescString (s : string)
| DescObject (text : option string).

Record HotelRoomOffer : Type := mkHotelRoomOffer {
  roomPrice : Price;
  roomDescription : option Description;          (* room?.description *)
  cancellationDescription : option Description   (* policies?.cancellation?.description *)
}.

Record HotelInfo : Type := mkHotelInfo {
  hotelName : option string;
  rating : option string;
  addressCityName : option string;               (* address?.cityName *)
  amenities : option (list string)
}.

Record HotelOffer : Type := mkHotelOffer {
  hotelInfo : option HotelInfo;              (* the field [hotel] *)
  offers : option (list HotelRoomOffer)
}.

Record PointOfInterest : Type := mkPointOfInterest { poiName : string }.

(** The requests of the provider SDK, with the parameters the service
    sends. *)
Inductive ApiCall : Type :=
| LocationsGet (keyword subType : string)
| FlightOffersSearchGet (originLocationCode destinationLocationCode departureDate : string)
    (returnDate : option string) (adults : Z) (travelClass currencyCode : string) (max : Z)
| FlightOffersPricingPost (flightOffers : list FlightOffer)
    (travelers : option (list Traveler)) (include : string)
| FlightOrdersPost (flightOffers : list FlightOffer) (travelers : option (list Traveler))
    (remark : string) (ticketingOption ticketingDelay : string)
    (contacts : option (list Contact))
| HotelsByCityGet (cityCode : string)
| HotelOffersSearchByIds (hotelIds checkInDate checkOutDate : string) (adults : Z)
| HotelOffersSearchByGeo (latitude longitude : float) (radius : Z)
    (checkInDate checkOutDate : string) (adults : Z)
| PointsOfInterestGet (latitude longitude : float) (radius : Z).

Inductive Role : Type := user | assistant | system.

Record Message : Type := mkMessage { role : Role; content : string }.

(** What a run does that can be observed from outside: requests to the
    travel provider and to the language model, and the invocations of the
    intent classifier and of the intent handlers. *)
Inductive Event : Type :=
| EvApi (c : ApiCall)
| EvChatCompletion (messages : list Message)
| EvDetectTravelIntent (userMessage : string)
| EvHandleFlightIntent
| EvHandleHotelIntent
| EvGenerateStandardResponse.

Definition Trace : Type := list Event.

(** The reply to a request: the SDK throws, or answers with
    [response.data], which may be missing. *)
Inductive Reply (A : Type) : Type :=
| Fails (e : JsError)
| Data (d : option A).

Arguments Fails {A} e.
Arguments Data {A} d.

(** The SDK client.  Each endpoint sees the events so far, so that a
    provider whose answers change over time is covered. *)
Record Client : Type := mkClient {
  locations : Trace -> ApiCall -> Reply (list LocationData);
  flightOffersSearch : Trace -> ApiCall -> Reply (list FlightOffer);
  flightOffersPricing : Trace -> ApiCall -> Reply PricingData;
  flightOrders : Trace -> ApiCall -> Reply FlightOrder;
  hotelsByCity : Trace -> ApiCall -> Reply (list HotelRef);
  hotelOffersSearch : Trace -> ApiCall -> Reply (list HotelOffer);
  pointsOfInterest : Trace -> ApiCall -> Reply (list PointOfInterest)
}.

(* ================================================================= *)
(** ** Computations: a trace of events and thrown errors *)

Inductive Result (A : Type) : Type :=
| Return (a : A)
| Throw (e : JsError).

Arguments Return {A} a.
Arguments Throw {A} e.

Definition M (A : Type) : Type := Trace -> Result A * Trace.

Definition ret {A} (a : A) : M A := fun tr => (Return a, tr).

Definition throw {A} (e : JsError) : M A := fun tr => (Throw e, tr).

Definition bind {A B} (c : M A) (k : A -> M B) : M B :=
  fun tr =>
    match c tr with
    | (Return a, tr') => k a tr'
    | (Throw e, tr') => (Throw e, tr')
    end.

(** [try { c } catch (error) { h error }]. *)
Definition tryCatch {A} (c : M A) (h : JsError -> M A) : M A :=
  fun tr =>
    match c tr with
    | (Return a, tr') => (Return a, tr')
    | (Throw e, tr') => h e tr'
    end.

Definition emit (e : Event) : M unit := fun tr => (Return tt, tr ++ [e]).

Notation "x <- c ;; k" := (bind c (fun x => k))
  (at level 61, c at next level, right associativity).
Notation "c ;;; k" := (bind c (fun _ => k))
  (at level 61, right associativity).

(** [await endpoint(call)]: the request is recorded, then answered. *)
Definition request {A} (endpoint : Trace -> ApiCall -> Reply A) (call : ApiCall)
  : M (option A) :=
  fun tr =>
    match endpoint tr call with
    | Fails e => (Throw e, tr ++ [EvApi call])
    | Data d => (Return d, tr ++ [EvApi call])
    end.

(** The events a computation adds to an empty trace, and its result. *)
Definition runM {A} (c : M A) : Result A * Trace := c [].

Definition isApiEvent (e : Event) : bool :=
  match e with EvApi _ => true | _ => false end.

Definition isBookingCall (e : Event) : bool :=
  match e with EvApi (FlightOrdersPost _ _ _ _ _ _) => true | _ => false end.

(* ================================================================= *)
(** ** The Amadeus service (amadeus.service.ts) *)

Module Amadeus.

(** The state of the service object: the SDK client, when the credentials
    were present, and the flag set at construction. *)
Record Service : Type := mkService {
  client : option Client;
  isInitialized : bool
}.

Definition isClientInitialized (svc : Service) : bool := isInitialized svc.

Definition hasStatus (e : JsError) (n : Z) : bool :=
  match response e with
  | Some r => (statusCode r =? n)%Z
  | None => false
  end.

(** [error.response?.body?.errors?.[0]]. *)
Definition firstError (e : JsError) : option ApiErrorItem :=
  match response e with
  | Some r =>
      match respBody r with
      | Some b => hd_error (errors b)
      | None => None
      end
  | None => None
  end.

(** [JSON.stringify(error.response.body)]. *)
Definition stringifyBody (e : JsError) : string :=
  match response e with
  | Some r =>
      match respBody r with
      | Some b => stringified b
      | None => "undefined"
      end
  | None => "undefined"
  end.

(** [s || d] on strings. *)
Definition orString (s d : string) : string := if JS.truthy s then s else d.

(** [l || []] on an optional array. *)
Definition orEmpty {A} (l : option (list A)) : list A :=
  match l with Some x => x | None => [] end.

Definition notInitializedMessage : string :=
  "Amadeus client is not initialized. Please check your credentials in the .env file.".

Definition checkInitialization (svc : Service) : M unit :=
  match isInitialized svc, client svc with
  | true, Some _ => ret tt
  | _, _ => throw (Error notInitializedMessage)
  end.

(** [if (!this.client) throw ...; use this.client]. *)
Definition withClient {A} (svc : Service) (k : Client -> M A) : M A :=
  match client svc with
  | Some c => k c
  | None => throw (Error "Amadeus client is not initialized")
  end.

Section WithHost.

Variable host : Host.

(** The departure date that is sent: a departure before the start of
    today is replaced by tomorrow. *)
Definition normalizedDeparture (departDate : string) : string :=
  let depDate := Date_parse host departDate in
  let today := setHoursZero host (now host) in
  if dateLt depDate (Some today) then tomorrowISO host else departDate.

(** The return date that is sent: a return date before the departure
    date that was passed in is replaced by that departure plus 7 days. *)
Definition normalizedReturn (departDate : string) (returnDate : option string)
  : option string :=
  let depDate := Date_parse host departDate in
  match returnDate with
  | Some r =>
      if JS.truthy r
      then
        let retDate := Date_parse host r in
        if dateLt retDate depDate
        then
          match depDate with
          | Some nextWeek =>
              Some (JSDate.isoDate (setDate host nextWeek (getDate host nextWeek + 7)))
          | None => returnDate
          end
        else returnDate
      else returnDate
  | None => None
  end.

Definition searchFlights (svc : Service) (originCode destinationCode departDate : string)
  (returnDate : option string) (adults : Z) (cabin : string) : M (list FlightOffer) :=
  checkInitialization svc ;;;
  tryCatch
    ((* Ensure the date is in the future *)
     let departDate' := normalizedDeparture departDate in
     (* Process return date if provided *)
     let returnDate' := normalizedReturn departDate returnDate in
     withClient svc (fun c =>
       data <- request (flightOffersSearch c)
                 (FlightOffersSearchGet (JS.toUpperCase originCode)
                    (JS.toUpperCase destinationCode) departDate' returnDate'
                    adults cabin "USD" 10) ;;
       match data with
       | Some offers => ret offers
       | None => throw TypeError          (* response.data.length *)
       end))
    (fun error =>
       if hasStatus error 400
       then throw (Error ("Bad request: " ++ stringifyBody error))
       else if hasStatus error 401
       then throw (Error "Authentication failed. Please check your Amadeus API credentials.")
       else if hasStatus error 404
       then throw (Error "No flights found for the given criteria.")
       else throw error).

(** The body of the pricing request: the traveler details are added when
    some are given. *)
Definition pricingRequest (flightOffers : list FlightOffer)
  (travelers : option (list Traveler)) : ApiCall :=
  FlightOffersPricingPost flightOffers
    (match travelers with
     | Some (_ :: _) => travelers
     | _ => None
     end)
    "detailed-fare-rules,bags".

Definition confirmFlightPrice (svc : Service) (flightOffers : list FlightOffer)
  (travelers : option (list Traveler)) : M (option PricingData) :=
  checkInitialization svc ;;;
  tryCatch
    (match client svc with
     | Some c => request (flightOffersPricing c) (pricingRequest flightOffers travelers)
     | None => throw TypeError            (* this.client! *)
     end)
    (fun error =>
       match firstError error with
       | Some item =>
           if hasStatus error 400 && (errCode item =? 37200)%Z
           then throw (Error ("Price has changed. " ++ errDetail item))
           else throw error
       | None => throw error
       end).

Definition defaultRemark : string := "Booking created via AI Trip Planner".

Definition createFlightBooking (svc : Service) (confirmedOffer : FlightOffer)
  (travelers : option (list Traveler)) (contacts : option (list Contact))
  : M (option FlightOrder) :=
  checkInitialization svc ;;;
  tryCatch
    (match client svc with
     | Some c =>
         request (flightOrders c)
           (FlightOrdersPost [confirmedOffer] travelers defaultRemark
              "DELAY_TO_CANCEL" "6D" contacts)
     | None => throw TypeError
     end)
    (fun error =>
       if hasStatus error 400
       then
         match firstError error with
         | Some item =>
             if (errCode item =? 37200)%Z
             then throw (Error "Price has changed since confirmation. Please search again.")
             else if (errCode item =? 1398)%Z
             then throw (Error "Invalid passenger information. Please check all details.")
             else if String.eqb (errTitle item) "INVALID FORMAT"
             then throw (Error "Payment cannot be processed in self-service mode. Work with an airline consolidator.")
             else throw (Error ("Booking failed: " ++ stringifyBody error))
         | None => throw (Error ("Booking failed: " ++ stringifyBody error))
         end
       else throw error).

(** Arrival of the last segment minus departure of the first. *)
Definition calculateTotalJourneyTime (segs : list FlightSegment) : string :=
  match segs with
  | [] => ""
  | first :: _ =>
      let departureTime := Date_parse host (at_ (departure first)) in
      let arrivalTime := Date_parse host (at_ (arrival (last segs first))) in
      match arrivalTime, departureTime with
      | Some a, Some d =>
          let diffMs := (a - d)%Z in
          let hours := (diffMs / 3600000)%Z in
          let minutes := (Z.rem diffMs 3600000 / 60000)%Z in
          JS.showZ hours ++ "h " ++ JS.showZ minutes ++ "m"
      | _, _ => "NaNh NaNm"
      end
  end.

Definition getHotelList (svc : Service) (cityCode : string) : M (list HotelRef) :=
  checkInitialization svc ;;;
  tryCatch
    (withClient svc (fun c =>
       data <- request (hotelsByCity c) (HotelsByCityGet (JS.toUpperCase cityCode)) ;;
       ret (orEmpty data)))
    (fun error =>
       if hasStatus error 404
       then throw (Error ("No hotels found for city code: " ++ cityCode))
       else throw (Error ("Failed to get hotel list: "
                            ++ orString (message error) "Unknown error"))).

Definition lookupCity (svc : Service) (keyword subType : string)
  : M (option (list LocationData)) :=
  checkInitialization svc ;;;
  tryCatch
    (withClient svc (fun c => request (locations c) (LocationsGet keyword subType)))
    (fun error => throw error).

(** The default of [lookupCity]'s second parameter. *)
Definition CITY_AIRPORT : string := "CITY,AIRPORT".

Definition searchHotels (svc : Service) (cityCode checkInDate checkOutDate : string)
  (adults : Z) (radius : Z) : M (list HotelOffer) :=
  checkInitialization svc ;;;
  tryCatch
    (withClient svc (fun c =>
       (* the hotels of the city, at most twenty of them *)
       hotelIds <- tryCatch
                     (hotelList <- getHotelList svc cityCode ;;
                      ret (map hotelId (firstn 20 hotelList)))
                     (fun _ => ret []) ;;
       (* offers for these hotels *)
       byIds <- match hotelIds with
                | [] => ret None
                | _ :: _ =>
                    tryCatch
                      (data <- request (hotelOffersSearch c)
                                 (HotelOffersSearchByIds (JS.join "," hotelIds)
                                    checkInDate checkOutDate adults) ;;
                       ret (Some (orEmpty data)))
                      (fun _ => ret None)
                end ;;
       match byIds with
       | Some found => ret found
       | None =>
           (* otherwise the offers around the city's coordinates *)
           byGeo <- tryCatch
                      (cityDetails <- lookupCity svc cityCode "CITY" ;;
                       match cityDetails with
                       | Some (first :: _) =>
                           match geoCode first with
                           | Some (latitude, longitude) =>
                               data <- request (hotelOffersSearch c)
                                         (HotelOffersSearchByGeo latitude longitude radius
                                            checkInDate checkOutDate adults) ;;
                               ret (Some (orEmpty data))
                           | None => ret None
                           end
                       | _ => ret None
                       end)
                      (fun _ => ret None) ;;
           match byGeo with
           | Some found => ret found
           | None =>
               throw (Error ("Unable to find hotels in " ++ cityCode
                               ++ ". Try a different city or check the city code."))
           end
       end))
    (fun error =>
       if JS.includes (message error) "Unable to find hotels"
       then throw error
       else throw (Error ("Hotel search failed: "
                            ++ orString (message error) "Unknown error"))).

Definition searchPointsOfInterest (svc : Service) (latitude longitude : float) (radius : Z)
  : M (option (list PointOfInterest)) :=
  checkInitialization svc ;;;
  tryCatch
    (withClient svc (fun c =>
       request (pointsOfInterest c) (PointsOfInterestGet latitude longitude radius)))
    (fun error => throw error).

End WithHost.

End Amadeus.

(* ================================================================= *)
(** ** The booking controller (booking.controller.ts) *)

Module BookingController.

(** The fields of [req.body] that [createBooking] uses. *)
Record BookingRequest : Type := mkBookingRequest {
  selectedOffer : option FlightOffer;
  travelerDetails : option (list Traveler);
  contactDetails : option (list Contact)
}.

Record BookingSummary : Type := mkBookingSummary {
  bookingId : string;
  pnr : option string;
  bookingPrice : option Price;
  bookingTravelers : option (list Traveler);
  bookingItineraries : option (list FlightItinerary);
  ticketingDeadline : option string
}.

(** The JSON documents the controller answers with. *)
Inductive Json : Type :=
| ErrorJson (error : string) (msg : option string)
| PriceChangedJson (msg : string) (originalPrice newPrice priceDifference : float)
    (confirmedOffer : FlightOffer)
| BookedJson (msg : string) (booking : BookingSummary).

(** [res.status(code).json(body)]. *)
Record HttpResponse : Type := mkHttp { status : Z; json : Json }.

Section WithHost.

Variable host : Host.

(** [Math.abs(originalPrice - confirmedPrice) > 0.01]. *)
Definition priceChanged (originalPrice confirmedPrice : float) : bool :=
  PrimFloat.ltb 0.01%float (PrimFloat.abs (PrimFloat.sub originalPrice confirmedPrice)).

Definition priceChangedMessage (offer confirmed : FlightOffer)
  (originalPrice confirmedPrice : float) : string :=
  "Price has changed from " ++ currency (price offer) ++ " "
    ++ numberToString host originalPrice ++ " to "
    ++ currency (price confirmed) ++ " " ++ numberToString host confirmedPrice.

Definition summary (order : FlightOrder) : BookingSummary :=
  let firstOffer := hd_error (Amadeus.orEmpty (orderOffers order)) in
  mkBookingSummary
    (orderId order)
    (hd_error (Amadeus.orEmpty (associatedRecords order)))
    (option_map price firstOffer)
    (orderTravelers order)
    (match firstOffer with Some o => itineraries o | None => None end)
    (ticketingDelay order).

(** Complete booking flow: search, price, book. *)
Definition createBooking (svc : Amadeus.Service) (body : BookingRequest) : M HttpResponse :=
  tryCatch
    (match selectedOffer body with
     | None =>
         ret (mkHttp 400
                (ErrorJson "No flight selected. Please search and select a flight first." None))
     | Some offer =>
         (* Step 2: confirm price *)
         priceConfirmation <- Amadeus.confirmFlightPrice svc [offer] (travelerDetails body) ;;
         match priceConfirmation with
         | Some (mkPricingData (Some (confirmedOffer :: _))) =>
             let originalPrice := parseFloat host (total (price offer)) in
             let confirmedPrice := parseFloat host (total (price confirmedOffer)) in
             if priceChanged originalPrice confirmedPrice
             then
               ret (mkHttp 409
                      (PriceChangedJson
                         (priceChangedMessage offer confirmedOffer originalPrice confirmedPrice)
                         originalPrice confirmedPrice
                         (PrimFloat.sub confirmedPrice originalPrice)
                         confirmedOffer))
             else
               (* Step 3: create booking *)
               booking <- Amadeus.createFlightBooking svc confirmedOffer
                            (travelerDetails body) (contactDetails body) ;;
               match booking with
               | Some order =>
                   ret (mkHttp 201 (BookedJson "Flight booked successfully!" (summary order)))
               | None => throw TypeError          (* booking.id *)
               end
         | _ =>
             ret (mkHttp 400
                    (ErrorJson "Could not confirm flight price. Please try again." None))
         end
     end)
    (fun error =>
       if JS.includes (message error) "Price has changed"
       then ret (mkHttp 409 (ErrorJson "PRICE_CHANGED" (Some (message error))))
       else if JS.includes (message error) "self-service mode"
       then ret (mkHttp 403
                   (ErrorJson "PAYMENT_NOT_ALLOWED"
                      (Some "Direct payment is not allowed in self-service mode. Please work with an airline consolidator for ticketing.")))
       else ret (mkHttp 500
                   (ErrorJson "BOOKING_FAILED"
                      (Some (Amadeus.orString (message error) "Failed to create booking"))))).

End WithHost.

End BookingController.

(* ================================================================= *)
(** ** The OpenAI service: intent detection, extraction, resolution *)

Module OpenAIService.

Import Regex.

Local Open Scope string_scope.

Inductive IntentType : Type :=
| flight | hotel | pointOfInterest | itinerary | general | booking.

Record TravelIntent : Type := mkTravelIntent {
  intentType : IntentType;
  confidence : float;
  searchText : string;              (* params.searchText *)
  requiresAmadeusApi : bool
}.

Definition nl : string := String (ascii_of_nat 10) EmptyString.

(** A plain object used as a table: the entries in insertion order.  The
    keys that the code looks up are lower-cased place names; a key that
    names a property inherited from [Object.prototype] (among lower-case
    words, [constructor]) is treated as absent. *)
Fixpoint lookup (key : string) (table : list (string * string)) : option string :=
  match table with
  | [] => None
  | (k, v) :: t => if String.eqb k key then Some v else lookup key t
  end.

(** *** detectTravelIntent *)

Definition greetingPatterns : list regex :=
  [ rxi [Bol; lit "hi"; Eol];
    rxi [Bol; lit "hello"; Eol];
    rxi [Bol; lit "hey"; Eol];
    rxi [Bol; lit "greetings"; Eol];
    rxi [Bol; lit "what can you do"];
    rxi [Bol; lit "help me"];
    rxi [Bol; lit "how does this work"];
    rxi [Bol; lit "what is this"];
    rxi [Bol; lit "tell me about yourself"] ].

Definition wordsAndSpaces : re := plus (Chr (CUnion CWord CSpace)).   (* [\w\s]+ *)

Definition flightPatterns : list regex :=
  [ (* /\b(?:find|search|looking for|need)\s+(?:a\s+)?flights?\b/i *)
    rxi [WordB; alts [lit "find"; lit "search"; lit "looking for"; lit "need"]; plus ws;
         opt (Seq (lit "a") (plus ws)); lit "flight"; opt (lit "s"); WordB];
    (* /\b(?:book|get)\s+(?:a\s+)?flights?\b/i *)
    rxi [WordB; alts [lit "book"; lit "get"]; plus ws;
         opt (Seq (lit "a") (plus ws)); lit "flight"; opt (lit "s"); WordB];
    (* /\b(?:fly(?:ing)?)\s+from\s+([\w\s]+)\s+to\s+([\w\s]+)\b/i *)
    rxi [WordB; lit "fly"; opt (lit "ing"); plus ws; lit "from"; plus ws;
         Grp 1 wordsAndSpaces; plus ws; lit "to"; plus ws; Grp 2 wordsAndSpaces; WordB];
    (* /\bflights?\s+(?:from|between)\s+([\w\s]+)\s+(?:to|and)\s+([\w\s]+)\b/i *)
    rxi [WordB; lit "flight"; opt (lit "s"); plus ws; alts [lit "from"; lit "between"];
         plus ws; Grp 1 wordsAndSpaces; plus ws; alts [lit "to"; lit "and"]; plus ws;
         Grp 2 wordsAndSpaces; WordB];
    (* /\bair(?:plane|port|line)\s+(?:tickets?|flights?)\b/i *)
    rxi [WordB; lit "air"; alts [lit "plane"; lit "port"; lit "line"]; plus ws;
         alts [Seq (lit "ticket") (opt (lit "s")); Seq (lit "flight") (opt (lit "s"))];
         WordB] ].

Definition hotelPatterns : list regex :=
  [ (* /\b(?:find|search|looking for|need)\s+(?:a\s+)?hotels?\b/i *)
    rxi [WordB; alts [lit "find"; lit "search"; lit "looking for"; lit "need"]; plus ws;
         opt (Seq (lit "a") (plus ws)); lit "hotel"; opt (lit "s"); WordB];
    (* /\b(?:book|get)\s+(?:a\s+)?hotels?\b/i *)
    rxi [WordB; alts [lit "book"; lit "get"]; plus ws;
         opt (Seq (lit "a") (plus ws)); lit "hotel"; opt (lit "s"); WordB];
    (* /\b(?:stay|accommodation|room)\s+in\s+([\w\s]+)\b/i *)
    rxi [WordB; alts [lit "stay"; lit "accommodation"; lit "room"]; plus ws; lit "in";
         plus ws; Grp 1 wordsAndSpaces; WordB];
    (* /\bhotels?\s+(?:in|near|at)\s+([\w\s]+)\b/i *)
    rxi [WordB; lit "hotel"; opt (lit "s"); plus ws; alts [lit "in"; lit "near"; lit "at"];
         plus ws; Grp 1 wordsAndSpaces; WordB] ].

Definition bookingPatterns : list regex :=
  [ (* /\b(?:book|reserve|purchase)\s+(?:a\s+)?(?:tickets?|seats?|flights?)\b/i *)
    rxi [WordB; alts [lit "book"; lit "reserve"; lit "purchase"]; plus ws;
         opt (Seq (lit "a") (plus ws));
         alts [Seq (lit "ticket") (opt (lit "s")); Seq (lit "seat") (opt (lit "s"));
               Seq (lit "flight") (opt (lit "s"))];
         WordB];
    (* /\bmake\s+(?:a\s+)?(?:reservation|booking)\b/i *)
    rxi [WordB; lit "make"; plus ws; opt (Seq (lit "a") (plus ws));
         alts [lit "reservation"; lit "booking"]; WordB];
    (* /\bbuy\s+(?:a\s+)?(?:tickets?|seats?)\b/i *)
    rxi [WordB; lit "buy"; plus ws; opt (Seq (lit "a") (plus ws));
         alts [Seq (lit "ticket") (opt (lit "s")); Seq (lit "seat") (opt (lit "s"))];
         WordB] ].

(** [for (const pattern of patterns) if (pattern.test(s)) ...]. *)
Definition anyMatches (patterns : list regex) (s : string) : bool :=
  existsb (fun pattern => test pattern s) patterns.

Definition intent (t : IntentType) (c : float) (userMessage : string) : TravelIntent :=
  mkTravelIntent t c userMessage true.

Definition detectTravelIntent (userMessage : string) : option TravelIntent :=
  if (String.length (JS.trim userMessage) =? 0)%nat then None
  else
    let lowerMsg := JS.toLowerCase userMessage in
    (* Ignore greeting/welcome messages *)
    if anyMatches greetingPatterns lowerMsg then None
    else if anyMatches flightPatterns lowerMsg
    then Some (intent flight 0.9 userMessage)
    else if anyMatches hotelPatterns lowerMsg
    then Some (intent hotel 0.8 userMessage)
    else if anyMatches bookingPatterns lowerMsg
    then Some (intent booking 0.95 userMessage)
    (* Less specific checks as fallback *)
    else if JS.includes lowerMsg "flight"
            && (JS.includes lowerMsg "from" || JS.includes lowerMsg "to")
    then Some (intent flight 0.7 userMessage)
    else if JS.includes lowerMsg "hotel"
            && (JS.includes lowerMsg "in" || JS.includes lowerMsg "at"
                || JS.includes lowerMsg "near")
    then Some (intent hotel 0.7 userMessage)
    else None.

(** *** extractFlightParams *)

Record FlightParams : Type := mkFlightParams {
  origin : option string;
  destination : option string;
  departDate : option string
}.

Definition lettersAndSpaces : re := plus (Chr (CUnion letter CSpace)). (* [A-Za-z\s]+ *)

Definition locationPatterns : list regex :=
  [ (* /(?:from|between)\s+([A-Za-z\s]+)\s+to\s+([A-Za-z\s]+)/i *)
    rxi [alts [lit "from"; lit "between"]; plus ws; Grp 1 lettersAndSpaces; plus ws;
         lit "to"; plus ws; Grp 2 lettersAndSpaces];
    (* /([A-Za-z\s]+)\s+to\s+([A-Za-z\s]+)/i *)
    rxi [Grp 1 lettersAndSpaces; plus ws; lit "to"; plus ws; Grp 2 lettersAndSpaces] ].

Definition countryAbbreviations : list (string * string) :=
  [ ("uk", "London"); ("usa", "New York"); ("us", "New York"); ("uae", "Dubai");
    ("england", "London"); ("australia", "Sydney"); ("canada", "Toronto");
    ("china", "Beijing"); ("india", "Delhi"); ("japan", "Tokyo") ].

Definition ordinal : re := opt (alts [lit "st"; lit "nd"; lit "rd"; lit "th"]).
Definition optYear : re := opt (Seq (plus ws) (times 4 4 digit)).     (* (?:\s+\d{4})? *)

Definition datePatterns : list regex :=
  [ (* /(?:on|for)\s+([A-Za-z]+\s+\d{1,2}(?:st|nd|rd|th)?(?:\s+\d{4})?)/i *)
    rxi [alts [lit "on"; lit "for"]; plus ws;
         Grp 1 (seqs [plus (Chr letter); plus ws; times 1 2 digit; ordinal; optYear])];
    (* /(\d{1,2}(?:st|nd|rd|th)?\s+[A-Za-z]+(?:\s+\d{4})?)/i *)
    rxi [Grp 1 (seqs [times 1 2 digit; ordinal; plus ws; plus (Chr letter); optYear])];
    (* /([A-Za-z]+\s+\d{1,2}(?:st|nd|rd|th)?(?:\s+\d{4})?)/i *)
    rxi [Grp 1 (seqs [plus (Chr letter); plus ws; times 1 2 digit; ordinal; optYear])] ].

(** The first pattern of the list that matches, with its match. *)
Fixpoint firstMatch (patterns : list regex) (s : string) : option Match :=
  match patterns with
  | [] => None
  | pattern :: more =>
      match exec pattern s with
      | Some m => Some m
      | None => firstMatch more s
      end
  end.

(** [match[n].trim()]. *)
Definition trimmedGroup (n : nat) (m : Match) : string :=
  match group n m with Some s => JS.trim s | None => "" end.

(** Replace a country reference with its most popular city. *)
Definition replaceCountry (place : option string) : option string :=
  match place with
  | Some p =>
      if JS.truthy p
      then match lookup (JS.toLowerCase p) countryAbbreviations with
           | Some city => Some city
           | None => place
           end
      else place
  | None => None
  end.

Definition extractFlightParams (message : string) : FlightParams :=
  let located := firstMatch locationPatterns message in
  let origin0 := option_map (trimmedGroup 1) located in
  let destination0 := option_map (trimmedGroup 2) located in
  let departDate0 := option_map (trimmedGroup 1) (firstMatch datePatterns message) in
  mkFlightParams (replaceCountry origin0) (replaceCountry destination0) departDate0.

(** *** getFallbackAirportCode *)

Definition airportCodes : list (string * string) :=
  [ ("london", "LHR"); ("new york", "JFK"); ("paris", "CDG"); ("tokyo", "HND");
    ("sydney", "SYD"); ("dubai", "DXB"); ("madrid", "MAD"); ("berlin", "BER");
    ("singapore", "SIN"); ("los angeles", "LAX"); ("san francisco", "SFO");
    ("miami", "MIA"); ("chicago", "ORD"); ("toronto", "YYZ"); ("vancouver", "YVR");
    ("rome", "FCO"); ("barcelona", "BCN"); ("amsterdam", "AMS"); ("frankfurt", "FRA");
    ("munich", "MUC"); ("manchester", "MAN"); ("edinburgh", "EDI"); ("glasgow", "GLA");
    ("delhi", "DEL"); ("mumbai", "BOM"); ("beijing", "PEK"); ("shanghai", "PVG");
    ("san ramon", "OAK") ].

(** The first entry whose city contains the location or is contained in it. *)
Fixpoint partialMatch (locationLower : string) (table : list (string * string))
  : option string :=
  match table with
  | [] => None
  | (city, code) :: more =>
      if JS.includes locationLower city || JS.includes city locationLower
      then Some code
      else partialMatch locationLower more
  end.

Definition getFallbackAirportCode (location : string) : string :=
  let locationLower := JS.toLowerCase location in
  match lookup locationLower airportCodes with
  | Some exactCode => exactCode
  | None =>
      match partialMatch locationLower airportCodes with
      | Some code => code
      | None =>
          (* If not found, create a sensible 3-letter code *)
          let sanitizedLocation := JS.filterChars JS.isAlnum location in
          JS.toUpperCase (JS.takeChars 3 sanitizedLocation)
      end
  end.

(** *** getIATACode *)

Definition countryToCity : list (string * string) :=
  [ ("uk", "London"); ("usa", "New York"); ("us", "New York"); ("uae", "Dubai");
    ("england", "London"); ("britain", "London"); ("great britain", "London");
    ("united kingdom", "London"); ("united states", "New York");
    ("australia", "Sydney"); ("canada", "Toronto"); ("china", "Beijing");
    ("india", "Delhi"); ("japan", "Tokyo"); ("france", "Paris");
    ("germany", "Berlin"); ("spain", "Madrid"); ("italy", "Rome") ].

(** [locationData.find(loc => loc.subType === t)]. *)
Definition findSubType (t : string) (l : list LocationData) : option LocationData :=
  find (fun loc => String.eqb (subType loc) t) l.

(** [a?.iataCode || b]. *)
Definition iataOr (a : option LocationData) (b : option string) : option string :=
  match a with
  | Some loc => if JS.truthyOpt (locIataCode loc) then locIataCode loc else b
  | None => b
  end.

Definition getIATACode (amadeusService : Amadeus.Service) (location : string) : M string :=
  if (String.length (JS.trim location) =? 0)%nat
  then throw (Error "Invalid location: Location name is required")
  else
    (* Check if the location is a country and convert to its major city *)
    let normalizedLocation := JS.toLowerCase (JS.trim location) in
    let location :=
      match lookup normalizedLocation countryToCity with
      | Some city => city
      | None => location
      end in
    if negb (Amadeus.isClientInitialized amadeusService)
    then ret (getFallbackAirportCode location)
    else
      found <- tryCatch
                 (locationData <- Amadeus.lookupCity amadeusService location
                                    Amadeus.CITY_AIRPORT ;;
                  match locationData with
                  | Some (first :: more) =>
                      let all := first :: more in
                      (* Prefer city codes over airport codes for better results *)
                      let iataCode :=
                        iataOr (findSubType "CITY" all)
                          (iataOr (findSubType "AIRPORT" all) (locIataCode first)) in
                      match iataCode with
                      | Some c =>
                          if JS.truthy c && (String.length c =? 3)%nat
                          then ret (Some c) else ret None
                      | None => ret None
                      end
                  | _ => ret None
                  end)
                 (fun _ => ret None) ;;
      match found with
      | Some c => ret c
      | None =>
          (* Fallback if API fails or returns invalid data.  The statements
             that follow this return in the source, which pad a sanitized
             name shorter than three characters with 'X', are never
             reached. *)
          ret (getFallbackAirportCode location)
      end.

Section WithHost.

Variable host : Host.

(** *** formatDate *)

(** [/([0-9]+)(st|nd|rd|th)/gi] *)
Definition ordinalSuffix : regex :=
  rxi [Grp 1 (plus (Chr (CRange "0" "9")));
       Grp 2 (alts [lit "st"; lit "nd"; lit "rd"; lit "th"])].

(** [/\d{4}$/] *)
Definition endsWithYear : regex := rx [times 4 4 digit; Eol].

Definition formatDate (dateStr : string) : string :=
  if negb (JS.truthy dateStr) then tomorrowISO host
  else
    (* Remove ordinal suffixes (1st, 2nd, 3rd, 4th, etc.) *)
    let stripped :=
      JS.trim (replaceAll ordinalSuffix
                 (fun m => match group 1 m with Some d => d | None => "" end) dateStr) in
    (* Add current year if not present *)
    let normalizedDate :=
      if test endsWithYear stripped then stripped
      else stripped ++ " " ++ JS.showZ (getFullYear host (now host)) in
    match Date_parse host normalizedDate with
    | None => tomorrowISO host           (* Invalid date: thrown and caught *)
    | Some dateObj =>
        (* Ensure date is in the future *)
        let today := setHoursZero host (now host) in
        if (dateObj <? today)%Z
        then tomorrowISO host
        else JSDate.isoDate dateObj
    end.

(** *** formatFlightResponse *)

Definition plural (n : nat) : string := if (1 <? n)%nat then "s" else "".

(** [segments.map(seg => seg.arrival.iataCode).slice(0, -1)]. *)
Definition stopCodes (segs : list FlightSegment) : list string :=
  removelast (map (fun seg => iataCode (arrival seg)) segs).

(** [firstSegment.travelerPricings?.[0]?.fareDetailsBySegment?.[0]?.cabin]. *)
Definition pricedCabin (seg : FlightSegment) : option string :=
  match travelerPricings seg with
  | Some (tp :: _) =>
      match fareDetailsBySegment tp with
      | Some (fd :: _) => fareCabin fd
      | _ => None
      end
  | _ => None
  end.

(** The body of the loop for the offer of index [i]: what it appends to
    the response.  An offer without itineraries or segments is skipped; an
    exception raised in the middle (an empty segment list) is caught and
    leaves what was already appended. *)
Definition formatFlightOffer (i : nat) (offer : FlightOffer) (response : string) : string :=
  match itineraries offer with
  | Some (firstItinerary :: _) =>
      match segments firstItinerary with
      | Some segs =>
          let response := response ++ "**Option " ++ JS.showNat (i + 1) ++ "**" ++ nl in
          match segs with
          | [] => response
          | firstSegment :: _ =>
              let lastSegment := last segs firstSegment in
              let response :=
                response ++ "🛫 Departure: "
                  ++ toLocaleString host (Date_parse host (at_ (departure firstSegment)))
                  ++ " from " ++ iataCode (departure firstSegment) ++ nl in
              let response :=
                response ++ "🛬 Arrival: "
                  ++ toLocaleString host (Date_parse host (at_ (arrival lastSegment)))
                  ++ " at " ++ iataCode (arrival lastSegment) ++ nl in
              (* Calculate duration *)
              let response :=
                response ++ "⏱️ Duration: "
                  ++ Amadeus.calculateTotalJourneyTime host segs ++ nl in
              (* Show stops *)
              let response :=
                if (1 <? List.length segs)%nat
                then response ++ "✈️ Stops: " ++ JS.showNat (List.length segs - 1)
                       ++ " (" ++ JS.join ", " (stopCodes segs) ++ ")" ++ nl
                else response ++ "✈️ Direct Flight" ++ nl in
              (* Show flight number if available *)
              let response :=
                match carrierCode firstSegment, number firstSegment with
                | Some carrier, Some num =>
                    if JS.truthy carrier && JS.truthy num
                    then response ++ "🔢 Flight: " ++ carrier ++ num ++ nl
                    else response
                | _, _ => response
                end in
              (* Show price *)
              let priceValue :=
                match grandTotal (price offer) with
                | Some g => if JS.truthy g then g else total (price offer)
                | None => total (price offer)
                end in
              let response :=
                response ++ "💰 Price: " ++ currency (price offer) ++ " " ++ priceValue ++ nl in
              (* Show cabin class *)
              let cabinClass :=
                if JS.truthyOpt (cabin firstSegment)
                then match cabin firstSegment with Some c => c | None => "Economy" end
                else if JS.truthyOpt (pricedCabin firstSegment)
                then match pricedCabin firstSegment with Some c => c | None => "Economy" end
                else "Economy" in
              response ++ "🪑 Cabin: " ++ cabinClass ++ nl ++ nl
          end
      | None => response
      end
  | _ => response
  end.

(** [for (let i = start; i < start + length shown; i++)] over the offers
    that are shown. *)
Fixpoint formatFlightOffers (i : nat) (shown : list FlightOffer) (response : string)
  : string :=
  match shown with
  | [] => response
  | offer :: more => formatFlightOffers (S i) more (formatFlightOffer i offer response)
  end.

Definition formatFlightResponse (flightOffers : list FlightOffer)
  (origin destination date : string) : string :=
  match flightOffers with
  | [] =>
      "I couldn't find any flights from " ++ origin ++ " to " ++ destination ++ " on "
        ++ date ++ ". Would you like to try different dates or locations?"
  | _ :: _ =>
      let response :=
        "I found " ++ JS.showNat (List.length flightOffers) ++ " flight option"
          ++ plural (List.length flightOffers) ++ " from " ++ origin ++ " to "
          ++ destination ++ " on " ++ date ++ ":" ++ nl ++ nl in
      (* Show up to 5 flights *)
      let maxFlights := Nat.min 5 (List.length flightOffers) in
      let response := formatFlightOffers 0 (firstn maxFlights flightOffers) response in
      let response :=
        if (maxFlights <? List.length flightOffers)%nat
        then response ++ "... and " ++ JS.showNat (List.length flightOffers - maxFlights)
               ++ " more options available." ++ nl ++ nl
        else response in
      response ++ "Would you like to book any of these flights or see more options?"
  end.

(** *** handleFlightIntent *)

Variable amadeusService : Amadeus.Service.

(** [[...messages].reverse().find(msg => msg.role === 'user')]. *)
Definition lastUserMessage (messages : list Message) : option Message :=
  find (fun msg => match role msg with user => true | _ => false end) (rev messages).

Definition dq : string := String (ascii_of_nat 34) EmptyString.

Definition flightServiceUnavailable : string :=
"I'd be happy to help you find flights, but the flight search service is currently unavailable. 

Please ensure:
1. Amadeus API credentials are set in your .env file:
   - AMADEUS_CLIENT_ID=your_client_id
   - AMADEUS_CLIENT_SECRET=your_client_secret

2. The credentials are valid for the Amadeus test environment.

Once configured, I'll be able to search for real flight options for you.".

Definition askForCities : string :=
  "I'd be happy to search for flights for you. Please provide both the departure city and destination city. For example: 'Find flights from New York to London on June 15th'".

Definition askForDepartureDate (origin destination : string) : string :=
  "I found that you want to travel from " ++ origin ++ " to " ++ destination
    ++ ". What date would you like to depart?".

Definition noFlightsOnRoute (origin destination departDate : string) : string :=
  "I couldn't find any flights from " ++ origin ++ " to " ++ destination ++ " on "
    ++ departDate ++ ". This could be because:

1. The route might not be available on that date
2. The airports might be too small or the cities incorrectly identified
3. The date might be too far in the future or already passed

Would you like to try:
- Different dates?
- Nearby airports?
- A different route?".

Definition unknownAirportCodes : string :=
  "I'm having trouble finding the airport codes for your cities. Can you provide more specific information?

For example, instead of " ++ dq ++ "UK" ++ dq
    ++ " as a destination, please specify a city like " ++ dq ++ "London" ++ dq ++ ", "
    ++ dq ++ "Manchester" ++ dq ++ ", or " ++ dq ++ "Edinburgh" ++ dq ++ ".

Similarly, for the US, please specify cities like " ++ dq ++ "New York" ++ dq ++ ", "
    ++ dq ++ "Los Angeles" ++ dq ++ ", or " ++ dq ++ "Chicago" ++ dq
    ++ " rather than just " ++ dq ++ "USA" ++ dq ++ ".".

(** The [detail], else the [title], of the first error of the provider
    document quoted in the message; empty when there is none or when it
    cannot be parsed. *)
Definition extractErrorDetail (error : JsError) : string :=
  if JS.truthy (message error) && JS.includes (message error) ("{" ++ dq ++ "errors" ++ dq)
  then
    let json :=
      match JS.indexOf (message error) "{" with
      | Some i => JS.dropChars i (message error)
      | None => message error
      end in
    match JSON_parse_errors host json with
    | Some (amadeusError :: _) =>
        if JS.truthyOpt (parsedDetail amadeusError)
        then match parsedDetail amadeusError with Some d => d | None => "" end
        else if JS.truthyOpt (parsedTitle amadeusError)
        then match parsedTitle amadeusError with Some t => t | None => "" end
        else ""
    | _ => ""
    end
  else "".

Definition orBlank (o : option string) : string :=
  match o with Some s => s | None => "" end.

Definition handleFlightIntent (messages : list Message) (intent : TravelIntent) : M string :=
  tryCatch
    (match lastUserMessage messages with
     | None => ret "Please provide details about your flight search."
     | Some userMessage =>
         (* Check if Amadeus service is initialized *)
         if negb (Amadeus.isClientInitialized amadeusService)
         then ret flightServiceUnavailable
         else
           (* Extract parameters *)
           let params := extractFlightParams (content userMessage) in
           if negb (JS.truthyOpt (origin params)) || negb (JS.truthyOpt (destination params))
           then ret askForCities
           else if negb (JS.truthyOpt (departDate params))
           then ret (askForDepartureDate (orBlank (origin params))
                       (orBlank (destination params)))
           else
             (* Convert locations to IATA codes *)
             originCode <- getIATACode amadeusService (orBlank (origin params)) ;;
             destinationCode <- getIATACode amadeusService (orBlank (destination params)) ;;
             (* Format the date *)
             let formattedDate := formatDate (orBlank (departDate params)) in
             tryCatch
               (if negb (JS.truthy originCode) || negb (JS.truthy destinationCode)
                then throw (Error "Invalid airport codes")
                else
                  (* Call Amadeus API *)
                  flightOffers <- Amadeus.searchFlights host amadeusService originCode
                                    destinationCode formattedDate None 1 "ECONOMY" ;;
                  (* Format and return the response *)
                  ret (formatFlightResponse flightOffers (orBlank (origin params))
                         (orBlank (destination params)) (orBlank (departDate params))))
               (fun error =>
                  let errorDetail := extractErrorDetail error in
                  if JS.includes (message error) "Authentication failed"
                  then ret "The flight search service is not properly configured. Please check your Amadeus API credentials."
                  else if JS.includes (message error) "No flights found"
                  then ret (noFlightsOnRoute (orBlank (origin params))
                              (orBlank (destination params)) (orBlank (departDate params)))
                  else if JS.includes errorDetail "INVALID FORMAT"
                          || JS.includes errorDetail "must be a 3-letter code"
                  then ret unknownAirportCodes
                  else if JS.truthy errorDetail
                  then ret ("I encountered an issue while searching for flights: "
                              ++ errorDetail
                              ++ ". Please try again with more specific locations.")
                  else ret ("I encountered an issue while searching for flights. "
                              ++ Amadeus.orString (message error)
                                   "Please try again with specific airport codes if possible."))
     end)
    (fun _ =>
       ret "I encountered an issue while searching for flights. Please try again with more specific details.").

(** *** handleHotelIntent *)

Definition hotelServiceUnavailable : string :=
"I'd be happy to help you find hotels, but the hotel search service is currently unavailable. 

Please ensure:
1. Amadeus API credentials are set in your .env file:
   - AMADEUS_CLIENT_ID=your_client_id
   - AMADEUS_CLIENT_SECRET=your_client_secret

2. The credentials are valid for the Amadeus test environment.

Once configured, I'll be able to search for real hotel options for you.".

Definition askForCity : string :=
  "I'd be happy to help you find hotels. Which city are you looking to stay in?".

Definition lettersSpacesCommas : cset := CUnion letter (CUnion CSpace (CChar ",")).

(** [/(?:in|at|near|to)\s+([A-Za-z\s,]+?(?:\s+in\s+[A-Za-z\s]+)?)(?:\s+from|\s+on|\s+for|$)/i] *)
Definition cityStatePattern : regex :=
  rxi [alts [lit "in"; lit "at"; lit "near"; lit "to"]; plus ws;
       Grp 1 (Seq (plusLazy (Chr lettersSpacesCommas))
                (opt (seqs [plus ws; lit "in"; plus ws; lettersAndSpaces])));
       alts [Seq (plus ws) (lit "from"); Seq (plus ws) (lit "on");
             Seq (plus ws) (lit "for"); Eol]].

(** [/(?:hotel|stay|room|accommodation)(?:\s+in|\s+at|\s+near|\s+to)?\s+([A-Za-z\s,]+)/i] *)
Definition generalLocationPattern : regex :=
  rxi [alts [lit "hotel"; lit "stay"; lit "room"; lit "accommodation"];
       opt (alts [Seq (plus ws) (lit "in"); Seq (plus ws) (lit "at");
                  Seq (plus ws) (lit "near"); Seq (plus ws) (lit "to")]);
       plus ws; Grp 1 (plus (Chr lettersSpacesCommas))].

(** [/([A-Za-z]+(?:\s*,\s*[A-Za-z]+)?)/i] *)
Definition fallbackPattern : regex :=
  rxi [Grp 1 (Seq (plus (Chr letter))
                (opt (seqs [star ws; lit ","; star ws; plus (Chr letter)])))].

Definition slashOrDash : re := Chr (CUnion (CChar "/") (CChar "-")).

(** [[A-Za-z]+\s+\d{1,2}(?:st|nd|rd|th)?(?:,\s+\d{4})?|\d{1,2}[/\-]\d{1,2}[/\-]\d{2,4}] *)
Definition stayDate : re :=
  alts [seqs [plus (Chr letter); plus ws; times 1 2 digit; ordinal;
              opt (seqs [lit ","; plus ws; times 4 4 digit])];
        seqs [times 1 2 digit; slashOrDash; times 1 2 digit; slashOrDash; times 2 4 digit]].

Definition checkWord (suffix : string) : re :=
  seqs [lit "check"; star (Chr (CUnion CSpace (CChar "-"))); lit suffix].

(** [/(?:from|on|starting|check[\s-]*in)\s+(...)/i] *)
Definition checkInPattern : regex :=
  rxi [alts [lit "from"; lit "on"; lit "starting"; checkWord "in"]; plus ws; Grp 1 stayDate].

(** [/(?:to|until|through|checkout|check[\s-]*out)\s+(...)/i] *)
Definition checkOutPattern : regex :=
  rxi [alts [lit "to"; lit "until"; lit "through"; lit "checkout"; checkWord "out"];
       plus ws; Grp 1 stayDate].

(** [/(\d+)\s+(?:adult|adults|people|guests)/i] *)
Definition adultsPattern : regex :=
  rxi [Grp 1 (plus digit); plus ws;
       alts [lit "adult"; lit "adults"; lit "people"; lit "guests"]].

(** [parseInt(digits, 10)] on a string of decimal digits. *)
Definition parseDigits (s : string) : Z :=
  (fix go (acc : Z) (s : string) : Z :=
     match s with
     | EmptyString => acc
     | String c t => go (10 * acc + Z.of_nat (JS.code c - 48))%Z t
     end) 0%Z s.

Record HotelParams : Type := mkHotelParams {
  city : option string;
  checkInDate : option string;
  checkOutDate : option string;
  guests : Z
}.

(** The extraction at the head of [handleHotelIntent]. *)
Definition extractHotelParams (message : string) : HotelParams :=
  (* Extract city: a full location first, then a more general capture,
     then any name in the message *)
  let cityMatch :=
    match exec cityStatePattern message with
    | Some m => Some m
    | None =>
        match exec generalLocationPattern message with
        | Some m => Some m
        | None => exec fallbackPattern message
        end
    end in
  (* Extract number of adults *)
  let adults :=
    match exec adultsPattern message with
    | Some m =>
        let n := parseDigits (orBlank (group 1 m)) in
        let n := if (n <? 1)%Z then 1%Z else n in
        if (9 <? n)%Z then 9%Z else n
    | None => 1%Z
    end in
  mkHotelParams
    (option_map (trimmedGroup 1) cityMatch)
    (option_map (trimmedGroup 1) (exec checkInPattern message))
    (option_map (trimmedGroup 1) (exec checkOutPattern message))
    adults.

(** [typeof d === 'object' && d?.text ? d.text : (typeof d === 'string' ? d : fallback)]. *)
Definition describe (d : Description) (fallback : string) : string :=
  match d with
  | DescObject (Some t) => if JS.truthy t then t else fallback
  | DescObject None => fallback
  | DescString s => s
  end.

Definition descriptionTruthy (d : option Description) : bool :=
  match d with
  | Some (DescString s) => JS.truthy s
  | Some (DescObject _) => true
  | None => false
  end.

(** The body of the loop for the hotel of index [i]. *)
Definition formatHotelOffer (i : nat) (h : HotelOffer) (response : string) : string :=
  let info (field : HotelInfo -> option string) : option string :=
    match hotelInfo h with Some x => field x | None => None end in
  let response :=
    response ++ "**" ++ JS.showNat (i + 1) ++ ". "
      ++ (if JS.truthyOpt (info hotelName) then orBlank (info hotelName) else "Hotel")
      ++ "**" ++ nl in
  let response :=
    if JS.truthyOpt (info rating)
    then response ++ "⭐ Rating: " ++ orBlank (info rating) ++ "/5" ++ nl
    else response in
  let response :=
    if JS.truthyOpt (info addressCityName)
    then response ++ "📍 Location: " ++ orBlank (info addressCityName) ++ nl
    else response in
  let response :=
    match offers h with
    | Some (offer :: _) =>
        let response :=
          response ++ "💰 Price: " ++ currency (roomPrice offer) ++ " "
            ++ total (roomPrice offer) ++ nl in
        let response :=
          match roomDescription offer with
          | Some d =>
              if descriptionTruthy (roomDescription offer)
              then response ++ "🛏️ Room: " ++ describe d "Standard Room" ++ nl
              else response
          | None => response
          end in
        match cancellationDescription offer with
        | Some d =>
            if descriptionTruthy (cancellationDescription offer)
            then response ++ "ℹ️ " ++ describe d "See hotel for cancellation policy" ++ nl
            else response
        | None => response
        end
    | _ => response
    end in
  let response :=
    match hotelInfo h with
    | Some x =>
        match amenities x with
        | Some (a :: more) =>
            response ++ "🏨 Amenities: " ++ JS.join ", " (firstn 3 (a :: more)) ++ nl
        | _ => response
        end
    | None => response
    end in
  response ++ nl.

Fixpoint formatHotelOffers (i : nat) (shown : list HotelOffer) (response : string)
  : string :=
  match shown with
  | [] => response
  | h :: more => formatHotelOffers (S i) more (formatHotelOffer i h response)
  end.

(** The reply that lists the hotels found. *)
Definition formatHotelResponse (hotelOffers : list HotelOffer)
  (cityName checkInStr checkOutStr : string) (adults : Z) : string :=
  let response :=
    "I found " ++ JS.showNat (List.length hotelOffers) ++ " hotels in " ++ cityName ++ ":"
      ++ nl ++ nl in
  let response :=
    response ++ "🗓️ Check-in: "
      ++ toLocaleDateString host (Date_parse host checkInStr) ++ nl in
  let response :=
    response ++ "🗓️ Check-out: "
      ++ toLocaleDateString host (Date_parse host checkOutStr) ++ nl in
  let response :=
    response ++ "👥 Guests: " ++ JS.showZ adults ++ " adult"
      ++ (if (1 <? adults)%Z then "s" else "") ++ nl ++ nl in
  (* Show up to 3 hotels *)
  let maxHotels := Nat.min 3 (List.length hotelOffers) in
  let response := formatHotelOffers 0 (firstn maxHotels hotelOffers) response in
  response
    ++ "Would you like more details about any of these hotels or to modify your search criteria?".

Definition invalidTimeValue : JsError := Error "Invalid time value".

(** [d.toISOString().split('T')[0]], which throws on an Invalid Date. *)
Definition toISODate (d : option Z) : M string :=
  match d with
  | Some t => ret (JSDate.isoDate t)
  | None => throw invalidTimeValue
  end.

(** The [Date]s of the stay.  A check-in that was not extracted defaults
    to now, a check-out that was not extracted to the check-in; a
    check-out that is not after the check-in is moved to the day of the
    month of the check-in plus three. *)
Definition stayDates (params : HotelParams) : option Z * option Z :=
  let checkIn : option Z :=
    if JS.truthyOpt (checkInDate params)
    then Date_parse host (formatDate (orBlank (checkInDate params)))
    else Some (now host) in
  let checkOut : option Z :=
    if JS.truthyOpt (checkOutDate params)
    then Date_parse host (formatDate (orBlank (checkOutDate params)))
    else checkIn in
  let checkOut : option Z :=
    match checkOut, checkIn with
    | Some o, Some i =>
        if (o <=? i)%Z
        then Some (setDate host o (getDate host i + 3))  (* 3 night stay *)
        else checkOut
    | _, _ => checkOut      (* [setDate] leaves an Invalid Date invalid *)
    end in
  (checkIn, checkOut).

Definition handleHotelIntent (messages : list Message) (intent : TravelIntent) : M string :=
  tryCatch
    (match lastUserMessage messages with
     | None => ret "Please provide details about your hotel search."
     | Some userMessage =>
         (* Check if Amadeus client is initialized and credentials are valid *)
         if negb (Amadeus.isClientInitialized amadeusService)
         then ret hotelServiceUnavailable
         else
           let params := extractHotelParams (content userMessage) in
           let adults := guests params in
           if negb (JS.truthyOpt (city params))
           then ret askForCity
           else
             let cityName := orBlank (city params) in
             (* Get city code *)
             cityCode <- getIATACode amadeusService cityName ;;
             (* Use default dates if not provided *)
             let '(checkIn, checkOut) := stayDates params in
             checkInStr <- toISODate checkIn ;;
             checkOutStr <- toISODate checkOut ;;
             tryCatch
               (if negb (JS.truthy cityCode)
                then throw (Error ("Unable to find city code for " ++ cityName))
                else
                  hotelOffers <-
                    tryCatch
                      (Amadeus.searchHotels amadeusService cityCode checkInStr checkOutStr
                         adults 5)
                      (fun searchError =>
                         throw (Error ("Hotel search failed: "
                                         ++ Amadeus.orString (message searchError)
                                              "Unknown error"))) ;;
                  match hotelOffers with
                  | [] =>
                      ret ("I couldn't find any available hotels in " ++ cityName
                             ++ " for those dates. Would you like to try different dates or a nearby city?")
                  | _ :: _ =>
                      ret (formatHotelResponse hotelOffers cityName checkInStr checkOutStr
                             adults)
                  end)
               (fun error =>
                  if JS.includes (message error) "Authentication failed"
                  then ret "The hotel search service is not properly configured. Please check your Amadeus API credentials."
                  else if JS.includes (message error) "Invalid city code"
                          || JS.includes (message error) "Unable to find city code"
                  then ret ("I couldn't find any hotels in " ++ cityName
                              ++ ". The city might be misspelled or not available in our database. Could you try a different city or specify the country as well?")
                  else ret ("I encountered an issue searching for hotels in " ++ cityName
                              ++ ": "
                              ++ Amadeus.orString (message error)
                                   "Please try again with more specific details."))
     end)
    (fun error =>
       ret ("I encountered an issue while searching for hotels: "
              ++ Amadeus.orString (message error) "Please try again.")).

(** *** getFallbackResponse, generateStandardResponse, generateResponse *)

(** The service object: the API key of the environment and the chat
    completion endpoint of the OpenAI client. *)
Record Self : Type := mkSelf {
  OPENAI_API_KEY : option string;
  chatCompletionsCreate : Trace -> list Message -> Reply string
}.

Variable self : Self.

Definition flightFallback : string :=
  "I'd be happy to help you find flights. Please let me know your departure city, destination, and travel dates.".

Definition hotelFallback : string :=
  "I can help you find hotels. What city are you visiting and when do you need accommodation?".

Definition generalFallback : string :=
  "I'm your travel assistant. I can help you search for flights and hotels. What would you like to explore today?".

Definition getFallbackResponse (messages : list Message) : string :=
  let userInput :=
    match lastUserMessage messages with
    | Some m => content m
    | None => ""
    end in
  let lowerInput := JS.toLowerCase userInput in
  if JS.includes lowerInput "flight" then flightFallback
  else if JS.includes lowerInput "hotel" then hotelFallback
  else generalFallback.

Definition systemMessage : Message :=
  mkMessage system
"You are an intelligent travel assistant with access to real-time flight and hotel data through Amadeus APIs. 
        Help users search for flights, hotels, and plan their trips. 
        When users ask about flights or hotels, use the integrated Amadeus API to provide real, current data.
        Be helpful, concise, and accurate. Format responses with markdown for clarity.".

(** [await this.client.chat.completions.create(...)], answered with
    [response.choices[0]?.message?.content]. *)
Definition chatCompletion (apiMessages : list Message) : M (option string) :=
  fun tr =>
    match chatCompletionsCreate self tr apiMessages with
    | Fails e => (Throw e, (tr ++ [EvChatCompletion apiMessages])%list)
    | Data d => (Return d, (tr ++ [EvChatCompletion apiMessages])%list)
    end.

Definition generateStandardResponse (systemMsg : Message) (messages : list Message)
  : M string :=
  emit EvGenerateStandardResponse ;;;
  tryCatch
    (let apiMessages := systemMsg :: messages in
     reply <- chatCompletion apiMessages ;;
     ret (if JS.truthyOpt reply then orBlank reply else getFallbackResponse messages))
    (fun _ => ret (getFallbackResponse messages)).

Definition greeting : string :=
  "Hello! I'm your AI travel assistant. I can help you plan trips, find flights, book hotels, and create amazing itineraries. What would you like to explore today?".

(** [/^(hi|hello|hey|greetings|what can you do|help me|how does this work)$/i] *)
Definition isGreetingPattern : regex :=
  rxi [Bol;
       Grp 1 (alts [lit "hi"; lit "hello"; lit "hey"; lit "greetings";
                    lit "what can you do"; lit "help me"; lit "how does this work"]);
       Eol].

Definition capabilities : string :=
  "I can help you with a variety of travel-related tasks, including:" ++ nl ++ nl
  ++ "1. Flight Search: Find and compare flights based on your preferences for dates, destinations, and airlines." ++ nl ++ nl
  ++ "2. Hotel Booking: Locate hotels that suit your budget and requirements, and provide booking information." ++ nl ++ nl
  ++ "3. Trip Planning: Offer suggestions for travel itineraries, including popular attractions and activities at your destination." ++ nl ++ nl
  ++ "4. Travel Advice: Provide tips on travel safety, packing, and cultural insights for different regions." ++ nl ++ nl
  ++ "5. Real-Time Updates: Access current data for flights and hotels to ensure you have the most accurate information." ++ nl ++ nl
  ++ "Let me know what you need help with, and I'll be glad to assist!".

Definition howCanIAssist : string :=
  "Hello! How can I assist you with your travel plans today? Are you looking for flights, hotels, or some travel inspiration?".

Definition bookingSteps : string :=
  "I can help you with flight bookings! To proceed, I'll need:" ++ nl ++ nl
  ++ "1. First, let's search for your flight" ++ nl
  ++ "2. Select the flight you want to book" ++ nl
  ++ "3. Provide passenger details" ++ nl
  ++ "4. Confirm and complete the booking" ++ nl ++ nl
  ++ "What route would you like to book? Please provide your departure city, destination, and travel date.".

(** The dispatch threshold of [generateResponse]. *)
Definition threshold : float := 0.65%float.

(** Main response generation method. *)
Definition generateResponse (messages : list Message) : M string :=
  tryCatch
    ((* Check if OpenAI is properly configured *)
     if negb (JS.truthyOpt (OPENAI_API_KEY self))
     then ret (getFallbackResponse messages)
     else
       (* Get the last user message *)
       match lastUserMessage messages with
       | None => ret greeting
       | Some userMessage =>
           (* Handle first message specially - never try to detect intent on
              the first message *)
           if (List.length messages <=? 1)%nat
           then ret greeting
           else if test isGreetingPattern (JS.trim (content userMessage))
           then
             if JS.includes (JS.toLowerCase (content userMessage)) "what can you do"
             then ret capabilities
             else ret howCanIAssist
           else
             (* Detect travel intent for non-greeting messages *)
             emit (EvDetectTravelIntent (content userMessage)) ;;;
             match detectTravelIntent (content userMessage) with
             | Some travelIntent =>
                 if PrimFloat.ltb threshold (confidence travelIntent)
                 then
                   match intentType travelIntent with
                   | flight =>
                       emit EvHandleFlightIntent ;;;
                       handleFlightIntent messages travelIntent
                   | hotel =>
                       emit EvHandleHotelIntent ;;;
                       handleHotelIntent messages travelIntent
                   | booking => ret bookingSteps
                   | _ => generateStandardResponse systemMessage messages
                   end
                 else
                   (* No travel intent detected, use standard OpenAI *)
                   generateStandardResponse systemMessage messages
             | None => generateStandardResponse systemMessage messages
             end
       end)
    (fun _ => ret (getFallbackResponse messages)).

End WithHost.

End OpenAIService.

(* ================================================================= *)
(** ** A reference host

    A concrete host on which the examples below are evaluated: a server
    on UTC whose clock reads 2026-11-02T12:00:00Z.  Its date parser
    accepts the ISO date [YYYY-MM-DD] (midnight UTC) and the forms
    [Month D YYYY], [Month D, YYYY] and [D Month YYYY] (local midnight),
    and rejects every other string, as V8 does for an ISO date followed
    by a further number.  Its number parser and printer are exact on
    decimals of at most fifteen significant digits. *)

Module Node.

Import Regex.

Local Open Scope string_scope.

Definition monthNames : list string :=
  ["jan"; "feb"; "mar"; "apr"; "may"; "jun"; "jul"; "aug"; "sep"; "oct"; "nov"; "dec"].

Fixpoint monthIndex (name : string) (names : list string) (i : Z) : option Z :=
  match names with
  | [] => None
  | n :: more =>
      if String.eqb n (JS.takeChars 3 (JS.toLowerCase name)) then Some i
      else monthIndex name more (i + 1)%Z
  end.

Definition isoPattern : regex :=
  rx [Bol; Grp 1 (times 4 4 digit); lit "-"; Grp 2 (times 2 2 digit); lit "-";
      Grp 3 (times 2 2 digit); Eol].

Definition monthDayYear : regex :=
  rx [Bol; Grp 1 (plus (Chr letter)); plus ws; Grp 2 (times 1 2 digit); opt (lit ",");
      plus ws; Grp 3 (times 4 4 digit); Eol].

Definition dayMonthYear : regex :=
  rx [Bol; Grp 2 (times 1 2 digit); plus ws; Grp 1 (plus (Chr letter)); plus ws;
      Grp 3 (times 4 4 digit); Eol].

Definition num (n : nat) (m : Match) : Z :=
  match group n m with
  | Some s => OpenAIService.parseDigits s
  | None => 0%Z
  end.

Definition validDay (m d : Z) : bool :=
  ((1 <=? m) && (m <=? 12) && (1 <=? d) && (d <=? 31))%Z.

Definition named (tz : Z) (m : Match) : option Z :=
  match monthIndex (OpenAIService.orBlank (group 1 m)) monthNames 1 with
  | Some month =>
      if validDay month (num 2 m)
      then Some ((JSDate.daysFromCivil (num 3 m) month 1 + num 2 m - 1)
                 * JSDate.msPerDay - tz)%Z
      else None
  | None => None
  end.

Definition dateParse (tz : Z) (s : string) : option Z :=
  match exec isoPattern s with
  | Some m =>
      if validDay (num 2 m) (num 3 m)
      then Some (JSDate.daysFromCivil (num 1 m) (num 2 m) (num 3 m) * JSDate.msPerDay)%Z
      else None
  | None =>
      match OpenAIService.firstMatch [monthDayYear; dayMonthYear] (JS.trim s) with
      | Some m => named tz m
      | None => None
      end
  end.

(** The en-US renderings [M/D/YYYY] and [M/D/YYYY, h:mm:ss AM]. *)
Definition localeDate (tz : Z) (d : option Z) : string :=
  match d with
  | None => "Invalid Date"
  | Some t =>
      let '(y, m, day) := JSDate.civilFromDays ((t + tz) / JSDate.msPerDay) in
      JS.showZ m ++ "/" ++ JS.showZ day ++ "/" ++ JS.showZ y
  end.

Definition localeDateTime (tz : Z) (d : option Z) : string :=
  match d with
  | None => "Invalid Date"
  | Some t =>
      let secs := (((t + tz) mod JSDate.msPerDay) / 1000)%Z in
      let h := (secs / 3600)%Z in
      let h12 := (if (h mod 12 =? 0) then 12 else h mod 12)%Z in
      localeDate tz d ++ ", " ++ JS.showZ h12 ++ ":" ++ JSDate.pad 2 ((secs / 60) mod 60)%Z
        ++ ":" ++ JSDate.pad 2 (secs mod 60)%Z ++ (if (h <? 12)%Z then " AM" else " PM")
  end.

(** An integer below 2^63 as a float (exact below 2^53). *)
Definition floatOfZ (n : Z) : float := PrimFloat.of_uint63 (Uint63.of_Z n).

Definition digitsPrefix (s : string) : string :=
  (fix go (s : string) : string :=
     match s with
     | String c t => if JS.isDigit c then String c (go t) else EmptyString
     | EmptyString => EmptyString
     end) s.

(** [parseFloat] on [digits], [digits.digits] and their negatives; what
    follows the number is ignored, and a string without a leading number
    gives NaN. *)
Definition parseDecimal (s : string) : float :=
  let s := JS.trimStart s in
  let '(negative, s) :=
    match s with
    | String "-" t => (true, t)
    | String "+" t => (false, t)
    | _ => (false, s)
    end in
  let whole := digitsPrefix s in
  let fraction :=
    match JS.dropChars (String.length whole) s with
    | String "." t => digitsPrefix t
    | _ => EmptyString
    end in
  match whole, fraction with
  | EmptyString, EmptyString => PrimFloat.nan
  | _, _ =>
      let mantissa := OpenAIService.parseDigits (whole ++ fraction) in
      let value :=
        PrimFloat.div (floatOfZ mantissa) (floatOfZ (10 ^ Z.of_nat (String.length fraction))) in
      if negative then PrimFloat.opp value else value
  end.

(** The value [m * 2^e] of a finite float scaled by [10^k] and rounded to
    the nearest integer. *)
Definition scaled (k : Z) (f : float) : option Z :=
  match Prim2SF f with
  | SpecFloat.S754_zero _ => Some 0%Z
  | SpecFloat.S754_finite _ m e =>
      if (0 <=? e)%Z then Some (Z.pos m * 2 ^ e * 10 ^ k)%Z
      else Some ((2 * Z.pos m * 10 ^ k + 2 ^ (- e)) / (2 * 2 ^ (- e)))%Z
  | _ => None
  end.

(** The shortest decimal that reads back as the same float, as
    [Number.prototype.toString] prints it for moderate magnitudes. *)
Definition showNumber (f : float) : string :=
  (fix go (fuel : nat) (k : Z) : string :=
     match fuel with
     | O => "NaN"
     | S fuel' =>
         match scaled k (PrimFloat.abs f) with
         | None => if PrimFloat.ltb f 0%float then "-Infinity"
                   else if PrimFloat.ltb 0%float f then "Infinity" else "NaN"
         | Some n =>
             if PrimFloat.eqb (PrimFloat.div (floatOfZ n) (floatOfZ (10 ^ k))) (PrimFloat.abs f)
             then
               let digits := JS.showZ n in
               let whole := (String.length digits - Z.to_nat k)%nat in
               (if PrimFloat.ltb f 0%float then "-" else "")
                 ++ (if (whole =? 0)%nat
                     then "0." ++ JSDate.pad (Z.to_nat k) n
                     else if (k =? 0)%Z then digits
                     else JS.takeChars whole digits ++ "." ++ JS.dropChars whole digits)
             else go fuel' (k + 1)%Z
         end
     end) 23%nat 0%Z.

(** 2026-11-02T12:00:00Z *)
Definition clock : Z := 1793620800000.

Definition host : Host :=
  mkHost clock 0 (dateParse 0) (localeDateTime 0) (localeDate 0)
    parseDecimal showNumber (fun _ => None).

End Node.


(* ================================================================= *)
(** ** Sample data for the examples *)

Module Samples.

Local Open Scope string_scope.

Definition offline : JsError := Error "connect ECONNREFUSED".

(** A provider that cannot be reached: every request fails. *)
Definition unreachable : Client :=
  mkClient (fun _ _ => Fails offline) (fun _ _ => Fails offline)
    (fun _ _ => Fails offline) (fun _ _ => Fails offline)
    (fun _ _ => Fails offline) (fun _ _ => Fails offline)
    (fun _ _ => Fails offline).

Definition direct (from to departAt arriveAt : string) : FlightSegment :=
  mkFlightSegment (mkEndpoint departAt from) (mkEndpoint arriveAt to)
    (Some "BA") (Some "178") None None.

(** A direct flight from New York to London offered at [amount] dollars. *)
Definition offerAt (amount : string) : FlightOffer :=
  mkFlightOffer
    (Some [mkFlightItinerary (Some [direct "JFK" "LHR" "2026-12-01" "2026-12-02"]) None])
    (mkPrice amount None "USD").

Definition order : FlightOrder :=
  mkFlightOrder "eJzTd9f3NjIJdzUGAAp%2fAiY" (Some ["ABC123"]) None None (Some "6D").

(** A provider that confirms every offer at [amount] dollars and accepts
    every booking. *)
Definition repricing (amount : string) : Client :=
  mkClient (fun _ _ => Fails offline) (fun _ _ => Fails offline)
    (fun _ _ => Data (Some (mkPricingData (Some [offerAt amount]))))
    (fun _ _ => Data (Some order))
    (fun _ _ => Fails offline) (fun _ _ => Fails offline)
    (fun _ _ => Fails offline).

Definition paris : LocationData :=
  mkLocationData "CITY" "PARIS" (Some "PAR") (Some (48.85341, 2.3488)%float).

(** A hotel named [name] with a room at [amount] dollars. *)
Definition hotelNamed (name amount : string) : HotelOffer :=
  mkHotelOffer (Some (mkHotelInfo (Some name) (Some "4") (Some "Paris") None))
    (Some [mkHotelRoomOffer (mkPrice amount None "USD") None None]).

(** A provider that knows Paris and finds the given hotel offers there. *)
Definition parisian (found : list HotelOffer) : Client :=
  mkClient (fun _ _ => Data (Some [paris])) (fun _ _ => Fails offline)
    (fun _ _ => Fails offline) (fun _ _ => Fails offline)
    (fun _ _ => Data (Some [mkHotelRef "H1"])) (fun _ _ => Data (Some found))
    (fun _ _ => Fails offline).

(** A provider whose location search answers with a lower-case code. *)
Definition sloppy : Client :=
  mkClient (fun _ _ => Data (Some [mkLocationData "CITY" "PARIS" (Some "par") None]))
    (fun _ _ => Fails offline) (fun _ _ => Fails offline) (fun _ _ => Fails offline)
    (fun _ _ => Fails offline) (fun _ _ => Fails offline) (fun _ _ => Fails offline).

Definition threeHotels : list HotelOffer :=
  [hotelNamed "Ritz" "900.00"; hotelNamed "Lutetia" "650.00"; hotelNamed "Crillon" "990.00"].

Definition fourHotels : list HotelOffer := threeHotels ++ [hotelNamed "Meurice" "870.00"].

Definition initialized (c : Client) : Amadeus.Service := Amadeus.mkService (Some c) true.

Definition uninitialized : Amadeus.Service := Amadeus.mkService None false.

(** The body of a booking request for the offer quoted at [amount]. *)
Definition bookingOf (amount : string) : BookingController.BookingRequest :=
  BookingController.mkBookingRequest (Some (offerAt amount))
    (Some [mkTraveler "1" "Ada" "Lovelace"]) (Some [mkContact (Some "ada@example.org")]).

(** A conversation already opened by the assistant, and the user's turn. *)
Definition asking (request : string) : list Message :=
  [mkMessage assistant OpenAIService.greeting; mkMessage user request].

(** A service whose provider knows Paris and finds one hotel there. *)
Definition parisService : Amadeus.Service :=
  initialized (parisian [hotelNamed "Ritz" "900.00"]).

(** A service that is initialized but whose provider cannot be reached. *)
Definition cutOff : Amadeus.Service := initialized unreachable.

End Samples.

(* ================================================================= *)
(** ** Further operations of the Amadeus service *)

Module AmadeusTools.

Import Regex.

Local Open Scope string_scope.

(** [/PT(?:(\d+)H)?(?:(\d+)M)?/] *)
Definition isoDuration : regex :=
  rx [lit "PT"; opt (Seq (Grp 1 (plus digit)) (lit "H"));
      opt (Seq (Grp 2 (plus digit)) (lit "M"))].

(** [match[n] || '0']. *)
Definition groupOrZero (n : nat) (m : Match) : string :=
  match group n m with
  | Some s => if JS.truthy s then s else "0"
  | None => "0"
  end.

(** Format flight duration from ISO 8601 to human readable. *)
Definition formatFlightDuration (duration : string) : string :=
  if negb (JS.truthy duration) then ""
  else
    match exec isoDuration duration with
    | None => duration
    | Some m => groupOrZero 1 m ++ "h " ++ groupOrZero 2 m ++ "m"
    end.

(** Search hotels by geographic coordinates (alternative method). *)
Definition searchHotelsByCoordinates (svc : Amadeus.Service) (latitude longitude : float)
  (checkInDate checkOutDate : string) (adults radius : Z) : M (list HotelOffer) :=
  Amadeus.checkInitialization svc ;;;
  tryCatch
    (Amadeus.withClient svc (fun c =>
       data <- request (hotelOffersSearch c)
                 (HotelOffersSearchByGeo latitude longitude radius
                    checkInDate checkOutDate adults) ;;
       ret (Amadeus.orEmpty data)))
    (fun error =>
       throw (Error ("Hotel search by coordinates failed: "
                       ++ Amadeus.orString (message error) "Unknown error"))).

End AmadeusTools.

(* ================================================================= *)
(** ** The price confirmation endpoint (booking.controller.ts) *)

Module ConfirmPriceController.

Local Open Scope string_scope.

(** The fields of [req.body] that [confirmPrice] uses. *)
Record ConfirmRequest : Type := mkConfirmRequest {
  flightOffer : option FlightOffer;
  travelersOf : option (list Traveler)       (* the field [travelers] *)
}.

Section WithHost.

Variable host : Host.

(** Two parts of the pricing answer are passed through to the caller
    without being read: the fare rules of the confirmed offer
    ([flightOffers?.[0]?.fareDetailsBySegment]) and the included bags
    ([included?.bags]). *)
Variables FareRules Bags : Type.
Variable offerFareRules : FlightOffer -> option FareRules.
Variable includedBags : PricingData -> option Bags.

Inductive Json : Type :=
| ErrorJson (error : string) (msg : option string)
| ConfirmedJson (priceChanged : bool)
    (originalPrice confirmedPrice priceDifference : float)
    (confirmedOffer : FlightOffer) (fareRules : option FareRules)
    (bags : option Bags).

Record HttpResponse : Type := mkHttp { status : Z; json : Json }.

(** Just confirm price without booking. *)
Definition confirmPrice (svc : Amadeus.Service) (body : ConfirmRequest) : M HttpResponse :=
  tryCatch
    (match flightOffer body with
     | None => ret (mkHttp 400 (ErrorJson "Flight offer is required" None))
     | Some offer =>
         priceConfirmation <- Amadeus.confirmFlightPrice svc [offer] (travelersOf body) ;;
         match priceConfirmation with
         | None => throw TypeError          (* priceConfirmation.flightOffers *)
         | Some pricing =>
             match pricedOffers pricing with
             | Some (confirmedOffer :: _) =>
                 (* Calculate price difference *)
                 let originalPrice := parseFloat host (total (price offer)) in
                 let confirmedPrice := parseFloat host (total (price confirmedOffer)) in
                 let priceChanged :=
                   BookingController.priceChanged originalPrice confirmedPrice in
                 ret (mkHttp 200
                        (ConfirmedJson priceChanged originalPrice confirmedPrice
                           (PrimFloat.sub confirmedPrice originalPrice)
                           confirmedOffer (offerFareRules confirmedOffer)
                           (includedBags pricing)))
             | _ => ret (mkHttp 400 (ErrorJson "Could not confirm price" None))
             end
         end
     end)
    (fun error =>
       ret (mkHttp 500 (ErrorJson "Failed to confirm price" (Some (message error))))).

End WithHost.

End ConfirmPriceController.

(* ================================================================= *)
(** ** The service test endpoint (amadeus-test.controller.ts) *)

Module TestController.

Local Open Scope string_scope.

(** The outcome of one service test: [working] is [None] when the
    expression [result && result.length > 0] is [undefined]. *)
Record ServiceTest (R : Type) : Type := mkServiceTest {
  tested : bool;
  working : option bool;
  result : option R;
  error : option string
}.

Arguments mkServiceTest {R} tested working result error.
Arguments tested {R} s.
Arguments working {R} s.
Arguments result {R} s.
Arguments error {R} s.

(** [{ count, firstResult }]. *)
Record Sample (A : Type) : Type := mkSample { count : nat; firstResult : A }.

Arguments mkSample {A} count firstResult.

Record Results : Type := mkResults {
  isInitialized : bool;
  citySearch : ServiceTest (list LocationData);
  flightSearch : ServiceTest (Sample FlightOffer);
  hotelSearch : ServiceTest (Sample HotelOffer);
  pointsOfInterestTest : ServiceTest (Sample PointOfInterest)
}.

Record HttpResponse : Type := mkHttp {
  status : Z;
  messageText : string;
  results : Results
}.

(** The initial value of every entry: [{ tested: false, working: false,
    result: null, error: null }]. *)
Definition untested {R} : ServiceTest R := mkServiceTest false (Some false) None None.

(** [working] and [{ count, firstResult }] for an array answer. *)
Definition sampled {A} (l : list A) : ServiceTest (Sample A) :=
  match l with
  | [] => mkServiceTest true (Some false) None None
  | first :: _ => mkServiceTest true (Some true) (Some (mkSample (List.length l) first)) None
  end.

(** The entry after its call threw: tested, still not working, with the
    message of the error. *)
Definition failedWith {R} (e : JsError) : ServiceTest R :=
  mkServiceTest true (Some false) None (Some (message e)).

Section WithHost.

Variable host : Host.

(** Test if Amadeus is initialized and all API services are working. *)
Definition testApiServices (svc : Amadeus.Service) : M HttpResponse :=
  if negb (Amadeus.isClientInitialized svc)
  then
    ret (mkHttp 500 "Amadeus client is not initialized. Check environment variables."
           (mkResults false untested untested untested untested))
  else
    (* Test city search API *)
    city <- tryCatch
              (cityResult <- Amadeus.lookupCity svc "Chicago" Amadeus.CITY_AIRPORT ;;
               ret (mkServiceTest true
                      (match cityResult with
                       | Some l => Some (negb (Nat.eqb (List.length l) 0))
                       | None => None
                       end)
                      cityResult None))
              (fun e => ret (failedWith e)) ;;
    (* Test flight search API *)
    flights <- tryCatch
                 (flightResult <- Amadeus.searchFlights host svc "CHI" "MIA" "2023-07-15"
                                    None 1 "ECONOMY" ;;
                  ret (sampled flightResult))
                 (fun e => ret (failedWith e)) ;;
    (* Test hotel search API *)
    hotels <- tryCatch
                (hotelResult <- Amadeus.searchHotels svc "MIA" "2023-07-15" "2023-07-20" 1 5 ;;
                 ret (sampled hotelResult))
                (fun e => ret (failedWith e)) ;;
    (* Test points of interest API *)
    pois <- tryCatch
              (poiResult <- Amadeus.searchPointsOfInterest svc 25.7617 (-80.1918) 2 ;;
               ret (match poiResult with
                    | Some l => sampled l
                    | None => mkServiceTest true None None None
                    end))
              (fun e => ret (failedWith e)) ;;
    ret (mkHttp 200 "Amadeus API services test completed"
           (mkResults true city flights hotels pois)).

End WithHost.

End TestController.

(* ================================================================= *)
(** ** The debug routes (amadeus-debug.routes.ts) *)

Module DebugRoutes.

Local Open Scope string_scope.

(** [s.substring(s.length - 3)]: the last three characters, the whole
    string when it is shorter. *)
Definition lastThree (s : string) : string :=
  JS.dropChars (String.length s - 3) s.

(** Mask credentials for security. *)
Definition mask (credential : option string) : string :=
  match credential with
  | Some s =>
      if JS.truthy s then JS.takeChars 3 s ++ "..." ++ lastThree s else "Not found"
  | None => "Not found"
  end.

Inductive AirportJson : Type :=
| NotInitialized (error reason : string)
| Found (query : string) (result : option (list LocationData))
| Failed (error : string).

Record HttpResponse : Type := mkHttp { status : Z; json : AirportJson }.

(** Simple test endpoint for Amadeus airport lookup. *)
Definition testAirport (svc : Amadeus.Service) (code : string) : M HttpResponse :=
  tryCatch
    (if negb (Amadeus.isClientInitialized svc)
     then ret (mkHttp 500
                 (NotInitialized "Amadeus client not initialized"
                    "Check if your environment variables are loaded correctly"))
     else
       found <- Amadeus.lookupCity svc code Amadeus.CITY_AIRPORT ;;
       ret (mkHttp 200 (Found code found)))
    (fun e => ret (mkHttp 500 (Failed (message e)))).

End DebugRoutes.

(* ================================================================= *)
(** * Properties *)

Import OpenAIService.

(** ** Provider adapter: initialization *)

(** A computation that throws the not-initialized error at once, leaving
    the trace as it found it. *)
Definition failsFast {A} (c : M A) : Prop :=
  forall tr, c tr = (Throw (Error Amadeus.notInitializedMessage), tr).

Section NotInitialized.

Variable host : Host.
Variable svc : Amadeus.Service.
Hypothesis notInitialized : Amadeus.isInitialized svc = false.

Lemma checkInitialization_throws (tr : Trace) :
  Amadeus.checkInitialization svc tr = (Throw (Error Amadeus.notInitializedMessage), tr).
Proof.
  unfold Amadeus.checkInitialization. rewrite notInitialized. reflexivity.
Qed.

Lemma guarded_failsFast {A} (c : M A) :
  failsFast (Amadeus.checkInitialization svc ;;; c).
Proof.
  intro tr. unfold bind. rewrite checkInitialization_throws. reflexivity.
Qed.

End NotInitialized.

(** C5.  When the service is not initialized, searchFlights, searchHotels,
    searchPointsOfInterest, lookupCity, confirmFlightPrice and
    createFlightBooking each throw the not-initialized error and leave the
    trace as it was: no request is sent to the provider. *)
Theorem not_initialized_fails_fast (host : Host) (svc : Amadeus.Service) :
  Amadeus.isInitialized svc = false ->
  (forall o d dep ret adults cabin,
      failsFast (Amadeus.searchFlights host svc o d dep ret adults cabin))
  /\ (forall cityCode checkIn checkOut adults radius,
         failsFast (Amadeus.searchHotels svc cityCode checkIn checkOut adults radius))
  /\ (forall lat lon radius, failsFast (Amadeus.searchPointsOfInterest svc lat lon radius))
  /\ (forall keyword subType, failsFast (Amadeus.lookupCity svc keyword subType))
  /\ (forall offers travelers, failsFast (Amadeus.confirmFlightPrice svc offers travelers))
  /\ (forall offer travelers contacts,
         failsFast (Amadeus.createFlightBooking svc offer travelers contacts)).
Proof.
  intro H. repeat split; intros; apply guarded_failsFast; exact H.
Qed.

(** ** Booking controller: the price-change gate *)

Section PriceGate.

Variable host : Host.
Variable svc : Amadeus.Service.
Variable c : Client.
Hypothesis initialized : Amadeus.isInitialized svc = true.
Hypothesis hasClient : Amadeus.client svc = Some c.

Lemma checkInitialization_passes (tr : Trace) :
  Amadeus.checkInitialization svc tr = (Return tt, tr).
Proof.
  unfold Amadeus.checkInitialization. rewrite initialized, hasClient. reflexivity.
Qed.

(** A pricing request that the provider answers is recorded and its data
    returned. *)
Lemma confirmFlightPrice_answered offers travelers tr data :
  flightOffersPricing c tr (Amadeus.pricingRequest offers travelers) = Data data ->
  Amadeus.confirmFlightPrice svc offers travelers tr
  = (Return data, (tr ++ [EvApi (Amadeus.pricingRequest offers travelers)])%list).
Proof.
  intro answered.
  unfold Amadeus.confirmFlightPrice, bind, tryCatch.
  rewrite checkInitialization_passes, hasClient.
  unfold request. rewrite answered. reflexivity.
Qed.

End PriceGate.

(** C1.  Whenever the price confirmation returns an offer whose price
    differs from the price of the selected offer by more than 0.01 (the
    test [Math.abs(originalPrice - confirmedPrice) > 0.01] of the
    controller), createBooking answers 409 PRICE_CHANGED and the only
    request sent to the provider is the pricing request: the booking
    request is not attempted. *)
Theorem price_change_blocks_booking
  (host : Host) (svc : Amadeus.Service) (c : Client)
  (body : BookingController.BookingRequest)
  (offer confirmed : FlightOffer) (others : list FlightOffer) (tr : Trace) :
  let originalPrice := parseFloat host (total (price offer)) in
  let confirmedPrice := parseFloat host (total (price confirmed)) in
  let pricing :=
    Amadeus.pricingRequest [offer] (BookingController.travelerDetails body) in
  Amadeus.isInitialized svc = true ->
  Amadeus.client svc = Some c ->
  BookingController.selectedOffer body = Some offer ->
  flightOffersPricing c tr pricing
    = Data (Some (mkPricingData (Some (confirmed :: others)))) ->
  BookingController.priceChanged originalPrice confirmedPrice = true ->
  BookingController.createBooking host svc body tr
  = (Return
       (BookingController.mkHttp 409
          (BookingController.PriceChangedJson
             (BookingController.priceChangedMessage host offer confirmed
                originalPrice confirmedPrice)
             originalPrice confirmedPrice
             (PrimFloat.sub confirmedPrice originalPrice) confirmed)),
     (tr ++ [EvApi pricing])%list)
  /\ existsb isBookingCall (tr ++ [EvApi pricing]) = existsb isBookingCall tr.
Proof.
  intros originalPrice confirmedPrice pricing initialized hasClient selected answered changed.
  split.
  - unfold BookingController.createBooking, tryCatch, bind.
    rewrite selected.
    rewrite (confirmFlightPrice_answered svc c initialized hasClient _ _ _ _ answered).
    fold originalPrice confirmedPrice. rewrite changed. reflexivity.
  - rewrite existsb_app. simpl. apply orb_false_r.
Qed.

Lemma price_change_blocks_booking_witness :
  BookingController.priceChanged (parseFloat Node.host "500.00")
    (parseFloat Node.host "510.00") = true
  /\ fst (BookingController.createBooking Node.host
            (Samples.initialized (Samples.repricing "510.00"))
            (Samples.bookingOf "500.00") [])
     = Return
         (BookingController.mkHttp 409
            (BookingController.PriceChangedJson
               "Price has changed from USD 500 to USD 510" 500 510 10
               (Samples.offerAt "510.00")))
  /\ existsb isBookingCall
       (snd (BookingController.createBooking Node.host
               (Samples.initialized (Samples.repricing "510.00"))
               (Samples.bookingOf "500.00") []))
     = false.
Proof.
  destruct (price_change_blocks_booking Node.host
              (Samples.initialized (Samples.repricing "510.00"))
              (Samples.repricing "510.00") (Samples.bookingOf "500.00")
              (Samples.offerAt "500.00") (Samples.offerAt "510.00") [] []
              eq_refl eq_refl eq_refl eq_refl eq_refl) as [answer quiet].
  split; [reflexivity|].
  rewrite answer. split; [reflexivity | exact quiet].
Defined.

Lemma not_initialized_fails_fast_witness :
  Amadeus.isInitialized Samples.uninitialized = false
  /\ failsFast (Amadeus.searchFlights Node.host Samples.uninitialized
                  "JFK" "LHR" "2026-12-01" None 1 "ECONOMY")
  /\ failsFast (Amadeus.confirmFlightPrice Samples.uninitialized
                  [Samples.offerAt "500.00"] None).
Proof.
  destruct (not_initialized_fails_fast Node.host Samples.uninitialized eq_refl)
    as (flights & _ & _ & _ & pricing & _).
  split; [reflexivity|].
  split; [apply flights | apply pricing].
Defined.

(** Conversely: a booking request appears in the trace of createBooking
    only when the confirmed price passed the test. *)
Lemma booking_request_implies_price_confirmed
  (host : Host) (svc : Amadeus.Service) (body : BookingController.BookingRequest)
  (tr : Trace) :
  existsb isBookingCall (snd (BookingController.createBooking host svc body tr)) = true ->
  existsb isBookingCall tr = true
  \/ exists offer confirmed,
      BookingController.selectedOffer body = Some offer
      /\ BookingController.priceChanged (parseFloat host (total (price offer)))
           (parseFloat host (total (price confirmed))) = false.
Proof.
  unfold BookingController.createBooking, tryCatch, bind.
  destruct (BookingController.selectedOffer body) as [offer|]; [|cbn; tauto].
  unfold Amadeus.confirmFlightPrice, bind, tryCatch, Amadeus.checkInitialization.
  destruct (Amadeus.isInitialized svc), (Amadeus.client svc) as [c|];
    cbn [ret throw];
    try (repeat match goal with
                | |- context [if ?b then _ else _] => destruct b
                end; cbn; tauto).
  unfold request.
  destruct (flightOffersPricing c tr _) as [e | [[[[| confirmed others]|]]|]];
    cbn [fst snd].
  - destruct (Amadeus.firstError e) as [item|];
      repeat (cbn [throw ret snd];
              match goal with
              | |- context [if ?b then _ else _] => destruct b
              end);
      cbn [throw ret snd]; rewrite existsb_app; cbn;
      rewrite orb_false_r; tauto.
  - cbn [ret snd]. rewrite existsb_app. cbn. rewrite orb_false_r. tauto.
  - destruct (BookingController.priceChanged _ _) eqn:changed.
    + cbn [ret snd]. rewrite existsb_app. cbn. rewrite orb_false_r. tauto.
    + intros _. right. exists offer, confirmed. split; [reflexivity | exact changed].
  - cbn [ret snd]. rewrite existsb_app. cbn. rewrite orb_false_r. tauto.
  - cbn [ret snd]. rewrite existsb_app. cbn. rewrite orb_false_r. tauto.
Qed.

(** ** Provider adapter: dates normalized to the future *)

(** The calendar conversions agree on every day from 1970 to 2099. *)
Definition daysIn (y m : Z) : Z :=
  if (m =? 2)%Z
  then if ((y mod 4 =? 0) && negb (y mod 100 =? 0) || (y mod 400 =? 0))%Z then 29 else 28
  else if ((m =? 4) || (m =? 6) || (m =? 9) || (m =? 11))%Z then 30 else 31.

Definition upto (n : Z) : list Z := map Z.of_nat (seq 0 (Z.to_nat n)).

Lemma civil_round_trip :
  forallb
    (fun y =>
       forallb
         (fun m =>
            forallb
              (fun d =>
                 match JSDate.civilFromDays (JSDate.daysFromCivil y m d) with
                 | (y', m', d') => ((y' =? y) && (m' =? m) && (d' =? d))%Z
                 end)
              (map (Z.add 1) (upto (daysIn y m))))
         (map (Z.add 1) (upto 12)))
    (map (Z.add 1970) (upto 130))
  = true.
Proof. vm_compute. reflexivity. Qed.

(** From one day number to the next the civil date advances by one day. *)
Definition nextDay (y m d : Z) : Z * Z * Z :=
  (if d <? daysIn y m then (y, m, d + 1)
   else if m <? 12 then (y, m + 1, 1) else (y + 1, 1, 1))%Z.

Lemma civil_days_are_consecutive :
  forallb
    (fun y =>
       forallb
         (fun k =>
            let z := (JSDate.daysFromCivil y 1 1 + k)%Z in
            match JSDate.civilFromDays z, JSDate.civilFromDays (z + 1) with
            | (y1, m1, d1), (y2, m2, d2) =>
                match nextDay y1 m1 d1 with
                | (y', m', d') => ((y2 =? y') && (m2 =? m') && (d2 =? d'))%Z
                end
            end)
         (upto 365))
    (map (Z.add 1970) (upto 130))
  = true.
Proof. vm_compute. reflexivity. Qed.

Lemma setDate_plus (host : Host) (t k : Z) :
  setDate host t (getDate host t + k) = (t + k * JSDate.msPerDay)%Z.
Proof.
  unfold setDate. f_equal. f_equal. lia.
Qed.

Lemma tomorrowISO_eq (host : Host) :
  tomorrowISO host = JSDate.isoDate (now host + JSDate.msPerDay).
Proof.
  unfold tomorrowISO. rewrite setDate_plus. reflexivity.
Qed.






(** ** Traces: which events a computation can add *)

(** [adds P c]: whatever the trace it starts from, [c] only appends events
    that satisfy [P]. *)
Definition adds {A} (P : Event -> bool) (c : M A) : Prop :=
  forall tr, exists evs, snd (c tr) = (tr ++ evs)%list /\ forallb P evs = true.

Section Adds.

Variable P : Event -> bool.

Lemma adds_ret {A} (a : A) : adds P (ret a).
Proof. intro tr. exists []. split; [cbn; now rewrite app_nil_r | reflexivity]. Qed.

Lemma adds_throw {A} (e : JsError) : adds P (@throw A e).
Proof. intro tr. exists []. split; [cbn; now rewrite app_nil_r | reflexivity]. Qed.

Lemma adds_emit (e : Event) : P e = true -> adds P (emit e).
Proof. intros ok tr. exists [e]. split; [reflexivity | cbn; now rewrite ok]. Qed.

Lemma adds_request {A} (endpoint : Trace -> ApiCall -> Reply A) (call : ApiCall) :
  P (EvApi call) = true -> adds P (request endpoint call).
Proof.
  intros ok tr. exists [EvApi call]. unfold request.
  split; [destruct (endpoint tr call); reflexivity | cbn; now rewrite ok].
Qed.

Lemma adds_bind {A B} (c : M A) (k : A -> M B) :
  adds P c -> (forall a, adds P (k a)) -> adds P (bind c k).
Proof.
  intros first then_ tr. unfold bind.
  destruct (first tr) as (evs & trace & ok).
  destruct (c tr) as [[a | e] tr'] eqn:run; cbn in trace; subst tr'.
  - destruct (then_ a (tr ++ evs)%list) as (evs' & trace' & ok').
    exists (evs ++ evs')%list. rewrite trace', app_assoc, forallb_app, ok, ok'. now split.
  - exists evs. now split.
Qed.

Lemma adds_tryCatch {A} (c : M A) (h : JsError -> M A) :
  adds P c -> (forall e, adds P (h e)) -> adds P (tryCatch c h).
Proof.
  intros first handler tr. unfold tryCatch.
  destruct (first tr) as (evs & trace & ok).
  destruct (c tr) as [[a | e] tr'] eqn:run; cbn in trace; subst tr'.
  - exists evs. now split.
  - destruct (handler e (tr ++ evs)%list) as (evs' & trace' & ok').
    exists (evs ++ evs')%list. rewrite trace', app_assoc, forallb_app, ok, ok'. now split.
Qed.

End Adds.


(** Splits a computation along its binds, handlers and case analyses. *)
Ltac adds_step :=
  first
    [ apply adds_ret
    | apply adds_throw
    | apply adds_request; reflexivity
    | apply adds_emit; reflexivity
    | apply adds_bind; [| intro]
    | apply adds_tryCatch; [| intro]
    | match goal with
      | |- adds _ (match ?x with _ => _ end) => destruct x
      | |- adds _ (let _ := _ in _) => cbv zeta
      end ].

Ltac adds_auto := repeat (adds_step || assumption).

Section ProviderEvents.

Variable host : Host.
Variable svc : Amadeus.Service.

Lemma adds_checkInitialization : adds isApiEvent (Amadeus.checkInitialization svc).
Proof. unfold Amadeus.checkInitialization. adds_auto. Qed.

Lemma adds_withClient {A} (k : Client -> M A) :
  (forall c, adds isApiEvent (k c)) -> adds isApiEvent (Amadeus.withClient svc k).
Proof. intro each. unfold Amadeus.withClient. destruct (Amadeus.client svc); [apply each | adds_auto]. Qed.

Lemma adds_lookupCity keyword subType :
  adds isApiEvent (Amadeus.lookupCity svc keyword subType).
Proof.
  unfold Amadeus.lookupCity.
  apply adds_bind; [apply adds_checkInitialization | intro].
  apply adds_tryCatch; [apply adds_withClient; intro | intro]; adds_auto.
Qed.

Lemma adds_getHotelList cityCode : adds isApiEvent (Amadeus.getHotelList svc cityCode).
Proof.
  unfold Amadeus.getHotelList.
  apply adds_bind; [apply adds_checkInitialization | intro].
  apply adds_tryCatch; [apply adds_withClient; intro | intro]; adds_auto.
Qed.

Lemma adds_searchHotels cityCode checkIn checkOut adults radius :
  adds isApiEvent (Amadeus.searchHotels svc cityCode checkIn checkOut adults radius).
Proof.
  unfold Amadeus.searchHotels.
  apply adds_bind; [apply adds_checkInitialization | intro].
  apply adds_tryCatch; [apply adds_withClient; intro | intro; adds_auto].
  apply adds_bind; [| intro hotelIds].
  { apply adds_tryCatch; [| intro; adds_auto].
    apply adds_bind; [apply adds_getHotelList | intro; adds_auto]. }
  apply adds_bind; [destruct hotelIds; adds_auto | intro byIds].
  destruct byIds; [adds_auto|].
  apply adds_bind; [| intro; adds_auto].
  apply adds_tryCatch; [| intro; adds_auto].
  apply adds_bind; [apply adds_lookupCity | intro; adds_auto].
Qed.

Lemma adds_searchFlights o d dep ret adults cabin :
  adds isApiEvent (Amadeus.searchFlights host svc o d dep ret adults cabin).
Proof.
  unfold Amadeus.searchFlights.
  apply adds_bind; [apply adds_checkInitialization | intro].
  apply adds_tryCatch; [cbv zeta; apply adds_withClient; intro | intro]; adds_auto.
Qed.

Lemma adds_getIATACode location : adds isApiEvent (getIATACode svc location).
Proof.
  unfold getIATACode.
  destruct (_ =? _)%nat; [adds_auto|]. cbv zeta.
  destruct (negb _); [adds_auto|].
  apply adds_bind; [| intro; adds_auto].
  apply adds_tryCatch; [| intro; adds_auto].
  apply adds_bind; [apply adds_lookupCity | intro; adds_auto].
Qed.

(** The flight handler only adds requests to the provider. *)
Lemma adds_handleFlightIntent messages intent :
  adds isApiEvent (handleFlightIntent host svc messages intent).
Proof.
  unfold handleFlightIntent.
  apply adds_tryCatch; [| intro; adds_auto].
  destruct (lastUserMessage messages); [|adds_auto].
  destruct (negb _); [adds_auto|]. cbv zeta.
  destruct (_ || _); [adds_auto|].
  destruct (negb _); [adds_auto|].
  apply adds_bind; [apply adds_getIATACode | intro originCode].
  apply adds_bind; [apply adds_getIATACode | intro destinationCode].
  apply adds_tryCatch; [| intro; adds_auto].
  destruct (_ || _); [adds_auto|].
  apply adds_bind; [apply adds_searchFlights | intro; adds_auto].
Qed.

(** The hotel handler only adds requests to the provider. *)
Lemma adds_handleHotelIntent messages intent :
  adds isApiEvent (handleHotelIntent host svc messages intent).
Proof.
  unfold handleHotelIntent.
  apply adds_tryCatch; [| intro; adds_auto].
  destruct (lastUserMessage messages); [|adds_auto].
  destruct (negb _); [adds_auto|]. cbv zeta.
  destruct (negb _); [adds_auto|].
  apply adds_bind; [apply adds_getIATACode | intro cityCode].
  destruct (stayDates host _) as [checkIn checkOut].
  apply adds_bind; [unfold toISODate; adds_auto | intro checkInStr].
  apply adds_bind; [unfold toISODate; adds_auto | intro checkOutStr].
  apply adds_tryCatch; [| intro; adds_auto].
  destruct (negb _); [adds_auto|].
  apply adds_bind; [| intro; adds_auto].
  apply adds_tryCatch; [apply adds_searchHotels | intro; adds_auto].
Qed.

End ProviderEvents.

(** ** Intent classification *)










(** ** The first turn of a conversation *)

(** C3, as stated, fails: without an API key the single message is
    answered from the keyword fallback, not with the greeting. *)
Lemma first_turn_without_key_is_not_greeted :
  ~ (forall (host : Host) (svc : Amadeus.Service) (self : Self)
            (messages : list Message) (tr : Trace),
        (List.length messages <= 1)%nat ->
        fst (generateResponse host svc self messages tr) = Return greeting).
Proof.
  intro claim.
  specialize (claim Node.host Samples.uninitialized
                (mkSelf None (fun _ _ => Fails Samples.offline))
                [mkMessage user "I need a flight from Chicago to Miami on July 15"] []
                (le_n 1)).
  vm_compute in claim. discriminate claim.
Qed.

(** C3, amended.  For every conversation of at most one message,
    generateResponse returns the canned greeting when the OpenAI API key
    is configured, and the keyword fallback reply when it is not; in both
    cases the trace is left as it was: no intent classification, no
    handler, no request. *)
Theorem first_turn_is_never_classified
  (host : Host) (svc : Amadeus.Service) (self : Self)
  (messages : list Message) (tr : Trace) :
  (List.length messages <= 1)%nat ->
  generateResponse host svc self messages tr
  = (Return (if JS.truthyOpt (OPENAI_API_KEY self)
             then greeting
             else getFallbackResponse messages),
     tr).
Proof.
  intro short.
  unfold generateResponse, tryCatch.
  destruct (JS.truthyOpt (OPENAI_API_KEY self)); cbn [negb]; [|reflexivity].
  destruct messages as [| m [| m' more]].
  - reflexivity.
  - unfold lastUserMessage. cbn. destruct (role m); reflexivity.
  - cbn in short. lia.
Qed.

Lemma first_turn_is_never_classified_witness :
  generateResponse Node.host (Samples.initialized Samples.unreachable)
    (mkSelf (Some "sk-test") (fun _ _ => Fails Samples.offline))
    [mkMessage user "I need a flight from Chicago to Miami on July 15"] []
  = (Return greeting, []).
Proof.
  apply (first_turn_is_never_classified Node.host
           (Samples.initialized Samples.unreachable)
           (mkSelf (Some "sk-test") (fun _ _ => Fails Samples.offline))
           [mkMessage user "I need a flight from Chicago to Miami on July 15"] []).
  apply le_n.
Defined.

(** ** Missing search fields *)


Section Prompts.

Variable host : Host.
Variable svc : Amadeus.Service.
Hypothesis initialized : Amadeus.isInitialized svc = true.

Variable messages : list Message.
Variable last : Message.
Hypothesis found : lastUserMessage messages = Some last.

Variable intent : TravelIntent.





End Prompts.



(** ** Location codes *)

(** C2 fails on the code.  With the provider not initialized, or
    initialized but unreachable, the location "DC" resolves to the
    two-character code "DC", and the flight handler sends that code to the
    provider; "42nd Street" resolves to "42N", which is not alphabetic;
    and a provider answer of three lower-case characters is accepted as
    it is. *)
Theorem getIATACode_returns_malformed_codes :
  fst (getIATACode Samples.uninitialized "DC" []) = Return "DC"
  /\ fst (getIATACode Samples.cutOff "DC" []) = Return "DC"
  /\ snd (handleFlightIntent Node.host Samples.cutOff
            (Samples.asking "Find flights from DC to Miami on December 5th")
            (intent flight 0.9 "Find flights from DC to Miami on December 5th") [])
     = [EvApi (LocationsGet "DC" "CITY,AIRPORT");
        EvApi (LocationsGet "Miami on December" "CITY,AIRPORT");
        EvApi (FlightOffersSearchGet "DC" "MIA" "2026-12-05" None 1 "ECONOMY" "USD" 10)]
  /\ fst (getIATACode Samples.uninitialized "42nd Street" []) = Return "42N"
  /\ fst (getIATACode (Samples.initialized Samples.sloppy) "Paris" []) = Return "par".
Proof.
  repeat split; vm_compute; reflexivity.
Qed.

(** What the fallback does guarantee: a code from the table has three
    upper-case letters, and a synthesized code has at most three
    characters, each an upper-case letter or a digit. *)
Definition isCodeChar (c : ascii) : bool := JS.isUpper c || JS.isDigit c.

Definition isTableCode (code : string) : bool :=
  (String.length code =? 3)%nat && JS.allChars JS.isUpper code.

Lemma lookup_forall (P : string -> bool) (table : list (string * string))
  (key value : string) :
  forallb (fun entry => P (snd entry)) table = true ->
  lookup key table = Some value -> P value = true.
Proof.
  induction table as [| [k v] more IH]; cbn; [discriminate|].
  intros all%andb_prop. destruct all as [here rest].
  destruct (String.eqb k key); [intros [= <-]; exact here | now apply IH].
Qed.

Lemma partialMatch_forall (P : string -> bool) (table : list (string * string))
  (locationLower value : string) :
  forallb (fun entry => P (snd entry)) table = true ->
  partialMatch locationLower table = Some value -> P value = true.
Proof.
  induction table as [| [k v] more IH]; cbn; [discriminate|].
  intros all%andb_prop. destruct all as [here rest].
  destruct (_ || _); [intros [= <-]; exact here | now apply IH].
Qed.

Lemma takeChars_length (n : nat) (s : string) :
  (String.length (JS.takeChars n s) <= n)%nat.
Proof.
  revert s. induction n as [| n IH]; intros [| c t]; cbn; try lia.
  specialize (IH t). lia.
Qed.

Lemma mapChars_length (f : ascii -> ascii) (s : string) :
  String.length (JS.mapChars f s) = String.length s.
Proof.
  induction s as [| c t IH]; cbn; congruence.
Qed.

Lemma allChars_filter (p : ascii -> bool) (s : string) :
  JS.allChars p (JS.filterChars p s) = true.
Proof.
  induction s as [| c t IH]; cbn; [reflexivity|].
  destruct (p c) eqn:keep; cbn; [now rewrite keep | exact IH].
Qed.

Lemma allChars_take (p : ascii -> bool) (n : nat) (s : string) :
  JS.allChars p s = true -> JS.allChars p (JS.takeChars n s) = true.
Proof.
  revert s. induction n as [| n IH]; intros [| c t]; cbn; try reflexivity.
  intros all%andb_prop. destruct all as [here rest].
  now rewrite here, IH.
Qed.

Lemma allChars_map (p q : ascii -> bool) (f : ascii -> ascii) (s : string) :
  (forall c, p c = true -> q (f c) = true) ->
  JS.allChars p s = true -> JS.allChars q (JS.mapChars f s) = true.
Proof.
  intro step. induction s as [| c t IH]; cbn; [reflexivity|].
  intros all%andb_prop. destruct all as [here rest].
  now rewrite (step c here), IH.
Qed.

Lemma upperChar_alnum (c : ascii) :
  JS.isAlnum c = true -> isCodeChar (JS.upperChar c) = true.
Proof.
  destruct c as [[] [] [] [] [] [] [] []]; vm_compute; congruence.
Qed.

Lemma fallback_code_shape (location : string) :
  isTableCode (getFallbackAirportCode location) = true
  \/ (getFallbackAirportCode location
      = JS.toUpperCase (JS.takeChars 3 (JS.filterChars JS.isAlnum location))
      /\ (String.length (getFallbackAirportCode location) <= 3)%nat
      /\ JS.allChars isCodeChar (getFallbackAirportCode location) = true).
Proof.
  assert (table : forallb (fun entry => isTableCode (snd entry)) airportCodes = true)
    by (vm_compute; reflexivity).
  unfold getFallbackAirportCode.
  destruct (lookup _ airportCodes) as [exactCode|] eqn:exact.
  - left. exact (lookup_forall _ _ _ _ table exact).
  - destruct (partialMatch _ airportCodes) as [code|] eqn:partial.
    + left. exact (partialMatch_forall _ _ _ _ table partial).
    + right. split; [reflexivity|]. split.
      * unfold JS.toUpperCase. rewrite mapChars_length. apply takeChars_length.
      * apply (allChars_map JS.isAlnum); [exact upperChar_alnum|].
        apply allChars_take, allChars_filter.
Qed.

(** ** Date normalization *)


(** The same on every host whose parser rejects the ISO date followed by
    the current year. *)
Lemma formatDate_of_iso_date (host : Host) :
  Date_parse host ("2030-12-25 " ++ JS.showZ (getFullYear host (now host))) = None ->
  formatDate host "2030-12-25" = tomorrowISO host.
Proof.
  intro rejected.
  unfold formatDate. cbn [JS.truthy negb].
  replace (JS.trim (Regex.replaceAll ordinalSuffix _ "2030-12-25")) with "2030-12-25"
    by (vm_compute; reflexivity).
  replace (Regex.test endsWithYear "2030-12-25") with false by (vm_compute; reflexivity).
  change ("2030-12-25" ++ " " ++ ?y)%string with ("2030-12-25 " ++ y)%string.
  now rewrite rejected.
Qed.

(** The part of C4 that holds: a date that parses to a time before the
    start of today is normalized to tomorrow. *)
Lemma formatDate_past (host : Host) (dateStr : string) (t : Z) :
  let stripped :=
    JS.trim (Regex.replaceAll ordinalSuffix
               (fun m => match Regex.group 1 m with Some d => d | None => "" end)
               dateStr) in
  let normalizedDate :=
    if Regex.test endsWithYear stripped then stripped
    else (stripped ++ " " ++ JS.showZ (getFullYear host (now host)))%string in
  dateStr <> EmptyString ->
  Date_parse host normalizedDate = Some t ->
  (t < setHoursZero host (now host))%Z ->
  formatDate host dateStr = JSDate.isoDate (now host + JSDate.msPerDay).
Proof.
  intros stripped normalizedDate nonempty parsed past.
  unfold formatDate.
  destruct dateStr as [| c rest]; [congruence|]. cbn [JS.truthy negb].
  fold stripped. fold normalizedDate. rewrite parsed.
  apply Z.ltb_lt in past. rewrite past. apply tomorrowISO_eq.
Qed.

(** ** Result formatting *)

Lemma append_assoc (a b c : string) : ((a ++ b) ++ c = a ++ (b ++ c))%string.
Proof.
  induction a as [| ch a IH]; cbn; [reflexivity | now rewrite IH].
Qed.

Definition closingQuestion : string :=
  "Would you like to book any of these flights or see more options?".

(** The flight reply lists the first five offers only and, when there are
    more, counts the rest. *)
Lemma formatFlightResponse_remaining (host : Host) (offers : list FlightOffer)
  (o d date : string) :
  (5 < List.length offers)%nat ->
  exists header,
    formatFlightResponse host offers o d date
    = (formatFlightOffers host 0 (firstn 5 offers) header
         ++ "... and " ++ JS.showNat (List.length offers - 5)
         ++ " more options available." ++ nl ++ nl ++ closingQuestion)%string.
Proof.
  intro many.
  unfold formatFlightResponse.
  destruct offers as [| first more]; [cbn in many; lia|].
  eexists.
  rewrite (Nat.min_l 5) by lia.
  apply Nat.ltb_lt in many. rewrite many.
  rewrite !append_assoc. reflexivity.
Qed.

Lemma formatFlightResponse_all_shown (host : Host) (offers : list FlightOffer)
  (o d date : string) :
  (0 < List.length offers <= 5)%nat ->
  exists header,
    formatFlightResponse host offers o d date
    = (formatFlightOffers host 0 offers header ++ closingQuestion)%string.
Proof.
  intros [some few].
  unfold formatFlightResponse.
  destruct offers as [| first more]; [cbn in some; lia|].
  eexists.
  rewrite Nat.min_r by lia. rewrite firstn_all.
  rewrite Nat.ltb_irrefl. reflexivity.
Qed.

(** The hotel reply lists the first three offers only, and nothing stands
    between the last of them and the closing question. *)
Lemma formatHotelResponse_cap (host : Host) (found : list HotelOffer)
  (cityName checkIn checkOut : string) (adults : Z) :
  exists header,
    formatHotelResponse host found cityName checkIn checkOut adults
    = (formatHotelOffers 0 (firstn 3 found) header
         ++ "Would you like more details about any of these hotels or to modify your search criteria?")%string.
Proof.
  unfold formatHotelResponse. eexists.
  destruct (Nat.le_ge_cases 3 (List.length found)) as [many | few].
  - rewrite Nat.min_l by exact many. reflexivity.
  - rewrite Nat.min_r by exact few. rewrite firstn_all.
    rewrite firstn_all2 by exact few. reflexivity.
Qed.

(** C8 fails on the code for hotels.  The reply for four hotels differs
    from the reply for the first three of them only in the number of
    hotels found: the fourth hotel is not shown and no count of the
    remaining results is given, whereas the flight reply for six offers
    says that one more option is available. *)
Theorem hotel_reply_omits_remaining_count :
  (exists listing,
      formatHotelResponse Node.host Samples.fourHotels "Paris" "2026-11-02" "2026-11-05" 1
      = ("I found 4 hotels in Paris:" ++ listing)%string
      /\ formatHotelResponse Node.host Samples.threeHotels "Paris" "2026-11-02"
           "2026-11-05" 1
         = ("I found 3 hotels in Paris:" ++ listing)%string)
  /\ JS.includes
       (formatFlightResponse Node.host (repeat (Samples.offerAt "500.00") 6)
          "New York" "London" "December 1st")
       "... and 1 more options available."
     = true.
Proof.
  split.
  - eexists. split; vm_compute; reflexivity.
  - vm_compute. reflexivity.
Qed.

(** ** The matcher is sound

    A declarative reading of the patterns: [Matches icase r p q] when [r]
    matches the text between the positions [p] and [q].  Whatever the
    backtracking matcher hands to its continuation is such a match. *)

Module RegexFacts.

Import Regex.

Section Declarative.

Variable icase : bool.

Inductive Matches : re -> pos -> pos -> Prop :=
| MEps p : Matches Eps p p
| MChr cs pv c t :
    charMatches icase cs c = true ->
    Matches (Chr cs) (mkPos pv (String c t)) (mkPos (Some c) t)
| MSeq a b p q r : Matches a p q -> Matches b q r -> Matches (Seq a b) p r
| MAltL a b p q : Matches a p q -> Matches (Alt a b) p q
| MAltR a b p q : Matches b p q -> Matches (Alt a b) p q
| MGrp n a p q : Matches a p q -> Matches (Grp n a) p q
| MBol p : prev p = None -> Matches Bol p p
| MEol p : rest p = EmptyString -> Matches Eol p p
| MWordB p : xorb (isWordAt (prev p)) (isWordAt (next p)) = true -> Matches WordB p p
| MRep greedy mn mx a p q n :
    Iterates a n p q -> (mn <= n)%nat ->
    (forall m, mx = Some m -> (n <= m)%nat) ->
    Matches (Rep greedy mn mx a) p q
with Iterates : re -> nat -> pos -> pos -> Prop :=
| INone a p : Iterates a 0 p p
| IMore a n p q r : Matches a p q -> Iterates a n q r -> Iterates a (S n) p r.

(** One more iteration at the end. *)
Lemma iterates_snoc a n p q r :
  Iterates a n p q -> Matches a q r -> Iterates a (S n) p r.
Proof.
  induction 1 as [a p | a n p q' r' first rest IH]; intro last.
  - econstructor; [exact last | constructor].
  - econstructor; [exact first | now apply IH].
Qed.

Lemma belowMax_bound mx count :
  belowMax mx count = true -> forall m, mx = Some m -> (S count <= m)%nat.
Proof.
  intros below m ->. cbn in below. apply Nat.ltb_lt in below. lia.
Qed.

(** A continuation is reached only through a match: the property that
    [run] has for every pattern. *)
Definition SoundFor (a : re) (step : pos -> caps -> cont -> answer) : Prop :=
  forall p cs k x,
    step p cs k = Some x -> exists q qs, Matches a p q /\ k q qs = Some x.

Lemma repeatLoop_sound (a : re) (step : pos -> caps -> cont -> answer)
  (greedy : bool) (mn : nat) (mx : option nat) (k : cont) (start : pos) :
  SoundFor a step ->
  forall fuel count q qs x,
    Iterates a count start q ->
    (forall m, mx = Some m -> (count <= m)%nat) ->
    repeatLoop step greedy mn mx k fuel count q qs = Some x ->
    exists q' qs', Matches (Rep greedy mn mx a) start q' /\ k q' qs' = Some x.
Proof.
  intro sound.
  assert (stops : forall count q qs x,
             Iterates a count start q ->
             (forall m, mx = Some m -> (count <= m)%nat) ->
             (if (mn <=? count)%nat then k q qs else None) = Some x ->
             exists q' qs', Matches (Rep greedy mn mx a) start q' /\ k q' qs' = Some x).
  { intros count q qs x done bound stopped.
    destruct (mn <=? count)%nat eqn:enough; [|discriminate].
    exists q, qs. split; [|exact stopped].
    apply Nat.leb_le in enough. econstructor; eassumption. }
  induction fuel as [| fuel IH]; intros count q qs x done bound found;
    cbn [repeatLoop] in found; unfold orElse in found.
  - destruct greedy.
    + eapply stops; eassumption.
    + destruct (if (mn <=? count)%nat then k q qs else None) as [y|] eqn:stopped;
        [|discriminate].
      eapply stops; [eassumption | eassumption |]. rewrite stopped. exact found.
  - assert (either :
              (belowMax mx count = true
               /\ step q qs
                    (fun q' qs' =>
                       if (String.length (rest q') <? String.length (rest q))%nat
                          || (count <? mn)%nat
                       then repeatLoop step greedy mn mx k fuel (S count) q' qs'
                       else None) = Some x)
              \/ (if (mn <=? count)%nat then k q qs else None) = Some x).
    { destruct greedy.
      - destruct (belowMax mx count); [|right; exact found].
        destruct (step q qs _) as [y|]; [left | right; exact found].
        split; [reflexivity | exact found].
      - destruct (if (mn <=? count)%nat then k q qs else None) as [y|];
          [right; exact found|].
        destruct (belowMax mx count); [|discriminate].
        left. split; [reflexivity | exact found]. }
    destruct either as [[below again] | stopped]; [|eapply stops; eassumption].
    apply sound in again. destruct again as (q' & qs' & one & again).
    destruct (_ || _); [|discriminate].
    apply IH in again; [exact again | now apply iterates_snoc with (q := q) |].
    now apply belowMax_bound.
Qed.

Lemma run_sound (r : re) : SoundFor r (run icase r).
Proof.
  induction r as [| s | a IHa b IHb | a IHa b IHb | greedy mn mx a IHa | n a IHa | | |];
    intros p cs k x found; cbn [run] in found.
  - exists p, cs. split; [constructor | exact found].
  - destruct p as [pv [| c t]]; cbn in found; [discriminate|].
    destruct (charMatches icase s c) eqn:ok; [|discriminate].
    exists (mkPos (Some c) t), cs. split; [now constructor | exact found].
  - apply IHa in found. destruct found as (q & qs & first & found).
    apply IHb in found. destruct found as (q' & qs' & second & found).
    exists q', qs'. split; [econstructor; eassumption | exact found].
  - unfold orElse in found.
    destruct (run icase a p cs k) as [y|] eqn:left.
    + apply IHa in left. destruct left as (q & qs & first & kept).
      exists q, qs. split; [now apply MAltL | congruence].
    + apply IHb in found. destruct found as (q & qs & second & kept).
      exists q, qs. split; [now apply MAltR | exact kept].
  - eapply repeatLoop_sound in found; eauto; [constructor | intros; lia].
  - apply IHa in found. destruct found as (q & qs & inner & found).
    exists q, ((n, consumed p q) :: qs). split; [now constructor | exact found].
  - destruct (prev p) eqn:start; [discriminate|].
    exists p, cs. split; [now constructor | exact found].
  - destruct (rest p) eqn:finish; [|discriminate].
    exists p, cs. split; [now constructor | exact found].
  - destruct (xorb _ _) eqn:boundary; [|discriminate].
    exists p, cs. split; [now constructor | exact found].
Qed.

(** A successful [test] exhibits a match of the pattern somewhere in the
    subject. *)
Lemma search_sound (pattern : re) (s : string) :
  forall idx pv m,
    search (mkRegex pattern icase) idx pv s = Some m ->
    exists p, Matches pattern p (endPos m).
Proof.
  induction s as [| c t IH]; intros idx pv m found; cbn [search] in found;
    cbn [ignoreCase body] in found.
  - destruct (run icase pattern _ [] _) as [[q cs]|] eqn:here; [|discriminate].
    apply run_sound in here. destruct here as (q' & qs & matched & [= -> ->]).
    injection found as <-. eexists. exact matched.
  - destruct (run icase pattern _ [] _) as [[q cs]|] eqn:here.
    + apply run_sound in here. destruct here as (q' & qs & matched & [= -> ->]).
      injection found as <-. eexists. exact matched.
    + now apply IH in found.
Qed.

End Declarative.

(** The priorities of the matcher on small subjects. *)

Definition captured (n : nat) (pattern : regex) (s : string) : option string :=
  match exec pattern s with
  | Some m => group n m
  | None => None
  end.

(** A greedy star after [a]: the quantifier takes all it can. *)
Example greedy_takes_all :
  captured 1 (rx [lit "a"; Grp 1 (star (lit "b"))]) "xabbbc" = Some "bbb".
Proof. reflexivity. Qed.

(** A lazy plus after [a]: the quantifier takes as little as it can. *)
Example lazy_takes_least :
  captured 1 (rx [lit "a"; Grp 1 (plusLazy (lit "b"))]) "xabbbc" = Some "b".
Proof. reflexivity. Qed.

(** [/(a+)ab/]: a greedy quantifier gives back what the rest needs. *)
Example greedy_backtracks :
  captured 1 (rx [Grp 1 (plus (lit "a")); lit "ab"]) "aaab" = Some "aa".
Proof. reflexivity. Qed.

(** [/(ab|a)(bc)?/]: the first alternative that leads to a match wins. *)
Example alternatives_in_order :
  captured 1 (rx [Grp 1 (alts [lit "ab"; lit "a"]); opt (Grp 2 (lit "bc"))]) "abc"
  = Some "ab"
  /\ captured 2 (rx [Grp 1 (alts [lit "ab"; lit "a"]); opt (Grp 2 (lit "bc"))]) "abc"
     = None.
Proof. split; reflexivity. Qed.

(** [/\bto\b/]: a word boundary needs a word character on one side only. *)
Example word_boundaries :
  test (rx [WordB; lit "to"; WordB]) "fly to rome" = true
  /\ test (rx [WordB; lit "to"; WordB]) "toronto" = false.
Proof. split; reflexivity. Qed.

(** [/^hi$/i]: anchors and the [i] flag. *)
Example anchors_and_case :
  test (rxi [Bol; lit "hi"; Eol]) "HI" = true
  /\ test (rxi [Bol; lit "hi"; Eol]) "hi there" = false
  /\ test (rx [Bol; lit "hi"; Eol]) "HI" = false.
Proof. repeat split; reflexivity. Qed.

(** A star over a star: an iteration that consumes nothing does not loop. *)
Example empty_iterations_stop :
  test (rx [star (Grp 1 (star ws)); lit "x"]) "   y" = false.
Proof. reflexivity. Qed.

(** The extraction on the example of the flight prompt: the destination
    group runs on to the last letter before the day number. *)
Example extraction_of_the_prompt_example :
  extractFlightParams "Find flights from New York to London on June 15th"
  = mkFlightParams (Some "New York") (Some "London on June") (Some "June 15th").
Proof. vm_compute. reflexivity. Qed.

End RegexFacts.

(* ================================================================= *)
(** * Further properties *)

(** ** Replies: what a computation returns *)

(** [yields P c]: whenever [c] returns, the value satisfies [P]. *)
Definition yields {A} (P : A -> Prop) (c : M A) : Prop :=
  forall tr a tr', c tr = (Return a, tr') -> P a.

(** [replies P c]: [c] never throws, and what it returns satisfies [P]. *)
Definition replies {A} (P : A -> Prop) (c : M A) : Prop :=
  forall tr, exists a tr', c tr = (Return a, tr') /\ P a.

Section Yields.

Context {A : Type} (P : A -> Prop).

Lemma yields_ret (a : A) : P a -> yields P (ret a).
Proof. intros ok tr a' tr' [= <- _]. exact ok. Qed.

Lemma yields_throw (e : JsError) : yields P (throw e).
Proof. intros tr a tr'. discriminate. Qed.

Lemma yields_bind {B} (c : M B) (k : B -> M A) :
  (forall b, yields P (k b)) -> yields P (bind c k).
Proof.
  intros rest tr a tr'. unfold bind.
  destruct (c tr) as [[b | e] tr1]; [apply rest | discriminate].
Qed.

Lemma yields_tryCatch (c : M A) (h : JsError -> M A) :
  yields P c -> (forall e, yields P (h e)) -> yields P (tryCatch c h).
Proof.
  intros body handler tr a tr'. unfold tryCatch.
  destruct (c tr) as [[b | e] tr1] eqn:run.
  - intros [= <- _]. exact (body tr b tr1 run).
  - apply handler.
Qed.

Lemma replies_ret (a : A) : P a -> replies P (ret a).
Proof. intros ok tr. exists a, tr. now split. Qed.

(** A [try] whose handler always answers always answers. *)
Lemma replies_tryCatch (c : M A) (h : JsError -> M A) :
  yields P c -> (forall e, replies P (h e)) -> replies P (tryCatch c h).
Proof.
  intros body handler tr. unfold tryCatch.
  destruct (c tr) as [[a | e] tr1] eqn:run.
  - exists a, tr1. split; [reflexivity | exact (body tr a tr1 run)].
  - apply handler.
Qed.

End Yields.

Ltac yields_step :=
  first
    [ apply yields_throw
    | apply yields_bind; intro
    | apply yields_tryCatch; [| intro]
    | match goal with
      | |- yields _ (match ?x with _ => _ end) => destruct x
      | |- yields _ (let _ := _ in _) => cbv zeta
      end ].

Definition nonEmpty (s : string) : Prop := s <> EmptyString.

Lemma nonEmpty_app_l (a b : string) : nonEmpty a -> nonEmpty (a ++ b).
Proof. destruct a; [congruence | discriminate]. Qed.

Lemma nonEmpty_app_r (a b : string) : nonEmpty b -> nonEmpty (a ++ b).
Proof. destruct a; [trivial | discriminate]. Qed.

Lemma truthy_nonEmpty (s : string) : JS.truthy s = true -> nonEmpty s.
Proof. destruct s; [discriminate | discriminate]. Qed.

(** A text that begins or ends with a literal is not empty. *)
Ltac nonEmpty_tac :=
  solve
    [ discriminate
    | cbn; discriminate
    | apply nonEmpty_app_l; nonEmpty_tac
    | apply nonEmpty_app_r; nonEmpty_tac
    | apply truthy_nonEmpty; assumption ].

Section NeverSilent.

Variable host : Host.
Variable svc : Amadeus.Service.

Lemma formatFlightResponse_nonEmpty offers o d date :
  nonEmpty (formatFlightResponse host offers o d date).
Proof.
  unfold formatFlightResponse. destruct offers; [nonEmpty_tac|].
  cbv zeta. apply nonEmpty_app_r. discriminate.
Qed.

Lemma formatHotelResponse_nonEmpty found cityName checkIn checkOut adults :
  nonEmpty (formatHotelResponse host found cityName checkIn checkOut adults).
Proof.
  unfold formatHotelResponse. cbv zeta. apply nonEmpty_app_r. discriminate.
Qed.

Lemma orString_nonEmpty (s d : string) : nonEmpty d -> nonEmpty (Amadeus.orString s d).
Proof.
  intro ok. unfold Amadeus.orString. destruct (JS.truthy s) eqn:given; [|exact ok].
  now apply truthy_nonEmpty.
Qed.

Lemma handleFlightIntent_replies messages intent :
  replies nonEmpty (handleFlightIntent host svc messages intent).
Proof.
  unfold handleFlightIntent.
  apply replies_tryCatch; [| intro; apply replies_ret; discriminate].
  destruct (lastUserMessage messages); [| apply yields_ret; discriminate].
  destruct (negb _); [apply yields_ret; discriminate|]. cbv zeta.
  destruct (_ || _); [apply yields_ret; discriminate|].
  destruct (negb _); [apply yields_ret; unfold askForDepartureDate; nonEmpty_tac|].
  apply yields_bind; intro originCode. apply yields_bind; intro destinationCode.
  apply yields_tryCatch.
  - destruct (_ || _); [apply yields_throw|].
    apply yields_bind; intro offers. apply yields_ret, formatFlightResponse_nonEmpty.
  - intro error. cbv zeta.
    repeat match goal with
           | |- yields _ (if ?b then _ else _) => destruct b
           end;
      apply yields_ret; unfold noFlightsOnRoute, unknownAirportCodes; nonEmpty_tac.
Qed.

Lemma handleHotelIntent_replies messages intent :
  replies nonEmpty (handleHotelIntent host svc messages intent).
Proof.
  unfold handleHotelIntent.
  apply replies_tryCatch.
  - destruct (lastUserMessage messages); [| apply yields_ret; discriminate].
    destruct (negb _); [apply yields_ret; discriminate|]. cbv zeta.
    destruct (negb _); [apply yields_ret; discriminate|].
    apply yields_bind; intro cityCode.
    destruct (stayDates host _) as [checkIn checkOut].
    apply yields_bind; intro checkInStr. apply yields_bind; intro checkOutStr.
    apply yields_tryCatch.
    + destruct (negb _); [apply yields_throw|].
      apply yields_bind; intros [| first more]; apply yields_ret;
        [nonEmpty_tac | apply formatHotelResponse_nonEmpty].
    + intro error.
      repeat match goal with
             | |- yields _ (if ?b then _ else _) => destruct b
             end;
        apply yields_ret; nonEmpty_tac.
  - intro error. apply replies_ret. nonEmpty_tac.
Qed.

End NeverSilent.

Lemma replies_yields {A} (P : A -> Prop) (c : M A) : replies P c -> yields P c.
Proof.
  intros always tr a tr' run.
  destruct (always tr) as (a0 & tr0 & run0 & ok). congruence.
Qed.

Lemma getFallbackResponse_nonEmpty (messages : list Message) :
  nonEmpty (getFallbackResponse messages).
Proof.
  unfold getFallbackResponse. cbv zeta.
  destruct (JS.includes _ "flight"); [discriminate|].
  destruct (JS.includes _ "hotel"); discriminate.
Qed.

Lemma generateStandardResponse_replies (self : Self) (systemMsg : Message)
  (messages : list Message) :
  replies nonEmpty (generateStandardResponse self systemMsg messages).
Proof.
  intro tr. unfold generateStandardResponse, bind, emit, tryCatch, chatCompletion.
  destruct (chatCompletionsCreate self _ _) as [e | reply]; cbn.
  - eexists _, _. split; [reflexivity | apply getFallbackResponse_nonEmpty].
  - eexists _, _. split; [reflexivity|].
    destruct (JS.truthyOpt reply) eqn:given; [| apply getFallbackResponse_nonEmpty].
    destruct reply as [text|]; [| discriminate]. now apply truthy_nonEmpty.
Qed.

(** X1.  Whatever the messages, the provider and the language model do,
    generateResponse does not throw, and the reply it returns is not the
    empty string. *)
Theorem generateResponse_always_replies
  (host : Host) (svc : Amadeus.Service) (self : Self) (messages : list Message) :
  replies nonEmpty (generateResponse host svc self messages).
Proof.
  unfold generateResponse.
  apply replies_tryCatch;
    [| intro; apply replies_ret, getFallbackResponse_nonEmpty].
  destruct (negb _); [apply yields_ret, getFallbackResponse_nonEmpty|].
  destruct (lastUserMessage messages) as [userMessage|]; [| apply yields_ret; discriminate].
  destruct (_ <=? _)%nat; [apply yields_ret; discriminate|].
  destruct (Regex.test _ _).
  { destruct (JS.includes _ _); apply yields_ret; discriminate. }
  apply yields_bind; intros _.
  assert (generic := replies_yields _ _
                       (generateStandardResponse_replies self systemMessage messages)).
  destruct (detectTravelIntent _) as [travelIntent|]; [| exact generic].
  destruct (PrimFloat.ltb _ _); [| exact generic].
  destruct (intentType travelIntent); try exact generic.
  - apply yields_bind; intros _.
    apply replies_yields, handleFlightIntent_replies.
  - apply yields_bind; intros _.
    apply replies_yields, handleHotelIntent_replies.
  - apply yields_ret. discriminate.
Qed.

(** X2.  Each intent handler always returns a reply, never the empty
    string, whatever the provider does, and the only events it adds to the
    trace are requests to the travel provider: a handler never calls the
    language model. *)
Theorem handlers_reply_and_only_call_the_provider
  (host : Host) (svc : Amadeus.Service) (messages : list Message) (intent : TravelIntent) :
  replies nonEmpty (handleFlightIntent host svc messages intent)
  /\ adds isApiEvent (handleFlightIntent host svc messages intent)
  /\ replies nonEmpty (handleHotelIntent host svc messages intent)
  /\ adds isApiEvent (handleHotelIntent host svc messages intent).
Proof.
  split; [apply handleFlightIntent_replies|].
  split; [apply adds_handleFlightIntent|].
  split; [apply handleHotelIntent_replies | apply adds_handleHotelIntent].
Qed.

(** ** The booking endpoints *)

Definition bookingRequest (confirmed : FlightOffer)
  (body : BookingController.BookingRequest) : ApiCall :=
  FlightOrdersPost [confirmed] (BookingController.travelerDetails body)
    Amadeus.defaultRemark "DELAY_TO_CANCEL" "6D" (BookingController.contactDetails body).

Ltac split_ifs :=
  repeat (cbn [throw ret fst snd];
          match goal with
          | |- context [if ?b then _ else _] => destruct b
          end).

(** X3.  createBooking answers 201 only after the pricing request was
    answered with a confirmed offer whose price passed the price test and
    the booking request was answered with an order; the offer that is
    booked is the confirmed offer of the pricing answer, and these two
    requests are the only ones sent. *)
Theorem booking_success_follows_the_confirmed_offer
  (host : Host) (svc : Amadeus.Service) (body : BookingController.BookingRequest)
  (tr tr' : Trace) (j : BookingController.Json) :
  BookingController.createBooking host svc body tr
  = (Return (BookingController.mkHttp 201 j), tr') ->
  exists c offer confirmed others order,
    Amadeus.client svc = Some c
    /\ BookingController.selectedOffer body = Some offer
    /\ flightOffersPricing c tr
         (Amadeus.pricingRequest [offer] (BookingController.travelerDetails body))
       = Data (Some (mkPricingData (Some (confirmed :: others))))
    /\ BookingController.priceChanged (parseFloat host (total (price offer)))
         (parseFloat host (total (price confirmed))) = false
    /\ flightOrders c
         (tr ++ [EvApi (Amadeus.pricingRequest [offer]
                          (BookingController.travelerDetails body))])%list
         (bookingRequest confirmed body)
       = Data (Some order)
    /\ tr' = (tr ++ [EvApi (Amadeus.pricingRequest [offer]
                              (BookingController.travelerDetails body));
                     EvApi (bookingRequest confirmed body)])%list
    /\ j = BookingController.BookedJson "Flight booked successfully!"
             (BookingController.summary order).
Proof.
  unfold BookingController.createBooking, tryCatch, bind.
  destruct (BookingController.selectedOffer body) as [offer|]; [| discriminate].
  unfold Amadeus.confirmFlightPrice, Amadeus.createFlightBooking, bind, tryCatch,
    Amadeus.checkInitialization.
  destruct (Amadeus.isInitialized svc), (Amadeus.client svc) as [c|];
    cbn [ret throw]; try (split_ifs; discriminate).
  unfold request.
  destruct (flightOffersPricing c tr _) as [e | [[[[| confirmed others]|]]|]] eqn:priced;
    cbn [fst snd].
  - destruct (Amadeus.firstError e); split_ifs; discriminate.
  - discriminate.
  - destruct (BookingController.priceChanged _ _) eqn:changed; [discriminate|].
    cbn [ret]. fold (bookingRequest confirmed body).
    destruct (flightOrders c _ _) as [e | [order|]] eqn:booked.
    + destruct (Amadeus.firstError e); split_ifs; discriminate.
    + intros [= <- <-].
      exists c, offer, confirmed, others, order.
      rewrite <- app_assoc. cbn [app]. repeat split; assumption.
    + split_ifs; discriminate.
  - discriminate.
  - discriminate.
Qed.

Lemma booking_success_follows_the_confirmed_offer_witness :
  exists order,
    fst (BookingController.createBooking Node.host
           (Samples.initialized (Samples.repricing "500.00"))
           (Samples.bookingOf "500.00") [])
    = Return (BookingController.mkHttp 201
                (BookingController.BookedJson "Flight booked successfully!"
                   (BookingController.summary order))).
Proof.
  destruct (booking_success_follows_the_confirmed_offer Node.host
              (Samples.initialized (Samples.repricing "500.00"))
              (Samples.bookingOf "500.00") [] _ _ eq_refl)
    as (c & offer & confirmed & others & order & _ & _ & _ & _ & _ & _ & shape).
  exists order. rewrite <- shape. reflexivity.
Defined.

Definition bookingStatus (r : BookingController.HttpResponse) : Prop :=
  In (BookingController.status r) [201; 400; 403; 409; 500]%Z.

(** X4.  createBooking never throws: whatever the request body and the
    provider do, it answers with an HTTP response whose status is 201,
    400, 403, 409 or 500. *)
Theorem createBooking_always_answers
  (host : Host) (svc : Amadeus.Service) (body : BookingController.BookingRequest) :
  replies bookingStatus (BookingController.createBooking host svc body).
Proof.
  unfold BookingController.createBooking.
  apply replies_tryCatch.
  - destruct (BookingController.selectedOffer body) as [offer|];
      [| apply yields_ret; cbv; tauto].
    apply yields_bind; intros [[[[| confirmed others]|]]|];
      try (apply yields_ret; cbv; tauto).
    cbv zeta. destruct (BookingController.priceChanged _ _);
      [apply yields_ret; cbv; tauto|].
    apply yields_bind; intros [order|]; [apply yields_ret; cbv; tauto | apply yields_throw].
  - intro error. split_ifs; apply replies_ret; cbv; tauto.
Qed.

Section ConfirmPrice.

Variable host : Host.
Variables FareRules Bags : Type.
Variable offerFareRules : FlightOffer -> option FareRules.
Variable includedBags : PricingData -> option Bags.

(** What confirmPrice reports for an offer is what createBooking acts on. *)
Lemma confirmPrice_then_createBooking
  (svc : Amadeus.Service) (offer confirmed : FlightOffer)
  (travelers : option (list Traveler)) (contacts : option (list Contact))
  (tr tr' : Trace) (changed : bool) (original final difference : float)
  (rules : option FareRules) (bags : option Bags) :
  ConfirmPriceController.confirmPrice host FareRules Bags offerFareRules includedBags
    svc (ConfirmPriceController.mkConfirmRequest (Some offer) travelers) tr
  = (Return (ConfirmPriceController.mkHttp FareRules Bags 200
               (ConfirmPriceController.ConfirmedJson FareRules Bags changed
                  original final difference confirmed rules bags)),
     tr') ->
  let body := BookingController.mkBookingRequest (Some offer) travelers contacts in
  (changed = true ->
   BookingController.createBooking host svc body tr
   = (Return (BookingController.mkHttp 409
                (BookingController.PriceChangedJson
                   (BookingController.priceChangedMessage host offer confirmed
                      original final)
                   original final difference confirmed)),
      tr'))
  /\ (changed = false ->
      snd (BookingController.createBooking host svc body tr)
      = (tr' ++ [EvApi (bookingRequest confirmed body)])%list).
Proof.
  unfold ConfirmPriceController.confirmPrice, BookingController.createBooking,
    tryCatch, bind.
  cbn [ConfirmPriceController.flightOffer ConfirmPriceController.travelersOf
       BookingController.selectedOffer BookingController.travelerDetails
       BookingController.contactDetails].
  destruct (Amadeus.confirmFlightPrice svc [offer] travelers tr)
    as [[[[[[| first others]|]]|] | e] tr1] eqn:priced; try discriminate.
  intros [= <- <- <- <- <- <- <- <-].
  split; intros ->; [reflexivity|].
  unfold Amadeus.createFlightBooking, bind, tryCatch.
  assert (ready : exists c, Amadeus.checkInitialization svc tr1 = (Return tt, tr1)
                            /\ Amadeus.client svc = Some c).
  { revert priced. unfold Amadeus.confirmFlightPrice, bind, tryCatch,
      Amadeus.checkInitialization.
    destruct (Amadeus.isInitialized svc), (Amadeus.client svc) as [c|];
      cbn [throw ret]; try (split_ifs; discriminate).
    intros _. now exists c. }
  destruct ready as (c & passes & hasClient).
  rewrite passes, hasClient. unfold request.
  destruct (flightOrders c tr1 _) as [e | [order|]]; cbn [fst snd].
  - destruct (Amadeus.firstError e); split_ifs; reflexivity.
  - reflexivity.
  - split_ifs; reflexivity.
Qed.

Definition isPricingCall (e : Event) : bool :=
  match e with EvApi (FlightOffersPricingPost _ _ _) => true | _ => false end.

Lemma adds_confirmFlightPrice (svc : Amadeus.Service) offers travelers :
  adds isPricingCall (Amadeus.confirmFlightPrice svc offers travelers).
Proof.
  unfold Amadeus.confirmFlightPrice, Amadeus.checkInitialization.
  apply adds_bind; [adds_auto | intro].
  apply adds_tryCatch; [| intro; adds_auto].
  destruct (Amadeus.client svc); adds_auto.
Qed.

Definition confirmStatus (r : ConfirmPriceController.HttpResponse FareRules Bags) : Prop :=
  In (ConfirmPriceController.status FareRules Bags r) [200; 400; 500]%Z.

Lemma confirmPrice_answers (svc : Amadeus.Service)
  (body : ConfirmPriceController.ConfirmRequest) :
  replies confirmStatus (ConfirmPriceController.confirmPrice host FareRules Bags offerFareRules
     includedBags svc body)
  /\ adds isPricingCall (ConfirmPriceController.confirmPrice host FareRules Bags offerFareRules
     includedBags svc body).
Proof.
  unfold ConfirmPriceController.confirmPrice. split.
  - apply replies_tryCatch; [| intro; apply replies_ret; cbv; tauto].
    destruct (ConfirmPriceController.flightOffer body); [| apply yields_ret; cbv; tauto].
    apply yields_bind; intros [[[[| first others]|]]|];
      first [apply yields_throw | apply yields_ret; cbv; tauto].
  - apply adds_tryCatch; [| intro; adds_auto].
    destruct (ConfirmPriceController.flightOffer body); [| adds_auto].
    apply adds_bind; [apply adds_confirmFlightPrice | intro; adds_auto].
Qed.

End ConfirmPrice.

(** X5.  The two booking endpoints agree.  When confirmPrice answers 200
    for an offer, createBooking called for the same offer in the same
    state acts on the flag it reported: with priceChanged true it answers
    409 PRICE_CHANGED with the same prices and confirmed offer and sends
    nothing more; with priceChanged false it goes on to send the booking
    request for that confirmed offer. *)
Theorem confirmPrice_agrees_with_createBooking
  (host : Host) (FareRules Bags : Type)
  (offerFareRules : FlightOffer -> option FareRules)
  (includedBags : PricingData -> option Bags)
  (svc : Amadeus.Service) (offer confirmed : FlightOffer)
  (travelers : option (list Traveler)) (contacts : option (list Contact))
  (tr tr' : Trace) (changed : bool) (original final difference : float)
  (rules : option FareRules) (bags : option Bags) :
  ConfirmPriceController.confirmPrice host FareRules Bags offerFareRules includedBags svc
    (ConfirmPriceController.mkConfirmRequest (Some offer) travelers) tr
  = (Return (ConfirmPriceController.mkHttp FareRules Bags 200
               (ConfirmPriceController.ConfirmedJson FareRules Bags changed
                  original final difference confirmed rules bags)),
     tr') ->
  (changed = true ->
   BookingController.createBooking host svc
     (BookingController.mkBookingRequest (Some offer) travelers contacts) tr
   = (Return (BookingController.mkHttp 409
                (BookingController.PriceChangedJson
                   (BookingController.priceChangedMessage host offer confirmed
                      original final)
                   original final difference confirmed)),
      tr'))
  /\ (changed = false ->
      snd (BookingController.createBooking host svc
             (BookingController.mkBookingRequest (Some offer) travelers contacts) tr)
      = (tr' ++ [EvApi (bookingRequest confirmed
                          (BookingController.mkBookingRequest (Some offer) travelers
                             contacts))])%list).
Proof.
  intro confirmed_ok.
  exact (confirmPrice_then_createBooking host FareRules Bags offerFareRules includedBags
           svc offer confirmed travelers contacts tr tr' changed original final
           difference rules bags confirmed_ok).
Qed.

Lemma confirmPrice_agrees_with_createBooking_witness :
  fst (BookingController.createBooking Node.host
         (Samples.initialized (Samples.repricing "510.00"))
         (Samples.bookingOf "500.00") [])
  = Return (BookingController.mkHttp 409
              (BookingController.PriceChangedJson
                 "Price has changed from USD 500 to USD 510" 500 510 10
                 (Samples.offerAt "510.00")))
  /\ existsb isBookingCall
       (snd (BookingController.createBooking Node.host
               (Samples.initialized (Samples.repricing "500.00"))
               (Samples.bookingOf "500.00") []))
     = true.
Proof.
  split.
  - destruct (confirmPrice_agrees_with_createBooking Node.host unit unit
                (fun _ => None) (fun _ => None)
                (Samples.initialized (Samples.repricing "510.00"))
                (Samples.offerAt "500.00") (Samples.offerAt "510.00")
                (Some [mkTraveler "1" "Ada" "Lovelace"])
                (Some [mkContact (Some "ada@example.org")])
                [] _ true _ _ _ None None eq_refl) as [blocked _].
    unfold Samples.bookingOf. rewrite (blocked eq_refl). reflexivity.
  - destruct (confirmPrice_agrees_with_createBooking Node.host unit unit
                (fun _ => None) (fun _ => None)
                (Samples.initialized (Samples.repricing "500.00"))
                (Samples.offerAt "500.00") (Samples.offerAt "500.00")
                (Some [mkTraveler "1" "Ada" "Lovelace"])
                (Some [mkContact (Some "ada@example.org")])
                [] _ false _ _ _ None None eq_refl) as [_ booked].
    unfold Samples.bookingOf. rewrite (booked eq_refl).
    rewrite existsb_app. apply orb_true_r.
Defined.

(** X6.  confirmPrice never throws and never books: it answers with
    status 200, 400 or 500, and the only event it can add to the trace is
    the pricing request. *)
Theorem confirmPrice_answers_without_booking
  (host : Host) (FareRules Bags : Type)
  (offerFareRules : FlightOffer -> option FareRules)
  (includedBags : PricingData -> option Bags)
  (svc : Amadeus.Service) (body : ConfirmPriceController.ConfirmRequest) :
  replies (confirmStatus FareRules Bags)
    (ConfirmPriceController.confirmPrice host FareRules Bags offerFareRules includedBags
       svc body)
  /\ adds isPricingCall
       (ConfirmPriceController.confirmPrice host FareRules Bags offerFareRules
          includedBags svc body).
Proof.
  split; apply confirmPrice_answers.
Qed.

(** ** The hotel search of the Amadeus service *)

(** [raises P c]: every exception that [c] lets escape satisfies [P]. *)
Definition raises {A} (P : JsError -> Prop) (c : M A) : Prop :=
  forall tr e tr', c tr = (Throw e, tr') -> P e.

Section Raises.

Context {A : Type}.
Variable P : JsError -> Prop.

Lemma raises_ret (a : A) : raises P (ret a).
Proof. intros tr e tr' run. discriminate run. Qed.

Lemma raises_throw (e : JsError) : P e -> raises P (@throw A e).
Proof. intros ok tr e' tr' [= <- _]. exact ok. Qed.

Lemma raises_bind {B} (c : M B) (k : B -> M A) :
  raises P c -> (forall b, raises P (k b)) -> raises P (bind c k).
Proof.
  intros first then_ tr e tr'. unfold bind.
  destruct (c tr) as [[b | e0] tr0] eqn:run.
  - apply then_.
  - intros [= <- _]. exact (first _ _ _ run).
Qed.

Lemma raises_tryCatch (Q : JsError -> Prop) (c : M A) (h : JsError -> M A) :
  raises Q c -> (forall e, Q e -> raises P (h e)) -> raises P (tryCatch c h).
Proof.
  intros first handler tr e tr'. unfold tryCatch.
  destruct (c tr) as [[a | e0] tr0] eqn:run; [discriminate|].
  apply handler. exact (first _ _ _ run).
Qed.

(** A handler that swallows every exception lets none escape. *)
Lemma raises_caught (c : M A) (a : A) : raises P (tryCatch c (fun _ => ret a)).
Proof.
  intros tr e tr'. unfold tryCatch, ret.
  destruct (c tr) as [[a0 | e0] tr0]; discriminate.
Qed.

End Raises.

Definition noHotelsMessage (cityCode : string) : string :=
  ("Unable to find hotels in " ++ cityCode
     ++ ". Try a different city or check the city code.")%string.

Lemma searchHotels_raises (c : Client) (cityCode checkIn checkOut : string)
  (adults radius : Z) :
  raises (fun e => message e = noHotelsMessage cityCode)
    (Amadeus.searchHotels (Amadeus.mkService (Some c) true) cityCode checkIn checkOut
       adults radius).
Proof.
  unfold Amadeus.searchHotels, Amadeus.checkInitialization, Amadeus.withClient.
  cbn [Amadeus.isInitialized Amadeus.client].
  apply raises_bind; [apply raises_ret | intros _].
  apply (raises_tryCatch _ (fun e => message e = noHotelsMessage cityCode)).
  - apply raises_bind; [apply raises_caught | intro hotelIds].
    apply raises_bind; [destruct hotelIds; [apply raises_ret | apply raises_caught]
                       | intros [found|]]; [apply raises_ret|].
    apply raises_bind; [apply raises_caught | intros [found|]];
      [apply raises_ret | now apply raises_throw].
  - intros e unable. rewrite unable.
    change (JS.includes (noHotelsMessage cityCode) "Unable to find hotels") with true.
    cbv iota. now apply raises_throw.
Qed.

(** X7.  The hotel search fails in two ways only.  Without an initialized
    client it throws the not-initialized error and sends nothing.  With
    one, every failure of the provider is swallowed by the inner handlers,
    so the only error that escapes is "Unable to find hotels in <city>.
    Try a different city or check the city code."; the "Hotel search
    failed: ..." wrapper of the outer handler is never produced. *)
Theorem searchHotels_fails_in_two_ways (svc : Amadeus.Service)
  (cityCode checkIn checkOut : string) (adults radius : Z) (tr tr' : Trace)
  (e : JsError) :
  Amadeus.searchHotels svc cityCode checkIn checkOut adults radius tr = (Throw e, tr') ->
  (message e = Amadeus.notInitializedMessage /\ tr' = tr)
  \/ (Amadeus.isInitialized svc = true /\ message e = noHotelsMessage cityCode).
Proof.
  destruct svc as [[c|] [|]].
  - intro fails. right. split; [reflexivity|].
    exact (searchHotels_raises c cityCode checkIn checkOut adults radius _ _ _ fails).
  - intros [= <- <-]. now left.
  - intros [= <- <-]. now left.
  - intros [= <- <-]. now left.
Qed.

Lemma searchHotels_fails_in_two_ways_witness :
  exists e tr',
    Amadeus.searchHotels Samples.cutOff "PAR" "2026-12-01" "2026-12-04" 1 5 []
    = (Throw e, tr')
    /\ message e
       = "Unable to find hotels in PAR. Try a different city or check the city code."%string.
Proof.
  eexists. eexists. split; [reflexivity|].
  destruct (searchHotels_fails_in_two_ways Samples.cutOff "PAR" "2026-12-01" "2026-12-04"
              1 5 [] _ _ eq_refl) as [[_ unsent] | [_ unable]].
  - discriminate unsent.
  - exact unable.
Defined.

(** X8.  The offers request of the hotel search names at most twenty
    hotels.  When the city has hotels, the search asks for the offers of
    the first twenty of the list, in the list's order, and returns the
    provider's answer as it is: an empty or missing answer gives the empty
    list and the search by coordinates is not tried. *)
Theorem searchHotels_asks_for_twenty_hotels (c : Client)
  (cityCode checkIn checkOut : string) (adults radius : Z) (tr : Trace)
  (first : HotelRef) (more : list HotelRef) (answer : option (list HotelOffer)) :
  let cityList := HotelsByCityGet (JS.toUpperCase cityCode) in
  let offers :=
    HotelOffersSearchByIds (JS.join "," (map hotelId (firstn 20 (first :: more))))
      checkIn checkOut adults in
  hotelsByCity c tr cityList = Data (Some (first :: more)) ->
  hotelOffersSearch c (tr ++ [EvApi cityList]) offers = Data answer ->
  Amadeus.searchHotels (Amadeus.mkService (Some c) true) cityCode checkIn checkOut
    adults radius tr
  = (Return (Amadeus.orEmpty answer), tr ++ [EvApi cityList; EvApi offers]).
Proof.
  intros cityList offers listed answered.
  unfold Amadeus.searchHotels, Amadeus.getHotelList, Amadeus.checkInitialization,
    Amadeus.withClient, bind, tryCatch, request, ret.
  cbn [Amadeus.isInitialized Amadeus.client].
  unfold offers in *. clear offers.
  fold cityList. rewrite listed. cbn [Amadeus.orEmpty].
  change (firstn 20 (first :: more)) with (first :: firstn 19 more) in *.
  set (rest := firstn 19 more) in *.
  cbn [map] in *.
  rewrite answered. rewrite <- app_assoc. reflexivity.
Qed.

Lemma searchHotels_asks_for_twenty_hotels_witness :
  Amadeus.searchHotels Samples.parisService "par" "2026-12-01" "2026-12-04" 2 5 []
  = (Return [Samples.hotelNamed "Ritz" "900.00"],
     [EvApi (HotelsByCityGet "PAR");
      EvApi (HotelOffersSearchByIds "H1" "2026-12-01" "2026-12-04" 2)]).
Proof.
  exact (searchHotels_asks_for_twenty_hotels
           (Samples.parisian [Samples.hotelNamed "Ritz" "900.00"])
           "par" "2026-12-01" "2026-12-04" 2 5 [] (mkHotelRef "H1") []
           (Some [Samples.hotelNamed "Ritz" "900.00"]) eq_refl eq_refl).
Defined.

(** ** Journey times *)

(** X9.  The journey time of an itinerary is the time from the departure
    of its first segment to the arrival of its last one, layovers
    included, split into whole hours and the remaining whole minutes:
    when the arrival is not before the departure the text is "<h>h <m>m"
    with m between 0 and 59 and 60 h + m the elapsed whole minutes. *)
Theorem journey_time_is_hours_and_minutes (host : Host)
  (first : FlightSegment) (more : list FlightSegment) (leaves arrives : Z) :
  Date_parse host (at_ (departure first)) = Some leaves ->
  Date_parse host (at_ (arrival (last (first :: more) first))) = Some arrives ->
  (leaves <= arrives)%Z ->
  exists h m : Z,
    Amadeus.calculateTotalJourneyTime host (first :: more)
    = (JS.showZ h ++ "h " ++ JS.showZ m ++ "m")%string
    /\ (0 <= h)%Z /\ (0 <= m < 60)%Z
    /\ (60 * h + m = (arrives - leaves) / 60000)%Z.
Proof.
  intros departs lands ordered.
  exists ((arrives - leaves) / 3600000)%Z,
         (Z.rem (arrives - leaves) 3600000 / 60000)%Z.
  unfold Amadeus.calculateTotalJourneyTime. rewrite departs, lands.
  split; [reflexivity|].
  rewrite Z.rem_mod_nonneg by lia.
  pose proof (Z.mod_pos_bound (arrives - leaves) 3600000 ltac:(lia)) as bound.
  pose proof (Z.div_mod (arrives - leaves) 3600000 ltac:(lia)) as split_.
  set (hours := ((arrives - leaves) / 3600000)%Z) in *.
  set (left_ := ((arrives - leaves) mod 3600000)%Z) in *.
  split; [apply Z.div_pos; lia|].
  split; [split; [apply Z.div_pos; lia | apply Z.div_lt_upper_bound; lia]|].
  rewrite split_.
  replace (3600000 * hours + left_)%Z with (left_ + (60 * hours) * 60000)%Z by lia.
  rewrite Z.div_add by lia. lia.
Qed.

Lemma journey_time_is_hours_and_minutes_witness :
  exists h m : Z,
    Amadeus.calculateTotalJourneyTime Node.host
      [Samples.direct "JFK" "KEF" "2026-12-01" "2026-12-02";
       Samples.direct "KEF" "LHR" "2026-12-03" "2026-12-04"]
    = (JS.showZ h ++ "h " ++ JS.showZ m ++ "m")%string
    /\ (0 <= h)%Z /\ (0 <= m < 60)%Z
    /\ (60 * h + m = (1796342400000 - 1796083200000) / 60000)%Z.
Proof.
  apply (journey_time_is_hours_and_minutes Node.host
           (Samples.direct "JFK" "KEF" "2026-12-01" "2026-12-02")
           [Samples.direct "KEF" "LHR" "2026-12-03" "2026-12-04"]
           1796083200000 1796342400000); [reflexivity | reflexivity | lia].
Defined.

(** ** Letter case in the classification *)

Lemma lowerChar_space (c : ascii) : JS.isSpace (JS.lowerChar c) = JS.isSpace c.
Proof. destruct c as [[] [] [] [] [] [] [] []]; reflexivity. Qed.

Lemma trimStart_map (f : ascii -> ascii) (s : string) :
  (forall c, JS.isSpace (f c) = JS.isSpace c) ->
  JS.trimStart (JS.mapChars f s) = JS.mapChars f (JS.trimStart s).
Proof.
  intro keeps. induction s as [| c t IH]; cbn; [reflexivity|].
  rewrite keeps. destruct (JS.isSpace c); [exact IH | reflexivity].
Qed.

Lemma trimEnd_map (f : ascii -> ascii) (s : string) :
  (forall c, JS.isSpace (f c) = JS.isSpace c) ->
  JS.trimEnd (JS.mapChars f s) = JS.mapChars f (JS.trimEnd s).
Proof.
  intro keeps. induction s as [| c t IH]; cbn; [reflexivity|].
  rewrite IH, keeps.
  destruct (JS.trimEnd t); cbn; [destruct (JS.isSpace c) |]; reflexivity.
Qed.

Lemma trim_toLowerCase (s : string) :
  JS.trim (JS.toLowerCase s) = JS.toLowerCase (JS.trim s).
Proof.
  unfold JS.trim, JS.toLowerCase.
  now rewrite trimStart_map, trimEnd_map by exact lowerChar_space.
Qed.

(** Whether a message is blank can be read off its lower-case form. *)
Lemma blank_toLowerCase (s : string) :
  (String.length (JS.trim s) =? 0)%nat
  = (String.length (JS.trim (JS.toLowerCase s)) =? 0)%nat.
Proof.
  rewrite trim_toLowerCase. unfold JS.toLowerCase. now rewrite mapChars_length.
Qed.

(** What the dispatch reads of a detected intent. *)
Definition verdict (userMessage : string) : option (IntentType * float * bool) :=
  option_map (fun i => (intentType i, confidence i, requiresAmadeusApi i))
    (detectTravelIntent userMessage).

(** X10.  The classification does not depend on letter case: two messages
    with the same lower-case form are given the same intent type and the
    same confidence (or are both left unclassified); only the search text
    carried along keeps the original spelling. *)
Theorem classification_ignores_letter_case (a b : string) :
  JS.toLowerCase a = JS.toLowerCase b -> verdict a = verdict b.
Proof.
  intro same. unfold verdict, detectTravelIntent.
  rewrite (blank_toLowerCase a), (blank_toLowerCase b), same.
  repeat match goal with
         | |- context [if ?c then _ else _] => destruct c
         end; reflexivity.
Qed.

Lemma classification_ignores_letter_case_witness :
  verdict "FIND A FLIGHT FROM PARIS TO ROME" = verdict "Find a flight from Paris to Rome"
  /\ verdict "Find a flight from Paris to Rome" = Some (flight, 0.9%float, true).
Proof.
  split; [apply classification_ignores_letter_case|]; vm_compute; reflexivity.
Defined.

(** ** Countries and cities *)

Lemma replaceCountry_settled (place : option string) (p : string) :
  replaceCountry place = Some p ->
  lookup (JS.toLowerCase p) countryAbbreviations = None.
Proof.
  assert (cities :
            forallb (fun entry =>
                       match lookup (JS.toLowerCase (snd entry)) countryAbbreviations with
                       | None => true
                       | Some _ => false
                       end) countryAbbreviations = true)
    by (vm_compute; reflexivity).
  unfold replaceCountry. destruct place as [q|]; [| discriminate].
  destruct (JS.truthy q) eqn:given.
  - destruct (lookup (JS.toLowerCase q) countryAbbreviations) as [city|] eqn:known.
    + intros [= <-].
      pose proof (lookup_forall
                    (fun v => match lookup (JS.toLowerCase v) countryAbbreviations with
                              | None => true
                              | Some _ => false
                              end) _ _ _ cities known) as settled.
      cbn beta in settled.
      now destruct (lookup (JS.toLowerCase city) countryAbbreviations).
    + now intros [= <-].
  - destruct q; [| discriminate]. now intros [= <-].
Qed.

(** X11.  The places that extractFlightParams returns are never one of the
    country names of its table: an origin or destination written as such a
    country (in any letter case) has been replaced by the country's city. *)
Theorem extracted_places_are_not_countries (message p : string) :
  origin (extractFlightParams message) = Some p
  \/ destination (extractFlightParams message) = Some p ->
  lookup (JS.toLowerCase p) countryAbbreviations = None.
Proof.
  unfold extractFlightParams. cbn [origin destination].
  intros [from | to]; eapply replaceCountry_settled; eassumption.
Qed.

Lemma extracted_places_are_not_countries_witness :
  origin (extractFlightParams "flights from UK to Japan, on May 5th") = Some "London"
  /\ destination (extractFlightParams "flights from UK to Japan, on May 5th") = Some "Tokyo"
  /\ lookup (JS.toLowerCase "London") countryAbbreviations = None.
Proof.
  split; [vm_compute; reflexivity|]. split; [vm_compute; reflexivity|].
  apply (extracted_places_are_not_countries "flights from UK to Japan, on May 5th").
  left. vm_compute. reflexivity.
Defined.

(** The name that getIATACode looks up: the city of a country of its
    table, else the name it was given. *)
Definition lookedUp (location : string) : string :=
  match lookup (JS.toLowerCase (JS.trim location)) countryToCity with
  | Some city => city
  | None => location
  end.

Definition locationSearch (location : string) : Event :=
  EvApi (LocationsGet (lookedUp location) Amadeus.CITY_AIRPORT).

(** getIATACode sends nothing, or one location search for the name it
    looks up. *)
Lemma getIATACode_trace (svc : Amadeus.Service) (location : string) (tr : Trace) :
  snd (getIATACode svc location tr) = tr
  \/ snd (getIATACode svc location tr) = (tr ++ [locationSearch location])%list.
Proof.
  unfold getIATACode, locationSearch. fold (lookedUp location).
  destruct (_ =? _)%nat; [now left|].
  destruct (negb _); [now left|].
  unfold Amadeus.lookupCity, Amadeus.checkInitialization, Amadeus.withClient,
    bind, tryCatch, request, ret, throw.
  destruct (Amadeus.isInitialized svc), (Amadeus.client svc) as [c|]; cbn [fst snd];
    try (now left).
  right.
  destruct (locations c tr _) as [e | [[| first more] |]]; cbn [fst snd]; try reflexivity.
  destruct (iataOr _ _) as [code|]; [destruct (_ && _) |]; reflexivity.
Qed.

Lemma getIATACode_returns (svc : Amadeus.Service) (location : string) (tr : Trace) :
  (String.length (JS.trim location) =? 0)%nat = false ->
  exists code, fst (getIATACode svc location tr) = Return code.
Proof.
  intro named. unfold getIATACode. rewrite named. fold (lookedUp location).
  destruct (negb _); [eexists; reflexivity|].
  unfold Amadeus.lookupCity, Amadeus.checkInitialization, Amadeus.withClient,
    bind, tryCatch, request, ret, throw.
  destruct (Amadeus.isInitialized svc), (Amadeus.client svc) as [c|]; cbn [fst snd];
    try (eexists; reflexivity).
  destruct (locations c tr _) as [e | [[| first more] |]]; cbn [fst snd];
    try (eexists; reflexivity).
  destruct (iataOr _ _) as [code|]; [destruct (_ && _) |]; eexists; reflexivity.
Qed.

(** X12.  A country of the table of getIATACode is resolved through its
    city.  Whatever the letter case and the surrounding blanks of the
    name, the only request that can be sent is the location search for
    the city, never for the country; and without an initialized provider
    the result is the city's code of the fallback table, three upper-case
    letters. *)
Theorem countries_resolve_through_their_city (svc : Amadeus.Service)
  (location country city : string) (tr : Trace) :
  In (country, city) countryToCity ->
  JS.toLowerCase (JS.trim location) = country ->
  exists code,
    lookup (JS.toLowerCase city) airportCodes = Some code
    /\ isTableCode code = true
    /\ (Amadeus.isInitialized svc = false ->
        getIATACode svc location tr = (Return code, tr))
    /\ (snd (getIATACode svc location tr) = tr
        \/ snd (getIATACode svc location tr)
           = (tr ++ [EvApi (LocationsGet city "CITY,AIRPORT")])%list).
Proof.
  intros listed named.
  assert (resolved : lookedUp location = city
                     /\ (String.length (JS.trim location) =? 0)%nat = false
                     /\ exists code,
                          lookup (JS.toLowerCase city) airportCodes = Some code
                          /\ isTableCode code = true
                          /\ getFallbackAirportCode city = code).
  { unfold lookedUp. rewrite named.
    assert (long : String.length (JS.trim location) = String.length country)
      by (rewrite <- named; unfold JS.toLowerCase; now rewrite mapChars_length).
    rewrite long. clear named long.
    cbn in listed.
    repeat (destruct listed as [[= <- <-] | listed];
            [split; [reflexivity|]; split; [reflexivity|];
             eexists; split; [vm_compute; reflexivity|]; split; reflexivity |]).
    contradiction. }
  destruct resolved as (target & nonblank & code & inTable & shaped & fallback).
  exists code. split; [exact inTable|]. split; [exact shaped|]. split.
  - intro off. unfold getIATACode. rewrite nonblank. fold (lookedUp location).
    unfold Amadeus.isClientInitialized. rewrite off, target, fallback. reflexivity.
  - pose proof (getIATACode_trace svc location tr) as sent.
    unfold locationSearch in sent. rewrite target in sent. exact sent.
Qed.

Lemma countries_resolve_through_their_city_witness :
  getIATACode Samples.uninitialized " United Kingdom " [] = (Return "LHR"%string, [])
  /\ snd (getIATACode Samples.cutOff " United Kingdom " [])
     = [EvApi (LocationsGet "London" "CITY,AIRPORT")].
Proof.
  destruct (countries_resolve_through_their_city Samples.uninitialized
              " United Kingdom " "united kingdom" "London" [])
    as (code & inTable & _ & fallback & _);
    [cbn; tauto | reflexivity |].
  split; [| reflexivity].
  rewrite (fallback eq_refl). injection inTable as <-. reflexivity.
Defined.

(** X13.  getIATACode fails on a blank name only.  For a blank name it
    throws before anything is sent; for every other name it returns a
    code, whatever the provider does, having sent nothing or the single
    location search for the name it looks up. *)
Theorem getIATACode_fails_only_on_blank_names (svc : Amadeus.Service)
  (location : string) (tr : Trace) :
  (String.length (JS.trim location) = 0%nat ->
   getIATACode svc location tr
   = (Throw (Error "Invalid location: Location name is required"), tr))
  /\ (String.length (JS.trim location) <> 0%nat ->
      (exists code, fst (getIATACode svc location tr) = Return code)
      /\ (snd (getIATACode svc location tr) = tr
          \/ snd (getIATACode svc location tr) = (tr ++ [locationSearch location])%list)).
Proof.
  split.
  - intro blank. unfold getIATACode. now rewrite blank.
  - intro named. split; [| apply getIATACode_trace].
    apply getIATACode_returns. now apply Nat.eqb_neq.
Qed.

(** A provider that knows the airport and the city of New York, the
    airport first. *)
Definition newYorker : Client :=
  mkClient
    (fun _ _ =>
       Data (Some [mkLocationData "AIRPORT" "JOHN F KENNEDY INTL" (Some "JFK"%string) None;
                   mkLocationData "CITY" "NEW YORK" (Some "NYC"%string) None]))
    (fun _ _ => Fails Samples.offline) (fun _ _ => Fails Samples.offline)
    (fun _ _ => Fails Samples.offline) (fun _ _ => Fails Samples.offline)
    (fun _ _ => Fails Samples.offline) (fun _ _ => Fails Samples.offline).

(** X14.  City codes are preferred to airport codes.  When the location
    search answers with a list that holds an entry of sub-type CITY whose
    code has three characters, getIATACode returns the code of the first
    such entry, wherever it stands in the list and whatever airports come
    before it. *)
Theorem getIATACode_prefers_city_codes (c : Client) (location : string) (tr : Trace)
  (entries : list LocationData) (cityEntry : LocationData) (code : string) :
  String.length (JS.trim location) <> 0%nat ->
  locations c tr (LocationsGet (lookedUp location) "CITY,AIRPORT") = Data (Some entries) ->
  findSubType "CITY" entries = Some cityEntry ->
  locIataCode cityEntry = Some code ->
  String.length code = 3%nat ->
  getIATACode (Amadeus.mkService (Some c) true) location tr
  = (Return code, (tr ++ [locationSearch location])%list).
Proof.
  intros named answered found coded three.
  apply Nat.eqb_neq in named.
  unfold getIATACode. rewrite named. fold (lookedUp location).
  unfold Amadeus.isClientInitialized, Amadeus.lookupCity, Amadeus.checkInitialization,
    Amadeus.withClient, bind, tryCatch, request, ret, throw, Amadeus.CITY_AIRPORT.
  cbn [Amadeus.isInitialized Amadeus.client negb]. rewrite answered.
  destruct entries as [| first more]; [discriminate found|].
  rewrite found. unfold iataOr at 1. rewrite coded.
  destruct code as [| ch rest]; [discriminate three|].
  cbn [JS.truthyOpt JS.truthy andb]. rewrite three. reflexivity.
Qed.

Lemma getIATACode_prefers_city_codes_witness :
  getIATACode (Samples.initialized newYorker) "New York" []
  = (Return "NYC"%string, [EvApi (LocationsGet "New York" "CITY,AIRPORT")]).
Proof.
  apply (getIATACode_prefers_city_codes newYorker "New York" []
           [mkLocationData "AIRPORT" "JOHN F KENNEDY INTL" (Some "JFK"%string) None;
            mkLocationData "CITY" "NEW YORK" (Some "NYC"%string) None]
           (mkLocationData "CITY" "NEW YORK" (Some "NYC"%string) None) "NYC");
    [vm_compute; discriminate | reflexivity | reflexivity | reflexivity | reflexivity].
Defined.

(** ** Dates handed to the flight search *)

(** X15.  formatDate never returns a date before today: whatever the
    text, the result is the ISO date of an instant that is not before the
    start of the current local day (tomorrow when the text is empty, does
    not parse or lies in the past). *)
Theorem formatDate_is_never_in_the_past (host : Host) (dateStr : string) :
  exists t : Z,
    formatDate host dateStr = JSDate.isoDate t
    /\ (setHoursZero host (now host) <= t)%Z.
Proof.
  assert (tomorrow : exists t : Z,
             tomorrowISO host = JSDate.isoDate t
             /\ (setHoursZero host (now host) <= t)%Z).
  { exists (now host + JSDate.msPerDay)%Z. split; [apply tomorrowISO_eq|].
    unfold setHoursZero.
    pose proof (Z.mod_pos_bound (now host + tzOffset host) JSDate.msPerDay
                  ltac:(reflexivity)).
    unfold JSDate.msPerDay in *. lia. }
  unfold formatDate.
  destruct (negb _); [exact tomorrow|].
  destruct (Date_parse host _) as [dateObj|]; [| exact tomorrow].
  destruct (dateObj <? _)%Z eqn:past; [exact tomorrow|].
  exists dateObj. split; [reflexivity|]. now apply Z.ltb_ge.
Qed.

(** ** What the chat service asks of the provider *)

Definition noLower (s : string) : bool :=
  JS.allChars (fun c => negb (JS.isLower c)) s.

(** The requests of a chat turn: searches only, with the parameters that
    the handlers fix. *)
Definition isChatRequest (e : Event) : bool :=
  match e with
  | EvApi (LocationsGet _ subType) =>
      String.eqb subType "CITY,AIRPORT" || String.eqb subType "CITY"
  | EvApi (FlightOffersSearchGet o d _ returnDate adults cabin currency mx) =>
      noLower o && noLower d
      && match returnDate with None => true | Some _ => false end
      && (adults =? 1)%Z && String.eqb cabin "ECONOMY" && String.eqb currency "USD"
      && (mx =? 10)%Z
  | EvApi (HotelsByCityGet cityCode) => noLower cityCode
  | EvApi (HotelOffersSearchByIds _ _ _ adults) => (1 <=? adults)%Z && (adults <=? 9)%Z
  | EvApi (HotelOffersSearchByGeo _ _ radius _ _ adults) =>
      (radius =? 5)%Z && (1 <=? adults)%Z && (adults <=? 9)%Z
  | EvApi _ => false
  | _ => true
  end.

Lemma toUpperCase_noLower (s : string) : noLower (JS.toUpperCase s) = true.
Proof.
  unfold noLower, JS.toUpperCase.
  apply (allChars_map (fun _ => true)).
  - intros c _. destruct c as [[] [] [] [] [] [] [] []]; reflexivity.
  - induction s as [| c t IH]; [reflexivity | exact IH].
Qed.

(** The number of guests read from a message lies between 1 and 9. *)
Lemma guests_bounds (message : string) :
  (1 <= guests (extractHotelParams message) <= 9)%Z.
Proof.
  unfold extractHotelParams. cbn [guests].
  destruct (Regex.exec adultsPattern message) as [m|]; [| lia].
  destruct (parseDigits _ <? 1)%Z eqn:low.
  - cbn. lia.
  - apply Z.ltb_ge in low. destruct (9 <? parseDigits _)%Z eqn:high; [lia|].
    apply Z.ltb_ge in high. lia.
Qed.

Section ChatRequests.

Variable host : Host.
Variable svc : Amadeus.Service.

Lemma chat_checkInitialization : adds isChatRequest (Amadeus.checkInitialization svc).
Proof. unfold Amadeus.checkInitialization. adds_auto. Qed.

Lemma chat_lookupCity (keyword subType : string) :
  String.eqb subType "CITY,AIRPORT" || String.eqb subType "CITY" = true ->
  adds isChatRequest (Amadeus.lookupCity svc keyword subType).
Proof.
  intro allowed. unfold Amadeus.lookupCity, Amadeus.withClient.
  apply adds_bind; [apply chat_checkInitialization | intro].
  apply adds_tryCatch; [| intro; adds_auto].
  destruct (Amadeus.client svc); [apply adds_request; exact allowed | adds_auto].
Qed.

Lemma chat_getHotelList (cityCode : string) :
  adds isChatRequest (Amadeus.getHotelList svc cityCode).
Proof.
  unfold Amadeus.getHotelList, Amadeus.withClient.
  apply adds_bind; [apply chat_checkInitialization | intro].
  apply adds_tryCatch; [| intro; adds_auto].
  destruct (Amadeus.client svc); [| adds_auto].
  apply adds_bind; [apply adds_request; apply toUpperCase_noLower | intro; adds_auto].
Qed.

Lemma chat_searchHotels (cityCode checkIn checkOut : string) (adults : Z) :
  (1 <= adults <= 9)%Z ->
  adds isChatRequest (Amadeus.searchHotels svc cityCode checkIn checkOut adults 5).
Proof.
  intro bounds.
  assert (inBounds : ((1 <=? adults) && (adults <=? 9))%Z = true)
    by (apply andb_true_intro; split; apply Z.leb_le; lia).
  unfold Amadeus.searchHotels, Amadeus.withClient.
  apply adds_bind; [apply chat_checkInitialization | intro].
  apply adds_tryCatch; [| intro; adds_auto].
  destruct (Amadeus.client svc) as [c|]; [| adds_auto].
  apply adds_bind; [| intro hotelIds].
  { apply adds_tryCatch; [| intro; adds_auto].
    apply adds_bind; [apply chat_getHotelList | intro; adds_auto]. }
  apply adds_bind; [| intro byIds].
  { destruct hotelIds; [adds_auto|].
    apply adds_tryCatch; [| intro; adds_auto].
    apply adds_bind; [apply adds_request; exact inBounds | intro; adds_auto]. }
  destruct byIds; [adds_auto|].
  apply adds_bind; [| intro; adds_auto].
  apply adds_tryCatch; [| intro; adds_auto].
  apply adds_bind; [apply chat_lookupCity; reflexivity | intros [[| first more] |]];
    [adds_auto | | adds_auto].
  destruct (geoCode first) as [[latitude longitude] |]; [| adds_auto].
  apply adds_bind; [apply adds_request; exact inBounds | intro; adds_auto].
Qed.

Lemma chat_searchFlights (o d dep : string) :
  adds isChatRequest (Amadeus.searchFlights host svc o d dep None 1 "ECONOMY").
Proof.
  unfold Amadeus.searchFlights, Amadeus.withClient.
  apply adds_bind; [apply chat_checkInitialization | intro].
  apply adds_tryCatch; [cbv zeta | intro; adds_auto].
  destruct (Amadeus.client svc) as [c|]; [| adds_auto].
  apply adds_bind; [| intro; adds_auto].
  apply adds_request. cbn [isChatRequest].
  now rewrite !toUpperCase_noLower.
Qed.

Lemma chat_getIATACode (location : string) :
  adds isChatRequest (getIATACode svc location).
Proof.
  unfold getIATACode.
  destruct (_ =? _)%nat; [adds_auto|]. cbv zeta.
  destruct (negb _); [adds_auto|].
  apply adds_bind; [| intro; adds_auto].
  apply adds_tryCatch; [| intro; adds_auto].
  apply adds_bind; [apply chat_lookupCity; reflexivity | intro; adds_auto].
Qed.

Lemma chat_handleFlightIntent messages intent :
  adds isChatRequest (handleFlightIntent host svc messages intent).
Proof.
  unfold handleFlightIntent.
  apply adds_tryCatch; [| intro; adds_auto].
  destruct (lastUserMessage messages); [|adds_auto].
  destruct (negb _); [adds_auto|]. cbv zeta.
  destruct (_ || _); [adds_auto|].
  destruct (negb _); [adds_auto|].
  apply adds_bind; [apply chat_getIATACode | intro originCode].
  apply adds_bind; [apply chat_getIATACode | intro destinationCode].
  apply adds_tryCatch; [| intro; adds_auto].
  destruct (_ || _); [adds_auto|].
  apply adds_bind; [apply chat_searchFlights | intro; adds_auto].
Qed.

Lemma chat_handleHotelIntent messages intent :
  adds isChatRequest (handleHotelIntent host svc messages intent).
Proof.
  unfold handleHotelIntent.
  apply adds_tryCatch; [| intro; adds_auto].
  destruct (lastUserMessage messages); [|adds_auto].
  destruct (negb _); [adds_auto|]. cbv zeta.
  destruct (negb _); [adds_auto|].
  apply adds_bind; [apply chat_getIATACode | intro cityCode].
  destruct (stayDates host _) as [checkIn checkOut].
  apply adds_bind; [unfold toISODate; adds_auto | intro checkInStr].
  apply adds_bind; [unfold toISODate; adds_auto | intro checkOutStr].
  apply adds_tryCatch; [| intro; adds_auto].
  destruct (negb _); [adds_auto|].
  apply adds_bind; [| intro; adds_auto].
  apply adds_tryCatch; [apply chat_searchHotels, guests_bounds | intro; adds_auto].
Qed.

Lemma chat_generateStandardResponse (self : Self) systemMsg messages :
  adds isChatRequest (generateStandardResponse self systemMsg messages).
Proof.
  unfold generateStandardResponse.
  apply adds_bind; [apply adds_emit; reflexivity | intros _].
  apply adds_tryCatch; [cbv zeta | intro; adds_auto].
  apply adds_bind; [| intro; adds_auto].
  intro tr. exists [EvChatCompletion (systemMsg :: messages)]. unfold chatCompletion.
  split; [destruct (chatCompletionsCreate self tr _) |]; reflexivity.
Qed.

End ChatRequests.

(** X16.  Whatever the conversation and the provider's answers, a chat
    turn only sends searches to the travel provider: location searches of
    sub-type CITY,AIRPORT or CITY; flight searches for one adult in
    ECONOMY, without return date, priced in USD, limited to 10 offers and
    with codes free of lower-case letters; the hotel list of an
    upper-cased city code; and hotel offer searches for 1 to 9 adults,
    within 5 km when by coordinates.  It never sends a pricing request, a
    flight order or a points-of-interest request. *)
Theorem chat_requests_are_bounded_searches (host : Host) (svc : Amadeus.Service)
  (self : Self) (messages : list Message) :
  adds isChatRequest (generateResponse host svc self messages).
Proof.
  unfold generateResponse.
  apply adds_tryCatch; [| intro; apply adds_ret].
  destruct (negb _); [apply adds_ret|].
  destruct (lastUserMessage messages) as [userMessage|]; [| apply adds_ret].
  destruct (_ <=? _)%nat; [apply adds_ret|].
  destruct (Regex.test _ _); [destruct (JS.includes _ _); apply adds_ret|].
  apply adds_bind; [apply adds_emit; reflexivity | intros _].
  destruct (detectTravelIntent _) as [travelIntent|];
    [| apply chat_generateStandardResponse].
  destruct (PrimFloat.ltb _ _); [| apply chat_generateStandardResponse].
  destruct (intentType travelIntent);
    first [ apply chat_generateStandardResponse
          | apply adds_ret
          | apply adds_bind; [apply adds_emit; reflexivity | intros _];
            first [apply chat_handleFlightIntent | apply chat_handleHotelIntent] ].
Qed.

(** ** Flight durations *)

Section Durations.

Import Regex.
Import AmadeusTools.

Local Open Scope string_scope.

(** The character before the position reached after reading [s]. *)
Fixpoint lastChar (pv : option ascii) (s : string) : option ascii :=
  match s with
  | EmptyString => pv
  | String c t => lastChar (Some c) t
  end.

Definition stopsDigits (tail : string) : Prop :=
  match tail with
  | String c _ => JS.isDigit c = false
  | EmptyString => True
  end.

Lemma digits_loop (k : cont) (tail : string) (qs : caps) (x : pos * caps) :
  stopsDigits tail ->
  forall (ds : string) (fuel count : nat) (pv : option ascii),
    JS.allChars JS.isDigit ds = true ->
    (String.length ds <= fuel)%nat ->
    (1 <= count + String.length ds)%nat ->
    k (mkPos (lastChar pv ds) tail) qs = Some x ->
    repeatLoop (run false (Chr CDigit)) true 1 None k fuel count (mkPos pv (ds ++ tail)) qs
    = Some x.
Proof.
  intros stops. induction ds as [| d ds IH]; intros fuel count pv digits enough some found.
  - cbn [append lastChar String.length] in *.
    destruct count; [lia|].
    destruct fuel as [| fuel]; cbn [repeatLoop]; unfold orElse; cbn [belowMax];
      [exact found|].
    cbn [run rest].
    destruct tail as [| c t]; [exact found|]. cbn in stops.
    unfold charMatches. cbn [inSet]. rewrite stops. exact found.
  - cbn in digits, enough, some, found. apply andb_prop in digits. destruct digits as [isd rest_].
    destruct fuel as [| fuel]; [lia|].
    cbn [repeatLoop]. unfold orElse. cbn [belowMax].
    cbn [run rest append]. unfold charMatches. cbn [inSet].
    rewrite isd.
    cbn [rest].
    replace (String.length (ds ++ tail) <? String.length (String d (ds ++ tail)))%nat with true
      by (symmetry; apply Nat.ltb_lt; cbn; lia).
    cbn [orb].
    pose proof (IH fuel (S count) (Some d) rest_ ltac:(lia) ltac:(lia) found) as again.
    cbn [run] in again. unfold charMatches in again. cbn [inSet] in again.
    rewrite again. reflexivity.
Qed.

Lemma length_app (a b : string) :
  String.length (a ++ b) = (String.length a + String.length b)%nat.
Proof. induction a as [| c a IH]; cbn; congruence. Qed.

Lemma takeChars_app (a b : string) : JS.takeChars (String.length a) (a ++ b) = a.
Proof. induction a as [| c a IH]; cbn; [now destruct b | congruence]. Qed.

Lemma dropChars_app (a b : string) : JS.dropChars (String.length a) (a ++ b) = b.
Proof. induction a as [| c a IH]; cbn; [reflexivity | exact IH]. Qed.

(** An optional number followed by its unit letter, captured as group [n]. *)
Definition numberWith (n : nat) (unit_ : ascii) : re :=
  opt (Seq (Grp n (plus digit)) (Chr (CChar unit_))).

Lemma run_Seq icase a b p cs k :
  run icase (Seq a b) p cs k = run icase a p cs (fun p' cs' => run icase b p' cs' k).
Proof. reflexivity. Qed.

Lemma run_Grp icase n a p cs k :
  run icase (Grp n a) p cs k
  = run icase a p cs (fun p' cs' => k p' ((n, consumed p p') :: cs')).
Proof. reflexivity. Qed.

Lemma run_Rep icase greedy mn mx a p cs k :
  run icase (Rep greedy mn mx a) p cs k
  = repeatLoop (run icase a) greedy mn mx k (S (String.length (rest p)) + mn)%nat O p cs.
Proof. reflexivity. Qed.

Lemma run_numberWith (n : nat) (unit_ : ascii) (ds tail : string) (pv : option ascii)
  (cs : caps) (k : cont) (x : pos * caps) :
  JS.allChars JS.isDigit ds = true -> ds <> "" -> JS.isDigit unit_ = false ->
  k (mkPos (Some unit_) tail) ((n, ds) :: cs) = Some x ->
  run false (numberWith n unit_) (mkPos pv (ds ++ String unit_ tail)) cs k = Some x.
Proof.
  intros digits some letter found.
  assert (shorter :
            (String.length tail <? String.length (ds ++ String unit_ tail))%nat = true)
    by (apply Nat.ltb_lt; rewrite length_app; cbn; lia).
  assert (whole :
            (String.length (ds ++ String unit_ tail) - String.length (String unit_ tail))%nat
            = String.length ds)
    by (rewrite length_app; lia).
  unfold numberWith, opt, plus, digit.
  rewrite run_Rep. cbn [rest Nat.add].
  cbn [repeatLoop belowMax]. change (0 <? 1)%nat with true. cbv iota.
  unfold orElse at 1.
  rewrite run_Seq, run_Grp, run_Rep. cbn [rest].
  rewrite (digits_loop _ (String unit_ tail) cs x);
    [reflexivity | exact letter | exact digits | rewrite length_app; lia | | ].
  - destruct ds; [congruence | cbn; lia].
  - cbn [run rest]. unfold charMatches at 1. cbn [inSet]. rewrite Ascii.eqb_refl.
    rewrite shorter. cbn [orb]. unfold consumed. cbn [rest].
    rewrite whole, takeChars_app.
    destruct (String.length (ds ++ String unit_ tail) + 0)%nat;
      cbn [repeatLoop belowMax]; unfold orElse;
      change (1 <? 1)%nat with false; change (0 <=? 1)%nat with true; exact found.
Qed.

(** X17.  formatFlightDuration reads the hours and the minutes of an ISO
    8601 duration: for all non-empty digit strings h and m, "PT<h>H<m>M"
    becomes "<h>h <m>m", the digits being copied as they are and whatever
    follows the minutes (seconds, for instance) being dropped; and
    "PT<h>H" becomes "<h>h 0m". *)
Theorem formatFlightDuration_reads_hours_and_minutes (h m suffix : string) :
  JS.allChars JS.isDigit h = true -> h <> "" ->
  JS.allChars JS.isDigit m = true -> m <> "" ->
  formatFlightDuration ("PT" ++ h ++ "H" ++ m ++ "M" ++ suffix) = h ++ "h " ++ m ++ "m"
  /\ formatFlightDuration ("PT" ++ h ++ "H") = h ++ "h 0m".
Proof.
  intros hd hne md mne.
  assert (both :
            run false (Seq (lit "PT") (Seq (numberWith 1 "H") (numberWith 2 "M")))
              (mkPos None ("PT" ++ h ++ "H" ++ m ++ "M" ++ suffix)) []
              (fun q cs => Some (q, cs))
            = Some (mkPos (Some "M"%char) suffix, [(2%nat, m); (1%nat, h)])).
  { rewrite run_Seq. cbn [lit append]. rewrite run_Seq.
    cbn [run rest]. unfold charMatches. cbn [inSet].
    change (Ascii.eqb "P" "P") with true. change (Ascii.eqb "T" "T") with true. cbv iota.
    apply run_numberWith; [exact hd | exact hne | reflexivity |].
    apply run_numberWith; [exact md | exact mne | reflexivity |].
    reflexivity. }
  assert (hours :
            run false (Seq (lit "PT") (Seq (numberWith 1 "H") (numberWith 2 "M")))
              (mkPos None ("PT" ++ h ++ "H")) [] (fun q cs => Some (q, cs))
            = Some (mkPos (Some "H"%char) "", [(1%nat, h)])).
  { rewrite run_Seq. cbn [lit append]. rewrite run_Seq.
    cbn [run rest]. unfold charMatches. cbn [inSet].
    change (Ascii.eqb "P" "P") with true. change (Ascii.eqb "T" "T") with true. cbv iota.
    apply run_numberWith; [exact hd | exact hne | reflexivity |].
    reflexivity. }
  unfold formatFlightDuration, exec. cbn [append JS.truthy negb search] in *.
  change (ignoreCase isoDuration) with false.
  change (body isoDuration)
    with (Seq (lit "PT") (Seq (numberWith 1 "H") (numberWith 2 "M"))).
  rewrite both, hours.
  unfold groupOrZero, group. cbn [groups lookupGroup Nat.eqb].
  destruct h; [congruence|]. destruct m; [congruence|]. split; reflexivity.
Qed.

Lemma formatFlightDuration_reads_hours_and_minutes_witness :
  formatFlightDuration "PT2H30M" = "2h 30m"
  /\ formatFlightDuration "PT2H" = "2h 0m".
Proof.
  apply (formatFlightDuration_reads_hours_and_minutes "2" "30" "");
    first [reflexivity | discriminate].
Defined.

End Durations.

(** ** The service test endpoint *)

Lemma replies_bind {A B} (P : A -> Prop) (Q : B -> Prop) (c : M A) (k : A -> M B) :
  replies P c -> (forall a, P a -> replies Q (k a)) -> replies Q (bind c k).
Proof.
  intros first then_ tr. unfold bind.
  destruct (first tr) as (a & tr1 & run & ok). rewrite run. now apply then_.
Qed.

Lemma sampled_tested {A} (l : list A) :
  TestController.tested (TestController.sampled l) = true.
Proof. destruct l; reflexivity. Qed.

(** The answer of a completed run of the four tests. *)
Definition allTested (r : TestController.HttpResponse) : Prop :=
  TestController.status r = 200%Z
  /\ TestController.isInitialized (TestController.results r) = true
  /\ TestController.tested (TestController.citySearch (TestController.results r)) = true
  /\ TestController.tested (TestController.flightSearch (TestController.results r)) = true
  /\ TestController.tested (TestController.hotelSearch (TestController.results r)) = true
  /\ TestController.tested (TestController.pointsOfInterestTest (TestController.results r))
     = true.

(** X18.  The service test never throws and a failing service does not
    stop the tests that follow.  When the service is not initialized the
    answer is 500, every entry is left untested and nothing is sent; when
    it is, the answer is 200 and all four entries (city search, flight
    search, hotel search, points of interest) are marked as tested,
    whatever each of the requests did. *)
Theorem testApiServices_runs_every_test (host : Host) (svc : Amadeus.Service) :
  (Amadeus.isInitialized svc = false ->
   forall tr,
     TestController.testApiServices host svc tr
     = (Return (TestController.mkHttp 500
                  "Amadeus client is not initialized. Check environment variables."
                  (TestController.mkResults false TestController.untested
                     TestController.untested TestController.untested
                     TestController.untested)),
        tr))
  /\ (Amadeus.isInitialized svc = true ->
      replies allTested (TestController.testApiServices host svc)).
Proof.
  unfold TestController.testApiServices, Amadeus.isClientInitialized.
  split; intros ->; cbn [negb]; [reflexivity|].
  apply (replies_bind (fun t => TestController.tested t = true)).
  { apply replies_tryCatch; [| intro; now apply replies_ret].
    apply yields_bind; intro. now apply yields_ret. }
  intros city cityTested.
  apply (replies_bind (fun t => TestController.tested t = true)).
  { apply replies_tryCatch; [| intro; now apply replies_ret].
    apply yields_bind; intro. apply yields_ret, sampled_tested. }
  intros flights flightsTested.
  apply (replies_bind (fun t => TestController.tested t = true)).
  { apply replies_tryCatch; [| intro; now apply replies_ret].
    apply yields_bind; intro. apply yields_ret, sampled_tested. }
  intros hotels hotelsTested.
  apply (replies_bind (fun t => TestController.tested t = true)).
  { apply replies_tryCatch; [| intro; now apply replies_ret].
    apply yields_bind; intros [l|]; apply yields_ret;
      [apply sampled_tested | reflexivity]. }
  intros pois poisTested.
  apply replies_ret. unfold allTested. cbn. tauto.
Qed.

(** ** Masked credentials *)

(** X19.  The debug route shows three characters of each end of a
    credential and nothing of what lies between them: for a credential
    that starts with three characters [first] and ends with three
    characters [last], the masked text is [first...last], whatever stands
    in the middle. *)
Theorem mask_hides_the_middle (first middle last : string) :
  String.length first = 3%nat -> String.length last = 3%nat ->
  DebugRoutes.mask (Some (first ++ middle ++ last)%string)
  = (first ++ "..." ++ last)%string.
Proof.
  intros three three'.
  unfold DebugRoutes.mask, DebugRoutes.lastThree.
  replace (JS.truthy (first ++ middle ++ last)) with true
    by (destruct first; [discriminate three | reflexivity]).
  assert (front : JS.takeChars 3 (first ++ middle ++ last) = first)
    by (rewrite <- three; apply takeChars_app).
  assert (back : JS.dropChars (String.length (first ++ middle ++ last) - 3)
                   (first ++ middle ++ last) = last).
  { replace (String.length (first ++ middle ++ last) - 3)%nat
      with (String.length (first ++ middle)%string)
      by (rewrite !length_app; lia).
    rewrite <- (append_assoc first middle last). apply dropChars_app. }
  now rewrite front, back.
Qed.

Lemma mask_hides_the_middle_witness :
  DebugRoutes.mask (Some "abc-secret-key-xyz"%string) = "abc...xyz"%string.
Proof.
  exact (mask_hides_the_middle "abc" "-secret-key-" "xyz" eq_refl eq_refl).
Defined.

(** X20.  A credential of one to three characters is not masked at all:
    the masked text shows it in full, twice. *)
Theorem mask_discloses_short_credentials (credential : string) :
  credential <> EmptyString -> (String.length credential <= 3)%nat ->
  DebugRoutes.mask (Some credential) = (credential ++ "..." ++ credential)%string.
Proof.
  intros given short.
  destruct credential as [| a [| b [| c [| d more]]]]; cbn in short;
    first [congruence | reflexivity | lia].
Qed.

Lemma mask_discloses_short_credentials_witness :
  DebugRoutes.mask (Some "key"%string) = "key...key"%string.
Proof.
  apply (mask_discloses_short_credentials "key"); [discriminate | cbn; lia].
Defined.

(** ** Provider rejections at the booking endpoint *)

(** A rejection by the provider: status 400 with one error item. *)
Definition rejection (code : Z) (title detail : string) : JsError :=
  mkJsError "Bad Request"%string
    (Some (mkErrResponse 400
             (Some (mkResponseBody [mkApiErrorItem code title detail] "(body)"%string)))).

(** A provider that prices every offer at [amount] dollars and answers
    every order with the error [e]. *)
Definition refusing (amount : string) (e : JsError) : Client :=
  mkClient (fun _ _ => Fails Samples.offline) (fun _ _ => Fails Samples.offline)
    (fun _ _ => Data (Some (mkPricingData (Some [Samples.offerAt amount]))))
    (fun _ _ => Fails e)
    (fun _ _ => Fails Samples.offline) (fun _ _ => Fails Samples.offline)
    (fun _ _ => Fails Samples.offline).

(** X21.  A price change reported by the provider is answered with 409
    PRICE_CHANGED at either stage.  When the pricing request, or the
    order request that follows an unchanged price, is rejected with
    status 400 and error code 37200, createBooking answers 409 with the
    error PRICE_CHANGED, and no request follows the rejected one. *)
Theorem provider_price_change_is_a_conflict
  (host : Host) (c : Client) (body : BookingController.BookingRequest)
  (offer : FlightOffer) (tr : Trace) (e : JsError) (item : ApiErrorItem) :
  let svc := Amadeus.mkService (Some c) true in
  let pricing :=
    Amadeus.pricingRequest [offer] (BookingController.travelerDetails body) in
  BookingController.selectedOffer body = Some offer ->
  Amadeus.hasStatus e 400 = true ->
  Amadeus.firstError e = Some item ->
  errCode item = 37200%Z ->
  (flightOffersPricing c tr pricing = Fails e ->
   BookingController.createBooking host svc body tr
   = (Return (BookingController.mkHttp 409
                (BookingController.ErrorJson "PRICE_CHANGED"
                   (Some ("Price has changed. " ++ errDetail item)%string))),
      (tr ++ [EvApi pricing])%list))
  /\ (forall confirmed others,
        flightOffersPricing c tr pricing
        = Data (Some (mkPricingData (Some (confirmed :: others)))) ->
        BookingController.priceChanged (parseFloat host (total (price offer)))
          (parseFloat host (total (price confirmed))) = false ->
        flightOrders c (tr ++ [EvApi pricing])%list (bookingRequest confirmed body)
        = Fails e ->
        BookingController.createBooking host svc body tr
        = (Return (BookingController.mkHttp 409
                     (BookingController.ErrorJson "PRICE_CHANGED"
                        (Some "Price has changed since confirmation. Please search again."%string))),
           (tr ++ [EvApi pricing; EvApi (bookingRequest confirmed body)])%list)).
Proof.
  intros svc pricing selected bad first moved.
  unfold BookingController.createBooking, Amadeus.confirmFlightPrice,
    Amadeus.createFlightBooking, Amadeus.checkInitialization, tryCatch, bind, request.
  rewrite selected. cbn [svc Amadeus.isInitialized Amadeus.client ret throw].
  fold pricing. split.
  - intros ->. rewrite first, bad, moved. reflexivity.
  - intros confirmed others -> unchanged.
    rewrite unchanged. cbn [ret]. fold (bookingRequest confirmed body).
    intros ->. rewrite bad, first, moved. cbn [Z.eqb Pos.eqb throw].
    rewrite <- app_assoc. reflexivity.
Qed.

Lemma provider_price_change_is_a_conflict_witness :
  BookingController.createBooking Node.host
    (Samples.initialized
       (refusing "500.00" (rejection 37200 "PRICE DISCREPANCY" "Price is now 510.00")))
    (Samples.bookingOf "500.00") []
  = (Return (BookingController.mkHttp 409
               (BookingController.ErrorJson "PRICE_CHANGED"
                  (Some "Price has changed since confirmation. Please search again."%string))),
     [EvApi (Amadeus.pricingRequest [Samples.offerAt "500.00"]
               (Some [mkTraveler "1" "Ada" "Lovelace"]));
      EvApi (bookingRequest (Samples.offerAt "500.00") (Samples.bookingOf "500.00"))]).
Proof.
  destruct (provider_price_change_is_a_conflict Node.host
              (refusing "500.00"
                 (rejection 37200 "PRICE DISCREPANCY" "Price is now 510.00"))
              (Samples.bookingOf "500.00") (Samples.offerAt "500.00") []
              (rejection 37200 "PRICE DISCREPANCY" "Price is now 510.00")
              (mkApiErrorItem 37200 "PRICE DISCREPANCY" "Price is now 510.00")
              eq_refl eq_refl eq_refl eq_refl) as [_ atOrder].
  exact (atOrder (Samples.offerAt "500.00") [] eq_refl eq_refl eq_refl).
Defined.

(** X22.  A payment refused by the provider is answered with 403.  When
    the order request that follows an unchanged price is rejected with
    status 400 and an error titled INVALID FORMAT (whose code is neither
    37200 nor 1398), createBooking answers 403 PAYMENT_NOT_ALLOWED. *)
Theorem provider_payment_refusal_is_forbidden
  (host : Host) (c : Client) (body : BookingController.BookingRequest)
  (offer confirmed : FlightOffer) (others : list FlightOffer) (tr : Trace)
  (e : JsError) (item : ApiErrorItem) :
  let svc := Amadeus.mkService (Some c) true in
  let pricing :=
    Amadeus.pricingRequest [offer] (BookingController.travelerDetails body) in
  BookingController.selectedOffer body = Some offer ->
  flightOffersPricing c tr pricing
  = Data (Some (mkPricingData (Some (confirmed :: others)))) ->
  BookingController.priceChanged (parseFloat host (total (price offer)))
    (parseFloat host (total (price confirmed))) = false ->
  flightOrders c (tr ++ [EvApi pricing])%list (bookingRequest confirmed body) = Fails e ->
  Amadeus.hasStatus e 400 = true ->
  Amadeus.firstError e = Some item ->
  errCode item <> 37200%Z -> errCode item <> 1398%Z ->
  errTitle item = "INVALID FORMAT"%string ->
  BookingController.createBooking host svc body tr
  = (Return (BookingController.mkHttp 403
               (BookingController.ErrorJson "PAYMENT_NOT_ALLOWED"
                  (Some "Direct payment is not allowed in self-service mode. Please work with an airline consolidator for ticketing."%string))),
     (tr ++ [EvApi pricing; EvApi (bookingRequest confirmed body)])%list).
Proof.
  intros svc pricing selected priced unchanged refused bad first notMoved notPassenger
    titled.
  unfold BookingController.createBooking, Amadeus.confirmFlightPrice,
    Amadeus.createFlightBooking, Amadeus.checkInitialization, tryCatch, bind, request.
  rewrite selected. cbn [svc Amadeus.isInitialized Amadeus.client ret throw].
  fold pricing. rewrite priced, unchanged. cbn [ret].
  fold (bookingRequest confirmed body). rewrite refused, bad, first, titled.
  apply Z.eqb_neq in notMoved, notPassenger. rewrite notMoved, notPassenger.
  cbn [String.eqb Ascii.eqb Bool.eqb throw].
  rewrite <- app_assoc. reflexivity.
Qed.

Lemma provider_payment_refusal_is_forbidden_witness :
  fst (BookingController.createBooking Node.host
         (Samples.initialized
            (refusing "500.00" (rejection 38189 "INVALID FORMAT" "payment not allowed")))
         (Samples.bookingOf "500.00") [])
  = Return (BookingController.mkHttp 403
              (BookingController.ErrorJson "PAYMENT_NOT_ALLOWED"
                 (Some "Direct payment is not allowed in self-service mode. Please work with an airline consolidator for ticketing."%string))).
Proof.
  exact (f_equal fst
           (provider_payment_refusal_is_forbidden Node.host
             (refusing "500.00" (rejection 38189 "INVALID FORMAT" "payment not allowed"))
             (Samples.bookingOf "500.00") (Samples.offerAt "500.00")
             (Samples.offerAt "500.00") [] []
             (rejection 38189 "INVALID FORMAT" "payment not allowed")
             (mkApiErrorItem 38189 "INVALID FORMAT" "payment not allowed")
             eq_refl eq_refl eq_refl eq_refl eq_refl eq_refl
             ltac:(discriminate) ltac:(discriminate) eq_refl)).
Defined.
